(** * lore.env: bootstrap of the per-application virtualenv

    A shallow embedding of [lore/env.py]: the functions that decide
    whether the interpreter already runs inside the application's
    virtualenv, validate it, and replace the process by an equivalent
    invocation inside it, together with the module-level code that locates
    the application root and the required interpreter version.

    Python values are modelled as the code uses them: [str] as [string],
    a global that may be [None] as [option string], [os.environ] and the
    file system as finite maps keyed by the strings the process passes
    to them, [sys.argv] as a list.  The characters of a [string] are the
    code points U+0000 to U+00FF: the character ["178"] is the superscript
    two, ["160"] the no-break space, and the [str] methods below treat
    them as Python does.  Control effects ([sys.exit], raised
    exceptions, [os.execv]) are the constructors of [outcome]; the
    functions of the module run in the state monad [M] over the process
    state [Proc]. *)

From Stdlib Require Import Ascii DecimalString.
From Stdlib Require DecimalN DecimalPos.
From stdpp Require Import base strings list gmap.

Local Open Scope char_scope.
Local Open Scope stdpp_scope.

Definition LF : ascii := "010".
Definition CR : ascii := "013".

(** ** Python [str] methods used by the module *)

Module PyStr.

Definition chars : string → list ascii := String.list_ascii_of_string.
Definition text : list ascii → string := String.string_of_list_ascii.

(** Truth value of a [str]: only the empty string is false. *)
Definition nonempty (s : string) : bool :=
  match s with "" => false | _ => true end.

(** [s.startswith(p)] *)
Definition startswith (p s : string) : bool := String.prefix p s.

(** [s.count(c)] for a one-character [c]. *)
Fixpoint count (c : ascii) (s : string) : nat :=
  match s with
  | "" => 0
  | String a s' => (if decide (a = c) then 1 else 0) + count c s'
  end.

(** [s.split(c)] for a one-character separator: never the empty list. *)
Fixpoint split (c : ascii) (s : string) : list string :=
  match s with
  | "" => [""]
  | String a s' =>
      if decide (a = c) then "" :: split c s'
      else match split c s' with
           | [] => [String a ""]
           | w :: ws => String a w :: ws
           end
  end.

Fixpoint drop_while {A} (f : A → bool) (l : list A) : list A :=
  match l with
  | [] => []
  | a :: l' => if f a then drop_while f l' else l
  end.

(** White space as [str.strip()] and [str.isspace()] see it: the
    controls 9 to 13 and 28 to 31, the space, the next-line control
    U+0085 and the no-break space U+00A0. *)
Definition is_space (a : ascii) : bool :=
  let n := Ascii.N_of_ascii a in
  ((9 <=? n) && (n <=? 13) || (28 <=? n) && (n <=? 32)
   || (n =? 133) || (n =? 160))%N.

Definition lstrip_chars (f : ascii → bool) (l : list ascii) := drop_while f l.
Definition rstrip_chars (f : ascii → bool) (l : list ascii) :=
  rev (drop_while f (rev l)).

(** [s.strip()] *)
Definition strip (s : string) : string :=
  text (rstrip_chars is_space (lstrip_chars is_space (chars s))).

(** The decimal digits [0] to [9], and the characters [str.isdigit()]
    takes for digits: the decimal digits and the superscripts two, three
    and one (U+00B2, U+00B3, U+00B9). *)
Definition is_decimal (a : ascii) : bool :=
  let n := Ascii.N_of_ascii a in ((48 <=? n) && (n <=? 57))%N.
Definition is_digit (a : ascii) : bool :=
  let n := Ascii.N_of_ascii a in
  ((48 <=? n) && (n <=? 57) || (n =? 178) || (n =? 179) || (n =? 185))%N.

(** [s.isdigit()]: at least one character, all digits. *)
Definition isdigit (s : string) : bool :=
  nonempty s && forallb is_digit (chars s).

(** [int(s)] for an [s] with [s.isdigit()], the only use the module
    makes of it: such a string has no sign, blank or underscore, and
    [int] accepts it when every character is a decimal digit; [None]
    stands for the [ValueError] it raises otherwise.  [str(n)] for a
    natural number.  Both convert integers of any size. *)
Definition int (s : string) : option N :=
  if nonempty s then N.of_uint <$> NilEmpty.uint_of_string s else None.
Definition str (n : N) : string := NilZero.string_of_uint (N.to_uint n).

(** [s.lower()]: the letters [A] to [Z] and the capital letters U+00C0
    to U+00DE (all but the multiplication sign U+00D7) move up by 32. *)
Definition lower_char (a : ascii) : ascii :=
  let n := Ascii.N_of_ascii a in
  if ((65 <=? n) && (n <=? 90) || (192 <=? n) && (n <=? 222) && negb (n =? 215))%N
  then Ascii.ascii_of_N (n + 32) else a.
Definition lower (s : string) : string := text (map lower_char (chars s)).

(** [s[n:]] *)
Fixpoint skip (n : nat) (s : string) : string :=
  match n, s with
  | S n', String _ s' => skip n' s'
  | _, _ => s
  end.

(** [sep.join(l)] *)
Fixpoint join_with (sep : string) (l : list string) : string :=
  match l with
  | [] => ""
  | [x] => x
  | x :: l' => x +:+ sep +:+ join_with sep l'
  end.

(** [re.sub(r'^python-', '', s)]: the anchored pattern matches at most
    once, at the start. *)
Definition strip_python_prefix (s : string) : string :=
  if startswith "python-" s then skip 7 s else s.

(** What a file opened in text mode hands to the program for the text
    [s] it holds: a carriage return with the line feed after it, or a
    carriage return alone, is read as one line feed. *)
Fixpoint universal_newlines (s : string) : string :=
  match s with
  | "" => ""
  | String a s' =>
      if decide (a = CR) then
        String LF
          match s' with
          | String b s'' =>
              if decide (b = LF) then universal_newlines s''
              else universal_newlines s'
          | "" => ""
          end
      else String a (universal_newlines s')
  end.

(** What a file opened in text mode stores for the text [s] written to
    it: every line feed becomes [linesep]. *)
Fixpoint platform_newlines (linesep : string) (s : string) : string :=
  match s with
  | "" => ""
  | String a s' =>
      (if decide (a = LF) then linesep else String a "")
        +:+ platform_newlines linesep s'
  end.

End PyStr.

(** ** [os.path]

    [os.path] is the platform's path module: [posixpath] everywhere but on
    Windows.  The module under study uses the four names below. *)

Record PathModule := {
  os_sep : ascii;
  os_path_join : string → list string → string;
  os_path_basename : string → string;
  os_path_dirname : string → string;
}.

Module PosixPath.
Import PyStr.

Definition slash : ascii := "/".
Definition is_slash (a : ascii) : bool := bool_decide (a = slash).
Definition not_slash (a : ascii) : bool := negb (is_slash a).

(** [posixpath.join(a, *p)]: a component that starts with a slash
    discards what precedes it; a slash is inserted unless the path so
    far is empty or ends with one. *)
Definition join1 (path b : string) : string :=
  if startswith "/" b then b
  else if negb (nonempty path)
          || bool_decide (String.get (String.length path - 1) path = Some slash)
       then path +:+ b
       else path +:+ "/" +:+ b.

Definition join (a : string) (p : list string) : string := foldl join1 a p.

(** The reversed [head = p[:p.rfind('/') + 1]]. *)
Definition rev_head (p : list ascii) : list ascii :=
  drop_while not_slash (rev p).

(** [posixpath.basename(p)]: what follows the last slash. *)
Definition basename (p : string) : string :=
  let l := chars p in text (drop (length (rev_head l)) l).

(** [posixpath.dirname(p)]: the head up to the last slash, with its
    trailing slashes removed unless it consists of slashes only. *)
Definition dirname_chars (p : list ascii) : list ascii :=
  let h := rev_head p in
  if forallb is_slash h then rev h else rev (drop_while is_slash h).

Definition dirname (p : string) : string := text (dirname_chars (chars p)).

Definition module : PathModule :=
  {| os_sep := slash; os_path_join := join;
     os_path_basename := basename; os_path_dirname := dirname |}.

End PosixPath.

Abbreviation posixpath := PosixPath.module.

(** ** The process

    What the module reads from its host: [os.environ], the file system
    (under the path strings the process uses), the interpreter's [sys]
    values and [platform.system()]. *)

(** A directory, or a file with the characters it holds; a file is read
    and written in text mode. *)
Inductive node :=
| Directory
| File (content : string).

Global Instance node_eq_dec : EqDecision node.
Proof. solve_decision. Defined.

Record Host := {
  environ : gmap string string;
  fs : gmap string node;
  resolve : string → string → string;  (* os.path.realpath(path) in the working directory given first *)
  can_exec : string → bool;            (* whether os.execv of the path succeeds *)
  cwd : string;                        (* os.getcwd() *)
  platform_system : string;            (* platform.system() *)
  sys_argv : list string;
  sys_prefix : string;
  sys_version_info : N * N * N;        (* major, minor, micro *)
}.

(** [os.path.realpath(path)] *)
Definition realpath (h : Host) (path : string) : string := resolve h (cwd h) path.

(** A component of [PYTHON_VERSION_INFO]: [int(i) if i.isdigit() else i]. *)
Inductive vcomp :=
| VInt (n : N)
| VStr (s : string).

Global Instance vcomp_eq_dec : EqDecision vcomp.
Proof. solve_decision. Defined.

(** The globals assigned by [set_python_version], with the values they
    have at lines 371-377 until then. *)
Record Venv := {
  PYTHON_VERSION : option string;
  PYTHON_VERSION_INFO : list vcomp;
  PREFIX : option string;
  BIN_PYTHON : option string;
  BIN_LORE : option string;
  BIN_JUPYTER : option string;
  BIN_FLASK : option string;
  FLASK_APP : option string;
}.

(** The globals assigned once by the module body; all are [str]. *)
Record App := {
  ROOT : string;
  HOME : string;
  APP : string;
  REQUIREMENTS : string;
  REQUIREMENTS_VCS : string;
  PYENV : string;
  BIN_PYENV : string;
  JUPYTER_KERNEL_PATH : string;
}.

Record Proc := {
  host : Host;
  stdout : list string;                (* lines printed so far *)
  app : App;
  venv : Venv;
}.

Definition VERSION_PATH : string := "runtime.txt".

Definition default_venv : Venv :=
  {| PYTHON_VERSION := None; PYTHON_VERSION_INFO := []; PREFIX := None;
     BIN_PYTHON := None; BIN_LORE := None; BIN_JUPYTER := None;
     BIN_FLASK := None; FLASK_APP := None |}.

(** Names the module body has not bound yet hold the empty string. *)
Definition unbound_app : App :=
  {| ROOT := ""; HOME := ""; APP := ""; REQUIREMENTS := "";
     REQUIREMENTS_VCS := ""; PYENV := ""; BIN_PYENV := "";
     JUPYTER_KERNEL_PATH := "N/A" |}.

(** The interpreter at the moment [import lore.env] starts. *)
Definition fresh (h : Host) : Proc :=
  {| host := h; stdout := []; app := unbound_app; venv := default_venv |}.

(** *** Assignments to globals *)

Definition with_venv (f : Venv → Venv) (p : Proc) : Proc :=
  {| host := host p; stdout := stdout p; app := app p; venv := f (venv p) |}.
Definition with_app (f : App → App) (p : Proc) : Proc :=
  {| host := host p; stdout := stdout p; app := f (app p); venv := venv p |}.
Definition with_host (f : Host → Host) (p : Proc) : Proc :=
  {| host := f (host p); stdout := stdout p; app := app p; venv := venv p |}.
Definition with_stdout (f : list string → list string) (p : Proc) : Proc :=
  {| host := host p; stdout := f (stdout p); app := app p; venv := venv p |}.

Definition upd_PYTHON_VERSION (x : option string) (v : Venv) : Venv :=
  {| PYTHON_VERSION := x; PYTHON_VERSION_INFO := PYTHON_VERSION_INFO v;
     PREFIX := PREFIX v; BIN_PYTHON := BIN_PYTHON v; BIN_LORE := BIN_LORE v;
     BIN_JUPYTER := BIN_JUPYTER v; BIN_FLASK := BIN_FLASK v;
     FLASK_APP := FLASK_APP v |}.
Definition upd_PYTHON_VERSION_INFO (x : list vcomp) (v : Venv) : Venv :=
  {| PYTHON_VERSION := PYTHON_VERSION v; PYTHON_VERSION_INFO := x;
     PREFIX := PREFIX v; BIN_PYTHON := BIN_PYTHON v; BIN_LORE := BIN_LORE v;
     BIN_JUPYTER := BIN_JUPYTER v; BIN_FLASK := BIN_FLASK v;
     FLASK_APP := FLASK_APP v |}.
Definition upd_PREFIX (x : option string) (v : Venv) : Venv :=
  {| PYTHON_VERSION := PYTHON_VERSION v;
     PYTHON_VERSION_INFO := PYTHON_VERSION_INFO v;
     PREFIX := x; BIN_PYTHON := BIN_PYTHON v; BIN_LORE := BIN_LORE v;
     BIN_JUPYTER := BIN_JUPYTER v; BIN_FLASK := BIN_FLASK v;
     FLASK_APP := FLASK_APP v |}.
Definition upd_BIN_PYTHON (x : option string) (v : Venv) : Venv :=
  {| PYTHON_VERSION := PYTHON_VERSION v;
     PYTHON_VERSION_INFO := PYTHON_VERSION_INFO v;
     PREFIX := PREFIX v; BIN_PYTHON := x; BIN_LORE := BIN_LORE v;
     BIN_JUPYTER := BIN_JUPYTER v; BIN_FLASK := BIN_FLASK v;
     FLASK_APP := FLASK_APP v |}.
Definition upd_BIN_LORE (x : option string) (v : Venv) : Venv :=
  {| PYTHON_VERSION := PYTHON_VERSION v;
     PYTHON_VERSION_INFO := PYTHON_VERSION_INFO v;
     PREFIX := PREFIX v; BIN_PYTHON := BIN_PYTHON v; BIN_LORE := x;
     BIN_JUPYTER := BIN_JUPYTER v; BIN_FLASK := BIN_FLASK v;
     FLASK_APP := FLASK_APP v |}.
Definition upd_BIN_JUPYTER (x : option string) (v : Venv) : Venv :=
  {| PYTHON_VERSION := PYTHON_VERSION v;
     PYTHON_VERSION_INFO := PYTHON_VERSION_INFO v;
     PREFIX := PREFIX v; BIN_PYTHON := BIN_PYTHON v; BIN_LORE := BIN_LORE v;
     BIN_JUPYTER := x; BIN_FLASK := BIN_FLASK v; FLASK_APP := FLASK_APP v |}.
Definition upd_BIN_FLASK (x : option string) (v : Venv) : Venv :=
  {| PYTHON_VERSION := PYTHON_VERSION v;
     PYTHON_VERSION_INFO := PYTHON_VERSION_INFO v;
     PREFIX := PREFIX v; BIN_PYTHON := BIN_PYTHON v; BIN_LORE := BIN_LORE v;
     BIN_JUPYTER := BIN_JUPYTER v; BIN_FLASK := x; FLASK_APP := FLASK_APP v |}.
Definition upd_FLASK_APP (x : option string) (v : Venv) : Venv :=
  {| PYTHON_VERSION := PYTHON_VERSION v;
     PYTHON_VERSION_INFO := PYTHON_VERSION_INFO v;
     PREFIX := PREFIX v; BIN_PYTHON := BIN_PYTHON v; BIN_LORE := BIN_LORE v;
     BIN_JUPYTER := BIN_JUPYTER v; BIN_FLASK := BIN_FLASK v; FLASK_APP := x |}.
Definition upd_ROOT (x : string) (a : App) : App :=
  {| ROOT := x; HOME := HOME a; APP := APP a; REQUIREMENTS := REQUIREMENTS a;
     REQUIREMENTS_VCS := REQUIREMENTS_VCS a; PYENV := PYENV a;
     BIN_PYENV := BIN_PYENV a; JUPYTER_KERNEL_PATH := JUPYTER_KERNEL_PATH a |}.
Definition upd_cwd (x : string) (h : Host) : Host :=
  {| environ := environ h; fs := fs h; resolve := resolve h;
     can_exec := can_exec h; cwd := x; platform_system := platform_system h;
     sys_argv := sys_argv h; sys_prefix := sys_prefix h;
     sys_version_info := sys_version_info h |}.

(** ** Control effects *)

Inductive exn :=
| IndexError
| TypeError
| ValueError
| OSError
| OtherError (name : string).

Inductive outcome (A : Type) : Type :=
| Returns (a : A) (p : Proc)                       (* normal return *)
| Exits (message : string) (p : Proc)              (* sys.exit(message) *)
| Raises (e : exn) (p : Proc)                      (* uncaught exception *)
| Replaced (path : string) (args : list string)    (* os.execv succeeded *)
| Spinning.                                        (* loop still running: out of fuel *)
Arguments Returns {A} a p.
Arguments Exits {A} message p.
Arguments Raises {A} e p.
Arguments Replaced {A} path args.
Arguments Spinning {A}.

Definition M (A : Type) : Type := Proc → outcome A.

Definition ret {A} (a : A) : M A := fun p => Returns a p.
Definition bind {A B} (m : M A) (k : A → M B) : M B :=
  fun p =>
    match m p with
    | Returns a p' => k a p'
    | Exits msg p' => Exits msg p'
    | Raises e p' => Raises e p'
    | Replaced path args => Replaced path args
    | Spinning => Spinning
    end.

Notation "'let*' x ':=' m 'in' k" := (bind m (fun x => k))
  (at level 10, x name, m at level 100, k at level 200).
Notation "m '>>' k" := (bind m (fun _ => k))
  (at level 90, right associativity).

Definition gets {A} (f : Proc → A) : M A := fun p => Returns (f p) p.
Definition modify (f : Proc → Proc) : M unit := fun p => Returns tt (f p).
Definition global {A} (f : Venv → A) : M A := gets (f ∘ venv).
Definition constant {A} (f : App → A) : M A := gets (f ∘ app).
Definition assign (f : Venv → Venv) : M unit := modify (with_venv f).
Definition sys_exit {A} (message : string) : M A := fun p => Exits message p.
Definition raise {A} (e : exn) : M A := fun p => Raises e p.
Definition spin {A} : M A := fun _ => Spinning.
Definition print (line : string) : M unit :=
  modify (with_stdout (fun out => out ++ [line])).

(** [try: m  except Exception as e: h e]; [SystemExit] is not an
    [Exception] and passes through. *)
Definition try_except {A} (m : M A) (h : exn → M A) : M A :=
  fun p => match m p with Raises e p' => h e p' | o => o end.

(** Truth value of a name bound to [None] or a [str]. *)
Definition truthy (v : option string) : bool :=
  match v with Some s => PyStr.nonempty s | None => false end.

(** [str + v] where [v] may be [None]. *)
Definition as_str (v : option string) : M string :=
  match v with Some s => ret s | None => raise TypeError end.

(** A value whose computation raises [e] when it is [None]. *)
Definition from_option {A} (e : exn) (o : option A) : M A :=
  match o with Some a => ret a | None => raise e end.

(** [t[i]] on a tuple or list. *)
Definition index {A} (t : list A) (i : nat) : M A :=
  match t !! i with Some x => ret x | None => raise IndexError end.

Definition dquote : string := String "034" "".
Definition newline : string := String LF "".

(** ** Imported modules

    What [lore/env.py] imports and calls without defining it: the
    platform's [os.path] and [os.linesep], the [ansi] helpers,
    [pkg_resources.require] and the two commands of [lore.__main__]. *)

Inductive require_result :=
| Satisfied
| Unsatisfied (error : string)   (* ContextualVersionConflict, DistributionNotFound, VersionConflict *)
| ParseError                     (* RequirementParseError *)
| Failed (e : exn).              (* anything else *)

Class Library := {
  os_path : PathModule;
  os_linesep : string;
  ansi_error : string;
  ansi_warning : string;
  ansi_info : string;
  ansi_bold : string → string;
  ansi_underline : string → string;
  pkg_resources_require : list string → Proc → require_result;
  (* list(set(a) - set(b)): the elements of a that are not in b, each once,
     in the order the interpreter's set enumerates them *)
  set_difference : list string → list string → list string;
  set_difference_NoDup : ∀ a b, NoDup (set_difference a b);
  set_difference_elem_of : ∀ a b x, x ∈ set_difference a b ↔ x ∈ a ∧ x ∉ b;
  lore_install : M unit;                 (* lore.__main__.install(None, None) *)
  lore_install_requirements : M unit;    (* lore.__main__.install_requirements(None) *)
}.

Section Env.
Context `{L : Library}.

Definition path_join : string → list string → string := os_path_join os_path.

(** *** Operating-system calls *)

(** [os.path.exists(path)]: [None] is not a path. *)
Definition os_path_exists (path : option string) : M bool :=
  match path with
  | Some f => gets (fun p => bool_decide (is_Some (fs (host p) !! f)))
  | None => raise TypeError
  end.

(** [open(path).read()], in text mode *)
Definition read_text (path : string) : M string :=
  let* n := gets (fun p => fs (host p) !! path) in
  match n with
  | Some (File content) => ret (PyStr.universal_newlines content)
  | _ => raise OSError
  end.

(** The lines of a text as read, each with its line feed, as
    [readlines] returns them. *)
Fixpoint lines_from (cur : string) (s : string) : list string :=
  match s with
  | "" => if PyStr.nonempty cur then [String.rev cur] else []
  | String a s' =>
      if decide (a = LF) then String.rev (String a cur) :: lines_from "" s'
      else lines_from (String a cur) s'
  end.
Definition readlines (path : string) : M (list string) :=
  let* content := read_text path in ret (lines_from "" content).

Definition os_environ_get (name : string) : M (option string) :=
  gets (fun p => environ (host p) !! name).

Definition os_getcwd : M string := gets (cwd ∘ host).

Definition os_chdir (path : string) : M unit :=
  let* n := gets (fun p => fs (host p) !! path) in
  match n with
  | Some Directory => modify (with_host (upd_cwd path))
  | _ => raise OSError
  end.

(** [os.execv(path, args)]: on success nothing of the process is left. *)
Definition os_execv (path : option string) (args : list (option string)) : M unit :=
  match path, mapM id args with
  | Some f, Some argv =>
      let* ok := gets (fun p => can_exec (host p) f) in
      if ok then (fun _ => Replaced f argv) else raise OSError
  | _, _ => raise TypeError
  end.

(** *** [lore.env] *)

(** [exists()] *)
Definition exists_ (p : Proc) : bool :=
  bool_decide (PYTHON_VERSION (venv p) ≠ None).

(** [launched()] *)
Definition launched (p : Proc) : bool :=
  if negb (truthy (PREFIX (venv p))) then false
  else bool_decide (Some (realpath (host p) (sys_prefix (host p)))
                    = realpath (host p) <$> PREFIX (venv p)).

(** [validate()] *)
Definition validate : M unit :=
  let* root := constant ROOT in
  let* name := constant APP in
  let* found := os_path_exists (Some (path_join root [name; "__init__.py"])) in
  (if negb found then
     let message := ansi_error +:+ " Python module not found." in
     let* lore_app := os_environ_get "LORE_APP" in
     sys_exit
       (message +:+
        (if bool_decide (lore_app = None)
         then " $LORE_APP is not set. Should it be different than "
                +:+ dquote +:+ name +:+ dquote +:+ "?"
         else " $LORE_APP is set to " +:+ dquote +:+ name +:+ dquote
                +:+ ". Should it be different?"))
   else ret tt) >>
  let* found := gets exists_ in
  if found then ret tt
  else
    let* argv := gets (sys_argv ∘ host) in
    let command := match argv with _ :: c :: _ => c | _ => "lore" end in
    sys_exit (ansi_error +:+ " " +:+ ansi_bold command
                +:+ " is only available in lore app directories (missing "
                +:+ ansi_underline VERSION_PATH +:+ ")").

(** [sys.version_info[0:3]] *)
Definition running_version (p : Proc) : list vcomp :=
  let '(major, minor, micro) := sys_version_info (host p) in
  [VInt major; VInt minor; VInt micro].

(** [check_version()].  The initial [PYTHON_VERSION_INFO = []] is a list,
    which no tuple equals; its slice is empty and differs from the three
    components of [sys.version_info] in the model as well. *)
Definition check_version : M unit :=
  let* running := gets running_version in
  let* required := global PYTHON_VERSION_INFO in
  if bool_decide (running = take 3 required) then ret tt
  else
    let* python := global BIN_PYTHON in
    let* python := as_str python in
    sys_exit
      (ansi_error +:+ " your virtual env points to the wrong python version. "
         +:+ "This is likely because you used a python installer that clobbered "
         +:+ "the system installation, which breaks virtualenv creation. "
         +:+ "To fix, check this symlink, and delete the installation of python "
         +:+ "that it is brokenly pointing to, then delete the virtual env itself "
         +:+ "and rerun lore install: " +:+ os_linesep +:+ os_linesep +:+ python
         +:+ os_linesep).

(** [reboot] with its extra positional arguments *)
Definition reboot (extra : list string) : M unit :=
  let* argv := gets (sys_argv ∘ host) in
  let args : list (option string) := Some <$> (argv ++ extra) in
  let* first := index args 0 in
  let* args :=
    (if bool_decide (first = Some "python") || negb (truthy first) then
       let* python := global BIN_PYTHON in ret (<[0 := python]> args)
     else
       let* script := index argv 0 in
       if bool_decide (os_path_basename os_path script ∈ ["lore"; "lore.exe"]) then
         let* lore := global BIN_LORE in ret (<[0 := lore]> args)
       else ret args) in
  try_except
    (let* path := index args 0 in os_execv path args)
    (fun e =>
       let* path := index args 0 in
       let* lore := global BIN_LORE in
       (if bool_decide (path = lore) then
          let* command := index args 1 in
          if bool_decide (command = Some "console") then
            let* kernel := constant JUPYTER_KERNEL_PATH in
            print (ansi_error +:+ " Your jupyter kernel may be corrupt. "
                     +:+ "Please remove it so lore can reinstall:" +:+ newline
                     +:+ " $ rm " +:+ kernel)
          else ret tt
        else ret tt) >>
       raise e).

(** [launch()] *)
Definition launch : M unit :=
  let* inside := gets launched in
  if inside then
    check_version >>
    let* root := constant ROOT in
    os_chdir root
  else
    let* lore := global BIN_LORE in
    let* found := os_path_exists lore in
    (if negb found then
       let* name := constant APP in
       let missing := " " +:+ name +:+ " virtualenv is missing." in
       let* argv := gets (sys_argv ∘ host) in
       if bool_decide ("--launched" ∈ argv) then
         sys_exit (ansi_error +:+ missing +:+ " Please check for errors during:"
                     +:+ newline +:+ " $ lore install" +:+ newline)
       else
         print (ansi_warning +:+ missing) >>
         lore_install
     else ret tt) >>
    reboot ["--env-launched"].

(** [re.match(r'^(-e )?(git|svn|hg|bzr).*', d)]: the line starts with
    one of the four names, after an optional ["-e "]. *)
Definition names_vcs (d : string) : bool :=
  existsb (fun name => PyStr.startswith name d) ["git"; "svn"; "hg"; "bzr"].
Definition is_vcs (d : string) : bool :=
  PyStr.startswith "-e " d && names_vcs (PyStr.skip 3 d) || names_vcs d.

(** [vcs] and [list(set(dependencies) - set(vcs))] *)
Definition to_verify (dependencies : list string) : list string :=
  let vcs := filter (fun d => is_vcs d = true) dependencies in
  set_difference dependencies vcs.

(** [check_requirements()] *)
Definition check_requirements : M unit :=
  let* requirements := constant REQUIREMENTS in
  let* found := os_path_exists (Some requirements) in
  (if negb found then
     sys_exit (ansi_error +:+ " " +:+ ansi_underline requirements
                 +:+ " is missing. Please check it in.")
   else ret tt) >>
  let* dependencies := readlines requirements in
  let dependencies := to_verify dependencies in
  let* verdict := gets (pkg_resources_require dependencies) in
  let* missing :=
    match verdict with
    | Satisfied => ret []
    | Unsatisfied error => ret [error]
    | ParseError => ret []
    | Failed e => raise e
    end in
  if bool_decide (missing ≠ []) then
    let missing := " missing requirement:" +:+ newline +:+ "  "
                     +:+ PyStr.join_with os_linesep missing in
    let* argv := gets (sys_argv ∘ host) in
    if bool_decide ("--env-checked" ∈ argv) then
      sys_exit (ansi_error +:+ missing +:+ newline
                  +:+ "Requirement installation failure, please check for errors in:"
                  +:+ newline +:+ " $ lore install" +:+ newline)
    else
      print (ansi_warning +:+ missing) >>
      lore_install_requirements >>
      reboot ["--env-checked"]
  else ret tt.

(** [read_version(path)] *)
Definition read_version (path : string) : M (option string) :=
  let* found := os_path_exists (Some path) in
  let* version :=
    (if found then
       let* content := read_text path in ret (Some (PyStr.strip content))
     else ret None) in
  if truthy version then
    ret (PyStr.strip_python_prefix <$> version)
  else ret version.

(** [int(i) if i.isdigit() else i]; [None] when [int] raises. *)
Definition parse_component (i : string) : option vcomp :=
  if PyStr.isdigit i then VInt <$> PyStr.int i else Some (VStr i).

(** [str(c)] of a component. *)
Definition str_of (c : vcomp) : string :=
  match c with VInt n => PyStr.str n | VStr s => s end.

(** [BIN_PYTHON = candidate] unless the current [BIN_PYTHON] exists. *)
Definition unless_python_exists (candidate : string) : M unit :=
  let* python := global BIN_PYTHON in
  let* found := os_path_exists python in
  if negb found then assign (upd_BIN_PYTHON (Some candidate)) else ret tt.

(** [set_python_version(python_version)] *)
Definition set_python_version (python_version : option string) : M unit :=
  assign (upd_PYTHON_VERSION python_version) >>
  if truthy python_version then
    let version := default "" python_version in
    let* info :=
      from_option ValueError (mapM parse_component (PyStr.split "." version)) in
    assign (upd_PYTHON_VERSION_INFO info) >>
    let* system := gets (platform_system ∘ host) in
    if bool_decide (system = "Windows") then
      let* root := constant ROOT in
      let prefix := path_join (PyStr.lower root) [".python"] in
      assign (upd_PREFIX (Some prefix)) >>
      let bin_venv := path_join prefix ["scripts"] in
      assign (upd_BIN_PYTHON (Some (path_join bin_venv ["python.exe"]))) >>
      assign (upd_BIN_LORE (Some (path_join bin_venv ["lore.exe"]))) >>
      assign (upd_BIN_JUPYTER (Some (path_join bin_venv ["jupyter.exe"]))) >>
      assign (upd_BIN_FLASK (Some (path_join bin_venv ["flask.exe"]))) >>
      assign (upd_FLASK_APP
                (Some (path_join prefix
                         ["lib"; "site-packages"; "lore"; "www"; "__init__.py"])))
    else
      let* pyenv := constant PYENV in
      let* prefix :=
        (if PyStr.nonempty pyenv then
           let* name := constant APP in
           ret (path_join pyenv ["versions"; version; "envs"; name])
         else
           gets (fun p => realpath (host p) (sys_prefix (host p)))) in
      assign (upd_PREFIX (Some prefix)) >>
      let* major := index info 0 in
      let python_major := "python" +:+ str_of major in
      let* minor := index info 1 in
      let python_minor := python_major +:+ "." +:+ str_of minor in
      let* patch := index info 2 in
      let python_patch := python_minor +:+ "." +:+ str_of patch in
      assign (upd_BIN_PYTHON (Some (path_join prefix ["bin"; python_patch]))) >>
      unless_python_exists (path_join prefix ["bin"; python_minor]) >>
      unless_python_exists (path_join prefix ["bin"; python_major]) >>
      unless_python_exists (path_join prefix ["bin"; "python"]) >>
      assign (upd_BIN_LORE (Some (path_join prefix ["bin"; "lore"]))) >>
      assign (upd_BIN_JUPYTER (Some (path_join prefix ["bin"; "jupyter"]))) >>
      assign (upd_BIN_FLASK (Some (path_join prefix ["bin"; "flask"]))) >>
      assign (upd_FLASK_APP
                (Some (path_join prefix
                         ["lib"; python_minor; "site-packages"; "lore"; "www";
                          "__init__.py"])))
  else ret tt.

(** *** The module body, lines 380 to 409 *)

(** The [while True] loop of lines 389-397: one unit of fuel per
    iteration. *)
Fixpoint climb (fuel : nat) : M unit :=
  match fuel with
  | O => spin
  | S fuel' =>
      let* root := constant ROOT in
      let* version := read_version (path_join root [VERSION_PATH]) in
      assign (upd_PYTHON_VERSION version) >>
      if truthy version then ret tt
      else
        modify (with_app (upd_ROOT (os_path_dirname os_path root))) >>
        let* root := constant ROOT in
        if bool_decide (PyStr.count (os_sep os_path) root = 1) then
          let* here := os_getcwd in
          modify (with_app (upd_ROOT here))
        else climb fuel'
  end.

(** Lines 380-397: [PYTHON_VERSION] and [ROOT]. *)
Definition locate_root (fuel : nat) : M unit :=
  let* version := os_environ_get "LORE_PYTHON_VERSION" in
  assign (upd_PYTHON_VERSION version) >>
  let* root := os_environ_get "LORE_ROOT" in
  if truthy root then
    modify (with_app (upd_ROOT (default "" root))) >>
    let* version := global PYTHON_VERSION in
    if negb (truthy version) then
      let* root := constant ROOT in
      let* version := read_version (path_join root [VERSION_PATH]) in
      assign (upd_PYTHON_VERSION version)
    else ret tt
  else
    let* here := os_getcwd in
    modify (with_app (upd_ROOT here)) >>
    let* version := global PYTHON_VERSION in
    if negb (truthy version) then climb fuel else ret tt.

(** Lines 399-407: the names derived from [ROOT]. *)
Definition derive_paths : M unit :=
  let* root := constant ROOT in
  let* home := os_environ_get "HOME" in
  let home := default root home in
  let* name := os_environ_get "LORE_APP" in
  let name := default (default "" (last (PyStr.split (os_sep os_path) root))) name in
  let* pyenv := os_environ_get "PYENV_ROOT" in
  let pyenv := default (path_join home [".pyenv"]) pyenv in
  let* found := os_path_exists (Some pyenv) in
  let* pyenv :=
    (if found then gets (fun p => realpath (host p) pyenv) else ret pyenv) in
  modify (with_app (fun a =>
    {| ROOT := root; HOME := home; APP := name;
       REQUIREMENTS := path_join root ["requirements.txt"];
       REQUIREMENTS_VCS := path_join root ["requirements.vcs.txt"];
       PYENV := pyenv; BIN_PYENV := path_join pyenv ["bin"; "pyenv"];
       JUPYTER_KERNEL_PATH := JUPYTER_KERNEL_PATH a |})).

(** Lines 380-409, up to and including [set_python_version(PYTHON_VERSION)]. *)
Definition module_body (fuel : nat) : M unit :=
  locate_root fuel >>
  derive_paths >>
  let* version := global PYTHON_VERSION in
  set_python_version version.
End Env.

(** ** Example hosts

    Concrete libraries, hosts and processes on which the statements below
    are exercised. *)

Module Demo.

(** A set that enumerates its elements in the order in which each was
    last inserted. *)
Definition ordered_difference (a b : list string) : list string :=
  filter (.∉ b) (remove_dups a).
Definition ordered_difference_NoDup (a b : list string) :
  NoDup (ordered_difference a b) :=
  NoDup_filter _ _ (NoDup_remove_dups a).
Definition ordered_difference_elem_of (a b : list string) (x : string) :
  x ∈ ordered_difference a b ↔ x ∈ a ∧ x ∉ b :=
  iff_trans (list_elem_of_filter (.∉ b) (remove_dups a) x)
    (iff_trans (and_comm _ _)
       (and_iff_compat_r _ (elem_of_remove_dups a x))).

(** A POSIX host whose [ansi] helpers add nothing, whose requirements
    are always satisfied and whose [lore install] commands do nothing. *)
Definition plain : Library :=
  {| os_path := posixpath; os_linesep := newline;
     ansi_error := "ERROR"; ansi_warning := "WARNING"; ansi_info := "INFO";
     ansi_bold := id; ansi_underline := id;
     pkg_resources_require := fun _ _ => Satisfied;
     set_difference := ordered_difference;
     set_difference_NoDup := ordered_difference_NoDup;
     set_difference_elem_of := ordered_difference_elem_of;
     lore_install := ret tt; lore_install_requirements := ret tt |}.

(** The same host with a requirement that is never met. *)
Definition strict : Library :=
  {| os_path := posixpath; os_linesep := newline;
     ansi_error := "ERROR"; ansi_warning := "WARNING"; ansi_info := "INFO";
     ansi_bold := id; ansi_underline := id;
     pkg_resources_require := fun _ _ => Unsatisfied "pandas";
     set_difference := ordered_difference;
     set_difference_NoDup := ordered_difference_NoDup;
     set_difference_elem_of := ordered_difference_elem_of;
     lore_install := ret tt; lore_install_requirements := ret tt |}.

Definition env362 : string := "/home/u/.pyenv/versions/3.6.2/envs/app".
Definition env362_scratch : string :=
  "/home/u/.pyenv/versions/3.6.2/envs/scratch".

(** An application in [/srv/app] pinned to 3.6.2, started as
    [lore test] from the system interpreter in a subdirectory. *)
Definition outside : Host :=
  {| environ := {[ "HOME" := "/home/u" ]};
     fs := {[ "/srv/app" := Directory;
              "/srv/app/runtime.txt" := File "python-3.6.2";
              "/srv/app/requirements.txt" :=
                File ("pandas" +:+ newline +:+ "-e git+https://github.com/a/b.git"
                        +:+ newline +:+ "numpy");
              "/srv/app/app/__init__.py" := File "";
              "/home/u/.pyenv" := Directory;
              env362 +:+ "/bin/python3.6" := File "";
              env362 +:+ "/bin/lore" := File "" ]};
     resolve := fun _ => id; can_exec := fun _ => true;
     cwd := "/srv/app/app/models";
     platform_system := "Linux";
     sys_argv := ["/usr/local/bin/lore"; "test"];
     sys_prefix := "/usr";
     sys_version_info := (3, 7, 0)%N |}.

(** The same application once the process runs inside its virtualenv. *)
Definition inside : Host :=
  {| environ := environ outside; fs := fs outside;
     resolve := fun _ => id; can_exec := fun _ => true;
     cwd := "/srv/app/app/models";
     platform_system := "Linux";
     sys_argv := [env362 +:+ "/bin/lore"; "test"; "--env-launched"];
     sys_prefix := env362;
     sys_version_info := (3, 6, 2)%N |}.

(** The state lines 380-409 of the module leave on these hosts. *)
Definition app_362 : App :=
  {| ROOT := "/srv/app"; HOME := "/home/u"; APP := "app";
     REQUIREMENTS := "/srv/app/requirements.txt";
     REQUIREMENTS_VCS := "/srv/app/requirements.vcs.txt";
     PYENV := "/home/u/.pyenv"; BIN_PYENV := "/home/u/.pyenv/bin/pyenv";
     JUPYTER_KERNEL_PATH := "N/A" |}.
Definition venv_362 : Venv :=
  {| PYTHON_VERSION := Some "3.6.2";
     PYTHON_VERSION_INFO := [VInt 3; VInt 6; VInt 2];
     PREFIX := Some env362;
     BIN_PYTHON := Some (env362 +:+ "/bin/python3.6");
     BIN_LORE := Some (env362 +:+ "/bin/lore");
     BIN_JUPYTER := Some (env362 +:+ "/bin/jupyter");
     BIN_FLASK := Some (env362 +:+ "/bin/flask");
     FLASK_APP := Some (env362 +:+ "/lib/python3.6/site-packages/lore/www/__init__.py") |}.
Definition imported (h : Host) : Proc :=
  {| host := h; stdout := []; app := app_362; venv := venv_362 |}.

(** A directory that belongs to no application: no [runtime.txt] on the
    way up, no [LORE_] variable. *)
Definition stray : Host :=
  {| environ := {[ "HOME" := "/home/u" ]};
     fs := {[ "/tmp/scratch" := Directory; "/home/u/.pyenv" := Directory ]};
     resolve := fun _ => id; can_exec := fun _ => true;
     cwd := "/tmp/scratch";
     platform_system := "Linux";
     sys_argv := ["python"];
     sys_prefix := "/usr";
     sys_version_info := (3, 7, 0)%N |}.
Definition imported_stray : Proc :=
  {| host := stray; stdout := [];
     app := {| ROOT := "/tmp/scratch"; HOME := "/home/u"; APP := "scratch";
               REQUIREMENTS := "/tmp/scratch/requirements.txt";
               REQUIREMENTS_VCS := "/tmp/scratch/requirements.vcs.txt";
               PYENV := "/home/u/.pyenv";
               BIN_PYENV := "/home/u/.pyenv/bin/pyenv";
               JUPYTER_KERNEL_PATH := "N/A" |};
     venv := default_venv |}.


(** The application of [outside], with the interpreter version pinned
    by [LORE_PYTHON_VERSION]. *)
Definition pinned : Host :=
  {| environ := {[ "HOME" := "/home/u"; "LORE_PYTHON_VERSION" := "3.6.2" ]};
     fs := fs outside;
     resolve := fun _ => id; can_exec := fun _ => true;
     cwd := "/srv/app/app/models";
     platform_system := "Linux";
     sys_argv := ["/usr/local/bin/lore"; "test"];
     sys_prefix := "/usr";
     sys_version_info := (3, 7, 0)%N |}.

(** An application rooted by [LORE_ROOT] whose [runtime.txt] holds only
    white space, without and with [LORE_PYTHON_VERSION]. *)
Definition blank : Host :=
  {| environ := {[ "HOME" := "/home/u"; "LORE_ROOT" := "/srv/app" ]};
     fs := {[ "/srv/app" := Directory;
              "/srv/app/runtime.txt" := File (String " " newline) ]};
     resolve := fun _ => id; can_exec := fun _ => true;
     cwd := "/home/u";
     platform_system := "Linux";
     sys_argv := ["python"];
     sys_prefix := "/usr";
     sys_version_info := (3, 7, 0)%N |}.


(** [outside] re-executed after the requirements were installed. *)
Definition checked : Host :=
  {| environ := environ outside; fs := fs outside;
     resolve := fun _ => id; can_exec := fun _ => true;
     cwd := "/srv/app/app/models";
     platform_system := "Linux";
     sys_argv := ["/usr/local/bin/lore"; "test"; "--env-checked"];
     sys_prefix := "/usr";
     sys_version_info := (3, 7, 0)%N |}.

End Demo.

(** ** Notions of the specification

    Definitions that follow the wording of the specification, to be
    compared with the module's behaviour. *)

(** The components of a version string that are numbers. *)
Definition numeric_components (v : string) : list string :=
  filter (fun i => PyStr.isdigit i = true) (PyStr.split "." v).

(** A component on which line 328 does not fail: it is not made of digit
    characters only, or all of them are decimal digits. *)
Definition readable (i : string) : bool :=
  negb (PyStr.isdigit i) || forallb PyStr.is_decimal (PyStr.chars i).

(** A decimal numeral without leading zeros, and a run of zeros. *)
Definition numeral (X : string) : bool :=
  PyStr.nonempty X && forallb PyStr.is_decimal (PyStr.chars X)
  && (bool_decide (X = "0") || negb (PyStr.startswith "0" X)).
Definition zeros (s : string) : bool :=
  forallb (fun a => bool_decide (a = "0"%char)) (PyStr.chars s).

(** How a component [i] of the version string is written in the name of
    an executable: a component of decimal digits as the numeral it
    stands for, without its leading zeros; a component that is not made
    of digit characters as it is. *)
Inductive written : string → string → Prop :=
| written_number (z X : string) :
    zeros z = true → numeral X = true → written (z +:+ X) X
| written_text (i : string) : PyStr.isdigit i = false → written i i.

(** A version-control line: it starts with the name of one of the four
    systems, after an optional ["-e "]. *)
Definition vcs_line (d : string) : Prop :=
  ∃ name rest, name ∈ ["git"; "svn"; "hg"; "bzr"]
               ∧ (d = name +:+ rest ∨ d = "-e " +:+ name +:+ rest).

(** A piece of text without a line end, and the text of a file whose
    lines [ls] each end with [eol], followed by [rest] without one. *)
Definition plain (l : string) : Prop := PyStr.count LF l = 0 ∧ PyStr.count CR l = 0.

(** The first path of [candidates] that exists, [fallback] when none does. *)
Definition first_existing (files : gmap string node)
    (candidates : list string) (fallback : string) : string :=
  default fallback
    (List.find (fun c => bool_decide (is_Some (files !! c))) candidates).

(** The virtualenv of version [version] outside Windows: under [PYENV]
    when that is set, the real path of [sys.prefix] otherwise. *)
Definition posix_prefix `{L : Library} (p : Proc) (version : string) : string :=
  if PyStr.nonempty (PYENV (app p))
  then path_join (PYENV (app p)) ["versions"; version; "envs"; APP (app p)]
  else realpath (host p) (sys_prefix (host p)).

(** A path that starts with exactly one slash, as [os.getcwd()] returns
    on a POSIX host. *)
Definition rooted_chars (p : list ascii) : Prop :=
  ∃ r, p = PosixPath.slash :: r ∧ head r ≠ Some PosixPath.slash.
Definition rooted (d : string) : bool :=
  match d with
  | String a d' =>
      PosixPath.is_slash a
      && match d' with String b _ => PosixPath.not_slash b | "" => true end
  | "" => false
  end.

Section Walk.
Context `{L : Library}.

(** The version a [runtime.txt] at [path] yields, if any: the file is
    there and what is left of its text, as read, is not empty. *)
Definition version_at (files : gmap string node) (path : string) : option string :=
  match files !! path with
  | Some (File content) =>
      let version :=
        PyStr.strip_python_prefix (PyStr.strip (PyStr.universal_newlines content)) in
      if PyStr.nonempty version then Some version else None
  | _ => None
  end.
Definition yields_version (files : gmap string node) (d : string) : bool :=
  bool_decide (is_Some (version_at files (path_join d [VERSION_PATH]))).

(** The directories examined from [d] upward: [d] itself, then each
    successive parent, up to the first parent whose path contains exactly
    one separator, which is not examined. *)
Fixpoint examined (fuel : nat) (d : string) : list string :=
  d :: match fuel with
       | O => []
       | S fuel' =>
           let parent := os_path_dirname os_path d in
           if bool_decide (PyStr.count (os_sep os_path) parent = 1) then []
           else examined fuel' parent
       end.
Definition ancestors (d : string) : list string := examined (String.length d) d.

(** [ROOT] as the specification describes it: the value of [LORE_ROOT]
    when that is set, otherwise the first examined directory whose
    [runtime.txt] yields a version, otherwise the working directory. *)
Definition claimed_ROOT (h : Host) : string :=
  if truthy (environ h !! "LORE_ROOT") then default "" (environ h !! "LORE_ROOT")
  else default (cwd h)
         (List.find (yields_version (fs h)) (ancestors (cwd h))).
End Walk.

(** Unfolding of the monad's primitives. *)
Ltac unfold_monad :=
  unfold global, constant, assign, os_environ_get, os_getcwd, as_str, index in *;
  unfold bind, ret, gets, modify, sys_exit, raise, print, spin in *.


(** ** Kinds of outcome

    [leaves]: the computation hands the process over or fails, it has no
    normal return.  [proceeds]: it does not stop the process with
    [sys.exit] and is not a loop out of fuel. *)
Definition leaves {A} (o : outcome A) : Prop :=
  match o with
  | Replaced _ _ | Raises _ _ => True
  | _ => False
  end.
Definition proceeds {A} (o : outcome A) : Prop :=
  match o with
  | Exits _ _ | Spinning => False
  | _ => True
  end.

(** ** Further example hosts *)

Module Demo2.



(** Inside a virtualenv named by a path relative to the working
    directory, on a host that resolves relative paths against it. *)
Definition relative : Proc :=
  {| host :=
       {| environ := environ Demo.outside; fs := fs Demo.outside;
          resolve := fun cwd path =>
            if PyStr.startswith "/" path then path else cwd +:+ "/" +:+ path;
          can_exec := fun _ => true;
          cwd := "/srv/app/app";
          platform_system := "Linux";
          sys_argv := ["lore"; "test"];
          sys_prefix := "/srv/app/app/env";
          sys_version_info := (3, 6, 2)%N |};
     stdout := []; app := Demo.app_362;
     venv :=
       {| PYTHON_VERSION := Some "3.6.2";
          PYTHON_VERSION_INFO := [VInt 3; VInt 6; VInt 2];
          PREFIX := Some "env";
          BIN_PYTHON := Some "env/bin/python"; BIN_LORE := Some "env/bin/lore";
          BIN_JUPYTER := Some "env/bin/jupyter"; BIN_FLASK := Some "env/bin/flask";
          FLASK_APP := None |} |}.

(** The application of [Demo.outside] on a host that reports Windows. *)
Definition windows : Host :=
  {| environ := environ Demo.outside; fs := fs Demo.outside;
     resolve := fun _ => id; can_exec := fun _ => true;
     cwd := "/srv/app";
     platform_system := "Windows";
     sys_argv := ["lore"; "test"];
     sys_prefix := "/usr";
     sys_version_info := (3, 6, 2)%N |}.

(** [Demo.outside] with [PYENV_ROOT] set to the empty string: after the
    import [PYENV] is empty. *)
Definition no_pyenv : Proc :=
  {| host := Demo.outside; stdout := [];
     app := {| ROOT := "/srv/app"; HOME := "/home/u"; APP := "app";
               REQUIREMENTS := "/srv/app/requirements.txt";
               REQUIREMENTS_VCS := "/srv/app/requirements.vcs.txt";
               PYENV := ""; BIN_PYENV := "bin/pyenv";
               JUPYTER_KERNEL_PATH := "N/A" |};
     venv := default_venv |}.

End Demo2.

(** Text that consists of white space, and text without any. *)
Definition blank (s : string) : bool := forallb PyStr.is_space (PyStr.chars s).
Definition solid (s : string) : bool :=
  forallb (fun a => negb (PyStr.is_space a)) (PyStr.chars s).

(** ** The rest of [lore.env]

    [extend_path], [get_config], [load_env_directory],
    [set_installed_packages] and [require], with the further Python
    library functions they call. *)

Module PyRe.

(** The characters of the class [[!<>=]]. *)
Definition is_spec (a : ascii) : bool :=
  let n := Ascii.N_of_ascii a in ((n =? 33) || (60 <=? n) && (n <=? 62))%N.

(** [re.split(r'[!<>=]', s)[0]]: what precedes the first such character. *)
Fixpoint before_spec (s : string) : string :=
  match s with
  | "" => ""
  | String a s' => if is_spec a then "" else String a (before_spec s')
  end.

(** [re.split(r'[!<>=]', s)[-1]]: what follows the last such character. *)
Fixpoint after_spec (s : string) : string :=
  match s with
  | "" => ""
  | String a s' =>
      if existsb is_spec (PyStr.chars s') then after_spec s'
      else if is_spec a then s' else s
  end.

(** [s.split('==')[0]]: what precedes the first [==]. *)
Fixpoint before_eqeq (s : string) : string :=
  match s with
  | "" => ""
  | String a s' =>
      if PyStr.startswith "==" s then "" else String a (before_eqeq s')
  end.

(** [re.match(r'^lore[!<>=]', s)] *)
Definition matches_lore (s : string) : bool :=
  PyStr.startswith "lore" s
  && match PyStr.skip 4 s with String a _ => is_spec a | "" => false end.

(** White space as [bytes.split()] sees it. *)
Definition is_bytes_space (a : ascii) : bool :=
  let n := Ascii.N_of_ascii a in ((9 <=? n) && (n <=? 13) || (n =? 32))%N.

(** [b.split()]: the maximal runs without white space. *)
Fixpoint words_from (cur : string) (s : string) : list string :=
  match s with
  | "" => if PyStr.nonempty cur then [String.rev cur] else []
  | String a s' =>
      if is_bytes_space a
      then (if PyStr.nonempty cur then [String.rev cur] else []) ++ words_from "" s'
      else words_from (String a cur) s'
  end.
Definition words (s : string) : list string := words_from "" s.

End PyRe.

Definition upd_environ (f : gmap string string → gmap string string) (h : Host) : Host :=
  {| environ := f (environ h); fs := fs h; resolve := resolve h;
     can_exec := can_exec h; cwd := cwd h; platform_system := platform_system h;
     sys_argv := sys_argv h; sys_prefix := sys_prefix h;
     sys_version_info := sys_version_info h |}.
Definition upd_fs (f : gmap string node → gmap string node) (h : Host) : Host :=
  {| environ := environ h; fs := f (fs h); resolve := resolve h;
     can_exec := can_exec h; cwd := cwd h; platform_system := platform_system h;
     sys_argv := sys_argv h; sys_prefix := sys_prefix h;
     sys_version_info := sys_version_info h |}.

(** The globals [set_installed_packages] assigns. *)
Record Packages := {
  INSTALLED_PACKAGES : option (list string);
  REQUIRED_VERSION : option string;
}.

(** Library functions called by this part of the module. *)
Class Tools := {
  subprocess_check_output : list string → M string;   (* the bytes the command prints *)
  glob_glob : string → Proc → list string;             (* glob.glob(pattern) *)
  os_path_expandvars : string → Proc → string;         (* os.path.expandvars(text) *)
  config : Type;                                       (* a SafeConfigParser *)
  config_read_string : string → M config;              (* SafeConfigParser().read_string *)
  nt_environ_set : string → string → M unit;           (* os.environ[name] = value on Windows *)
}.

(** A name and a value that [os.environ] of a POSIX host takes: no NUL
    character in either, and a name that is not empty and has no [=]. *)
Definition NUL : ascii := "000".
Definition environ_takes (name value : string) : Prop :=
  name ≠ "" ∧ PyStr.count "=" name = 0
  ∧ PyStr.count NUL name = 0 ∧ PyStr.count NUL value = 0.

Section Rest.
Context `{L : Library} `{T : Tools}.

(** [LIB], line 437. *)
Definition LIB (p : Proc) : string := path_join (ROOT (app p)) ["lib"].

(** [extend_path()], on the value of [sys.path]: it returns the new one. *)
Definition extend_path (p : Proc) (sys_path : list string) : list string :=
  let sys_path :=
    if bool_decide (ROOT (app p) ∉ sys_path) then ROOT (app p) :: sys_path
    else sys_path in
  if bool_decide (LIB p ∉ sys_path) then LIB p :: sys_path else sys_path.

(** [os.path.isfile(path)] *)
Definition os_path_isfile (path : string) : M bool :=
  gets (fun p => match fs (host p) !! path with Some (File _) => true | _ => false end).

(** [get_config(path)]; [name] is the global [NAME]. *)
Definition get_config (name path : string) : M (option config) :=
  let* root := constant ROOT in
  let* specific := os_path_exists (Some (path_join root ["config"; name; path])) in
  let path :=
    if specific then path_join root ["config"; name; path]
    else path_join root ["config"; path] in
  let* regular := os_path_isfile path in
  if negb regular then ret None
  else
    let* conf := read_text path in
    let* conf := gets (os_path_expandvars conf) in
    let* parsed := config_read_string conf in
    ret (Some parsed).

(** What [get_config] does with the text read from the file it
    settled on. *)
Definition parse_config (content : string) : M (option config) :=
  let* conf := gets (os_path_expandvars content) in
  let* parsed := config_read_string conf in
  ret (Some parsed).

(** [os.environ[name] = value].  On a POSIX host a NUL character in the
    name or the value and a [=] in the name raise [ValueError], and the
    empty name [OSError]; on Windows, where names are upper-cased and
    other limits hold, the assignment is the parameter
    [nt_environ_set]. *)
Definition os_environ_set (name value : string) : M unit :=
  let* system := gets (platform_system ∘ host) in
  if bool_decide (system = "Windows") then nt_environ_set name value
  else if negb (bool_decide (PyStr.count NUL name = 0 ∧ PyStr.count NUL value = 0))
  then raise ValueError
  else if negb (bool_decide (PyStr.count "=" name = 0)) then raise ValueError
  else if negb (PyStr.nonempty name) then raise OSError
  else modify (with_host (upd_environ (insert name value))).

(** The [for] loop of [load_env_directory]. *)
Fixpoint load_env_files (vars : list string) : M unit :=
  match vars with
  | [] => ret tt
  | var :: vars' =>
      let* regular := os_path_isfile var in
      (if regular then
         let* content := read_text var in
         os_environ_set (os_path_basename os_path var) content
       else ret tt) >>
      load_env_files vars'
  end.

(** [load_env_directory()]; [env_directory] is the global [ENV_DIRECTORY]. *)
Definition load_env_directory (env_directory : string) : M unit :=
  let* vars := gets (glob_glob (path_join env_directory ["*"])) in
  load_env_files vars.

(** The name [pip freeze] lists a package under, as
    [set_installed_packages] keeps it. *)
Definition installed_name (r : string) : string := PyStr.lower (PyRe.before_eqeq r).

(** [set_installed_packages()]: the values it assigns to
    [INSTALLED_PACKAGES] and [REQUIRED_VERSION]. *)
Definition set_installed_packages : M Packages :=
  let* python := global BIN_PYTHON in
  let* found := os_path_exists python in
  if found then
    let* output :=
      subprocess_check_output [default "" python; "-m"; "pip"; "freeze"] in
    let installed := installed_name <$> PyRe.words output in
    let required := List.find PyRe.matches_lore installed in
    let required :=
      if truthy required then PyRe.after_spec <$> required else required in
    ret {| INSTALLED_PACKAGES := Some installed; REQUIRED_VERSION := required |}
  else ret {| INSTALLED_PACKAGES := None; REQUIRED_VERSION := None |}.

(** The name [require] looks up for a requirement. *)
Definition required_name (package : string) : string :=
  PyStr.lower (PyRe.before_spec package).

(** The [for] loop of [require]. *)
Fixpoint collect_missing (installed packages missing : list string) : M (list string) :=
  match packages with
  | [] => ret missing
  | package :: packages' =>
      if bool_decide (required_name package ∉ installed) then
        print (ansi_info +:+ " " +:+ package +:+ " is required.") >>
        collect_missing installed packages' (missing ++ [package])
      else collect_missing installed packages' missing
  end.

(** [with open(path, 'a' or 'w') as f: f.write(data)], in text mode:
    appended to a file that is there, written to a new file of an
    existing directory [directory] otherwise, each line feed as the
    platform's line separator. *)
Definition write_text (directory path data : string) : M unit :=
  let* files := gets (fs ∘ host) in
  let stored := PyStr.platform_newlines os_linesep data in
  match files !! path with
  | Some (File old) => modify (with_host (upd_fs (insert path (File (old +:+ stored)))))
  | Some Directory => raise OSError
  | None =>
      match files !! directory with
      | Some Directory => modify (with_host (upd_fs (insert path (File stored))))
      | _ => raise OSError
      end
  end.

(** [require(packages)]; a single requirement is passed as a list of one.
    It returns the values [set_installed_packages] assigned. *)
Definition require (packages : list string) : M Packages :=
  let* assigned := set_installed_packages in
  match INSTALLED_PACKAGES assigned with
  | None => ret assigned
  | Some installed =>
      let* missing := collect_missing installed packages [] in
      if bool_decide (missing ≠ []) then
        let* requirements := constant REQUIREMENTS in
        let* root := constant ROOT in
        write_text root requirements
          (newline +:+ PyStr.join_with newline missing +:+ newline) >>
        print (ansi_info +:+ " Dependencies added to requirements.txt. Rebooting.") >>
        lore_install >>
        reboot ["--env-checked"] >>
        ret assigned
      else ret assigned
  end.
End Rest.

(** The version [a.b.c] as it is written in [runtime.txt]. *)
Definition dotted (a b c : N) : string :=
  PyStr.str a +:+ "." +:+ PyStr.str b +:+ "." +:+ PyStr.str c.

(** A name without any of the characters [! < > =]. *)
Definition spec_free (s : string) : bool :=
  forallb (fun a => negb (PyRe.is_spec a)) (PyStr.chars s).

(** The requirements [require] finds missing, in the order given. *)
Definition missing_of (installed packages : list string) : list string :=
  filter (fun package => required_name package ∉ installed) packages.

(** ** Example tools and hosts for this part *)

Module Demo3.

(** Tools that keep a configuration as its text, expand nothing, list
    two files and a directory under [/conf/env], and report three packages. *)
Definition tools : Tools :=
  {| subprocess_check_output :=
       fun _ => ret ("numpy==1.13.3" +:+ newline +:+ "Pandas==0.20.3" +:+ newline
                       +:+ "lore==0.5.7" +:+ newline);
     glob_glob := fun _ _ => ["/conf/env/API_KEY"; "/conf/env/old"; "/conf/env/REGION"];
     os_path_expandvars := fun text _ => text;
     config := string;
     config_read_string := ret;
     nt_environ_set := fun _ _ => ret tt |}.

(** [Demo.inside] with configuration files and an environment directory. *)
Definition configured : Host :=
  {| environ := {[ "HOME" := "/home/u"; "REGION" := "eu" ]};
     fs := {[ "/srv/app" := Directory;
              "/srv/app/requirements.txt" := File "pandas";
              "/srv/app/config/aws.cfg" := File "[default]";
              "/srv/app/config/test/aws.cfg" := File "[test]";
              "/srv/app/config/test/redis.cfg" := Directory;
              "/srv/app/config/redis.cfg" := File "[redis]";
              Demo.env362 +:+ "/bin/python3.6" := File "";
              "/conf/env/API_KEY" := File ("secret" +:+ String CR newline);
              "/conf/env/old" := Directory;
              "/conf/env/REGION" := File "us" ]};
     resolve := fun _ => id; can_exec := fun _ => true;
     cwd := "/srv/app";
     platform_system := "Linux";
     sys_argv := [Demo.env362 +:+ "/bin/lore"; "test"; "--env-launched"];
     sys_prefix := Demo.env362;
     sys_version_info := (3, 6, 2)%N |}.

End Demo3.

(** ** Properties *)

(** *** The string and path helpers on concrete values *)

Example split_version :
  PyStr.split "." "3.6.2" = ["3"; "6"; "2"] ∧ PyStr.split "." "" = [""]
  ∧ PyStr.split "/" "/srv/app" = [""; "srv"; "app"].
Proof. by vm_compute. Qed.

Example strip_runtime :
  PyStr.strip (" python-3.6.2" +:+ newline) = "python-3.6.2"
  ∧ PyStr.strip (String "160" "3.6.2" +:+ String "133" "") = "3.6.2"
  ∧ PyStr.strip_python_prefix "python-3.6.2" = "3.6.2"
  ∧ PyStr.strip_python_prefix "3.6.2" = "3.6.2".
Proof. by vm_compute. Qed.

Example parse_components :
  mapM parse_component (PyStr.split "." "3.06.x") = Some [VInt 3; VInt 6; VStr "x"]
  ∧ mapM parse_component (PyStr.split "." ("3.6." +:+ String "178" "")) = None
  ∧ parse_component "" = Some (VStr "").
Proof. by vm_compute. Qed.

Example lower_capitals :
  PyStr.lower ("/Srv/" +:+ String "201" "T" +:+ String "215" "")
  = "/srv/" +:+ String "233" "t" +:+ String "215" "".
Proof. by vm_compute. Qed.

Example text_mode_newlines :
  PyStr.universal_newlines
    ("a" +:+ String CR (String LF "b") +:+ String CR "c" +:+ String LF (String CR ""))
  = "a" +:+ String LF "b" +:+ String LF "c" +:+ String LF (String LF "")
  ∧ PyStr.platform_newlines (String CR (String LF "")) ("a" +:+ String LF "b")
    = "a" +:+ String CR (String LF "b").
Proof. by vm_compute. Qed.

Example posix_dirname :
  PosixPath.dirname <$> ["/srv/app/lib"; "/srv"; "/"; "/srv//app"; "app"; "//srv"]
  = ["/srv/app"; "/"; "/"; "/srv"; ""; "//"].
Proof. by vm_compute. Qed.

Example posix_basename :
  PosixPath.basename <$> ["/usr/local/bin/lore"; "lore.exe"; "python"; "/srv/"; ""]
  = ["lore"; "lore.exe"; "python"; ""; ""].
Proof. by vm_compute. Qed.

Example posix_join :
  PosixPath.join "/srv" ["app"; "runtime.txt"] = "/srv/app/runtime.txt"
  ∧ PosixPath.join "/srv/" ["app"] = "/srv/app"
  ∧ PosixPath.join "/srv" ["/etc"; "x"] = "/etc/x"
  ∧ PosixPath.join "" ["x"] = "x".
Proof. by vm_compute. Qed.

Example import_outside :
  @module_body Demo.plain 20 (fresh Demo.outside)
  = Returns tt (Demo.imported Demo.outside).
Proof. vm_compute. reflexivity. Qed.

(** *** [launched] *)

(** C1. [launched()] is [False] whenever [PREFIX] is [None] or empty;
    otherwise it is [True] exactly when the real path of [sys.prefix]
    equals the real path of [PREFIX]. *)
Theorem launched_iff_same_prefix (p : Proc) :
  (PREFIX (venv p) = None ∨ PREFIX (venv p) = Some "" → launched p = false) ∧
  (∀ prefix, PREFIX (venv p) = Some prefix → prefix ≠ "" →
     (launched p = true
      ↔ realpath (host p) (sys_prefix (host p)) = realpath (host p) prefix)).
Proof.
  unfold launched. split.
  - intros [-> | ->]; reflexivity.
  - intros prefix -> Hne.
    destruct prefix as [|c prefix]; [done|]. simpl.
    rewrite bool_decide_eq_true. split; congruence.
Qed.

Lemma launched_iff_same_prefix_witness :
  launched (Demo.imported Demo.inside) = true
  ∧ launched (Demo.imported Demo.outside) = false
  ∧ launched (fresh Demo.outside) = false.
Proof.
  split; [|split].
  - apply (proj2 (launched_iff_same_prefix (Demo.imported Demo.inside))
             Demo.env362 eq_refl); [discriminate | reflexivity].
  - destruct (launched (Demo.imported Demo.outside)) eqn:E; [|reflexivity].
    apply (proj2 (launched_iff_same_prefix (Demo.imported Demo.outside))
             Demo.env362 eq_refl) in E; [discriminate E | discriminate].
  - apply (proj1 (launched_iff_same_prefix (fresh Demo.outside))).
    left. reflexivity.
Defined.

(** *** [validate] *)

Section Validate.
Context `{L : Library}.
Variable p : Proc.

Let module_file : string :=
  path_join (ROOT (app p)) [APP (app p); "__init__.py"].

Lemma validate_module_missing :
  fs (host p) !! module_file = None → ∃ message, validate p = Exits message p.
Proof.
  intros Hnone. unfold validate, os_path_exists. unfold_monad. simpl.
  fold module_file. rewrite Hnone.
  rewrite bool_decide_eq_false_2 by (intros [? ?]; discriminate).
  simpl. eauto.
Qed.

Lemma validate_no_environment :
  PYTHON_VERSION (venv p) = None → ∃ message, validate p = Exits message p.
Proof.
  intros Hnone.
  destruct (fs (host p) !! module_file) as [n|] eqn:Hfile;
    [|by apply validate_module_missing].
  unfold validate, os_path_exists, exists_. unfold_monad. simpl.
  fold module_file. rewrite Hfile.
  rewrite bool_decide_eq_true_2 by eauto. simpl.
  rewrite Hnone, bool_decide_eq_false_2 by (intros H; by apply H).
  eauto.
Qed.

Lemma validate_returns :
  is_Some (fs (host p) !! module_file) → PYTHON_VERSION (venv p) ≠ None →
  validate p = Returns tt p.
Proof.
  intros Hfile Hsome.
  unfold validate, os_path_exists, exists_. unfold_monad. simpl.
  fold module_file.
  rewrite bool_decide_eq_true_2 by done. simpl.
  rewrite bool_decide_eq_true_2 by done.
  reflexivity.
Qed.
End Validate.

(** C4. [validate()] exits with a message when [<ROOT>/<APP>/__init__.py]
    does not exist or when [PYTHON_VERSION] is [None]; when the file exists
    and [PYTHON_VERSION] is not [None] it returns normally. *)
Theorem validate_exits_or_returns `{L : Library} (p : Proc) :
  let module_file := path_join (ROOT (app p)) [APP (app p); "__init__.py"] in
  (fs (host p) !! module_file = None ∨ PYTHON_VERSION (venv p) = None →
     ∃ message, validate p = Exits message p) ∧
  (is_Some (fs (host p) !! module_file) → PYTHON_VERSION (venv p) ≠ None →
     validate p = Returns tt p).
Proof.
  split.
  - intros [H | H]; eauto using validate_module_missing, validate_no_environment.
  - apply validate_returns.
Qed.

Lemma validate_exits_or_returns_witness :
  @validate Demo.plain (Demo.imported Demo.outside)
    = Returns tt (Demo.imported Demo.outside)
  ∧ ∃ message,
      @validate Demo.plain (fresh Demo.outside) = Exits message (fresh Demo.outside).
Proof.
  split.
  - apply (proj2 (@validate_exits_or_returns Demo.plain (Demo.imported Demo.outside))).
    + vm_compute. eauto.
    + discriminate.
  - apply (proj1 (@validate_exits_or_returns Demo.plain (fresh Demo.outside))).
    right. reflexivity.
Defined.

Example import_stray :
  @module_body Demo.plain 20 (fresh Demo.stray) = Returns tt Demo.imported_stray.
Proof. vm_compute. reflexivity. Qed.

(** *** [check_version] *)

Section CheckVersion.
Context `{L : Library}.
Variable p : Proc.

Lemma check_version_match :
  running_version p = take 3 (PYTHON_VERSION_INFO (venv p)) →
  check_version p = Returns tt p.
Proof.
  intros Heq. unfold check_version. unfold_monad. simpl.
  by rewrite bool_decide_eq_true_2.
Qed.

Lemma check_version_mismatch :
  running_version p ≠ take 3 (PYTHON_VERSION_INFO (venv p)) →
  check_version p =
    match BIN_PYTHON (venv p) with
    | Some python =>
        Exits (ansi_error +:+ " your virtual env points to the wrong python version. "
         +:+ "This is likely because you used a python installer that clobbered "
         +:+ "the system installation, which breaks virtualenv creation. "
         +:+ "To fix, check this symlink, and delete the installation of python "
         +:+ "that it is brokenly pointing to, then delete the virtual env itself "
         +:+ "and rerun lore install: " +:+ os_linesep +:+ os_linesep +:+ python
         +:+ os_linesep) p
    | None => Raises TypeError p
    end.
Proof.
  intros Hne. unfold check_version. unfold_monad. simpl.
  rewrite bool_decide_eq_false_2 by done.
  by destruct (BIN_PYTHON (venv p)).
Qed.

Lemma check_version_returns_iff :
  check_version p = Returns tt p
  ↔ running_version p = take 3 (PYTHON_VERSION_INFO (venv p)).
Proof.
  split; [|apply check_version_match].
  intros Hret.
  destruct (decide (running_version p = take 3 (PYTHON_VERSION_INFO (venv p))))
    as [|Hne]; [done|].
  rewrite (check_version_mismatch Hne) in Hret.
  by destruct (BIN_PYTHON (venv p)).
Qed.
End CheckVersion.

(** A version string with fewer than three components is parsed to fewer
    than three components. *)
Lemma short_version_info (v : string) (info : list vcomp) :
  mapM parse_component (PyStr.split "." v) = Some info →
  length (PyStr.split "." v) < 3 →
  length (take 3 info) < 3.
Proof. intros Hinfo%length_mapM. rewrite length_take. lia. Qed.

Lemma running_version_length (p : Proc) : length (running_version p) = 3.
Proof. unfold running_version. by destruct (sys_version_info (host p)) as [[??]?]. Qed.

(** C5, as stated, fails twice.  In a directory without [runtime.txt] the
    versions differ, [BIN_PYTHON] is [None], and building the message raises
    [TypeError]: the process does not exit with a message.  And ["3.6.x"]
    has two numeric components, yet its first three components are compared
    with the three of [sys.version_info]: tuples of the same length. *)
Lemma check_version_not_always_exit :
  (running_version Demo.imported_stray
     ≠ take 3 (PYTHON_VERSION_INFO (venv Demo.imported_stray))
   ∧ @check_version Demo.plain Demo.imported_stray
     = Raises TypeError Demo.imported_stray)
  ∧ (length (numeric_components "3.6.x") < 3
     ∧ mapM parse_component (PyStr.split "." "3.6.x") = Some [VInt 3; VInt 6; VStr "x"]
     ∧ length (take 3 [VInt 3; VInt 6; VStr "x"])
       = length (running_version Demo.imported_stray)).
Proof. vm_compute. split; [split|split; [|split]]; (discriminate || reflexivity || lia). Qed.

(** C5, amended.  [check_version()] returns normally if and only if
    [sys.version_info[0:3]] equals [PYTHON_VERSION_INFO[0:3]]; otherwise,
    when [BIN_PYTHON] is set, it exits with a message; and for every
    version string with fewer than three dot-separated components the two
    compared slices have different lengths. *)
Theorem check_version_exits_unless_equal `{L : Library} (p : Proc) :
  (check_version p = Returns tt p
   ↔ running_version p = take 3 (PYTHON_VERSION_INFO (venv p))) ∧
  (∀ python, BIN_PYTHON (venv p) = Some python →
     running_version p ≠ take 3 (PYTHON_VERSION_INFO (venv p)) →
     ∃ message, check_version p = Exits message p) ∧
  (∀ v, mapM parse_component (PyStr.split "." v) = Some (PYTHON_VERSION_INFO (venv p)) →
     length (PyStr.split "." v) < 3 →
     length (take 3 (PYTHON_VERSION_INFO (venv p))) ≠ length (running_version p)
     ∧ check_version p ≠ Returns tt p).
Proof.
  split; [apply check_version_returns_iff|split].
  - intros python Hpy Hne.
    rewrite (check_version_mismatch _ Hne), Hpy. eauto.
  - intros v Hinfo Hshort.
    assert (length (take 3 (PYTHON_VERSION_INFO (venv p)))
            ≠ length (running_version p)) as Hlen.
    { rewrite running_version_length.
      pose proof (short_version_info v _ Hinfo Hshort). lia. }
    split; [done|].
    rewrite check_version_returns_iff. intros Heq. by rewrite Heq in Hlen.
Qed.

Lemma check_version_exits_unless_equal_witness :
  (∃ message,
     @check_version Demo.plain (Demo.imported Demo.outside)
     = Exits message (Demo.imported Demo.outside))
  ∧ @check_version Demo.plain
      (with_venv (upd_PYTHON_VERSION_INFO [VInt 3; VInt 6]) (Demo.imported Demo.inside))
    ≠ Returns tt
        (with_venv (upd_PYTHON_VERSION_INFO [VInt 3; VInt 6]) (Demo.imported Demo.inside)).
Proof.
  split.
  - apply (proj1 (proj2 (@check_version_exits_unless_equal Demo.plain
                           (Demo.imported Demo.outside)))
             (Demo.env362 +:+ "/bin/python3.6")); [reflexivity | discriminate].
  - apply (proj2 (proj2 (@check_version_exits_unless_equal Demo.plain
             (with_venv (upd_PYTHON_VERSION_INFO [VInt 3; VInt 6])
                (Demo.imported Demo.inside)))) "3.6"); [reflexivity | vm_compute; lia].
Defined.

(** *** [reboot] *)

Section Reboot.
Context `{L : Library}.
Variables (p : Proc) (script : string) (rest extra : list string).
Hypothesis Hargv : sys_argv (host p) = script :: rest.

(** The argument vector [reboot] hands to [os.execv]. *)
Lemma reboot_execv (path : string) :
  (if bool_decide (script = "python") || negb (PyStr.nonempty script)
   then BIN_PYTHON (venv p)
   else if bool_decide (os_path_basename os_path script ∈ ["lore"; "lore.exe"])
        then BIN_LORE (venv p) else Some script) = Some path →
  can_exec (host p) path = true →
  reboot extra p = Replaced path (path :: rest ++ extra).
Proof.
  intros Hpath Hexec.
  assert (mapM id (list_fmap _ _ Some (rest ++ extra)) = Some (rest ++ extra))
    as HmapM by (by apply (mapM_fmap_Some id Some)).
  unfold reboot, try_except. unfold_monad. simpl. rewrite Hargv. simpl.
  assert (bool_decide (Some script = Some "python") = bool_decide (script = "python"))
    as -> by (apply bool_decide_ext; split; congruence).
  destruct (bool_decide (script = "python") || negb (PyStr.nonempty script)).
  - simpl. rewrite Hpath. simpl. unfold os_execv.
    rewrite HmapM. simpl. unfold_monad. by rewrite Hexec.
  - simpl.
    destruct (bool_decide (os_path_basename os_path script ∈ ["lore"; "lore.exe"])).
    + simpl. rewrite Hpath. simpl. unfold os_execv.
      rewrite HmapM. simpl. unfold_monad. by rewrite Hexec.
    + simpl. injection Hpath as ->. unfold os_execv.
      rewrite HmapM. simpl. unfold_monad. by rewrite Hexec.
Qed.
End Reboot.

Lemma not_lore_names :
  ("python" ∉ ["lore"; "lore.exe"]) ∧ ("" ∉ ["lore"; "lore.exe"]).
Proof.
  split; intros H;
    repeat (apply elem_of_cons in H as [H|H]; [discriminate H|]);
    by apply elem_of_nil in H.
Qed.

(** C7. [reboot] replaces the process by [sys.argv] followed by the extra
    arguments, with [argv[0]] rewritten to [BIN_PYTHON] when it is
    ['python'] or empty, to [BIN_LORE] when its base name is ['lore'] or
    ['lore.exe'], and left as it is otherwise; the other arguments are
    passed unchanged.  ([os.path.basename] maps ['python'] and the empty
    string to themselves, on every platform.) *)
Theorem reboot_replaces_process `{L : Library}
    (p : Proc) (script : string) (rest extra : list string) :
  os_path_basename os_path "python" = "python" →
  os_path_basename os_path "" = "" →
  sys_argv (host p) = script :: rest →
  (∀ python, script = "python" ∨ script = "" →
     BIN_PYTHON (venv p) = Some python → can_exec (host p) python = true →
     reboot extra p = Replaced python (python :: rest ++ extra)) ∧
  (∀ lore, os_path_basename os_path script ∈ ["lore"; "lore.exe"] →
     BIN_LORE (venv p) = Some lore → can_exec (host p) lore = true →
     reboot extra p = Replaced lore (lore :: rest ++ extra)) ∧
  (script ≠ "python" → script ≠ "" →
     os_path_basename os_path script ∉ ["lore"; "lore.exe"] →
     can_exec (host p) script = true →
     reboot extra p = Replaced script (script :: rest ++ extra)).
Proof.
  intros Hpython Hempty Hargv. split; [|split].
  - intros path Hscript Hbin Hexec.
    apply (reboot_execv p script rest extra Hargv); [|done].
    destruct Hscript as [-> | ->]; exact Hbin.
  - intros path Hbase Hbin Hexec.
    apply (reboot_execv p script rest extra Hargv); [|done].
    rewrite bool_decide_eq_false_2, (bool_decide_eq_true_2 _ Hbase).
    + destruct script; [|done]. rewrite Hempty in Hbase.
      by apply not_lore_names in Hbase.
    + intros ->. rewrite Hpython in Hbase. by apply not_lore_names in Hbase.
  - intros Hnp Hne Hbase Hexec.
    apply (reboot_execv p script rest extra Hargv); [|done].
    rewrite !bool_decide_eq_false_2 by done. by destruct script.
Qed.

Lemma reboot_replaces_process_witness :
  @reboot Demo.plain ["--env-launched"] (Demo.imported Demo.outside)
  = Replaced (Demo.env362 +:+ "/bin/lore")
      [Demo.env362 +:+ "/bin/lore"; "test"; "--env-launched"].
Proof.
  apply (proj1 (proj2 (@reboot_replaces_process Demo.plain
           (Demo.imported Demo.outside) "/usr/local/bin/lore" ["test"]
           ["--env-launched"] eq_refl eq_refl eq_refl))
           (Demo.env362 +:+ "/bin/lore")).
  - apply (bool_decide_unpack _). vm_compute. exact I.
  - reflexivity.
  - reflexivity.
Defined.

(** *** Decimal numerals *)

Section Numerals.
Import PyStr.

Lemma decimal_digit (a : ascii) : is_decimal a = true → is_digit a = true.
Proof. unfold is_decimal, is_digit. intros ->. done. Qed.

Lemma decimal_digits (s : string) :
  forallb is_decimal (chars s) = true → forallb is_digit (chars s) = true.
Proof.
  induction s as [|a s IH]; simpl; [done|].
  intros [Ha Hs]%andb_true_iff. by rewrite (decimal_digit a Ha), IH.
Qed.

Lemma uint_digits (d : Decimal.uint) :
  forallb is_decimal (chars (NilEmpty.string_of_uint d)) = true.
Proof. induction d; simpl; auto. Qed.

Lemma digits_uint (s : string) :
  forallb is_decimal (chars s) = true →
  ∃ d, NilEmpty.uint_of_string s = Some d ∧ NilEmpty.string_of_uint d = s.
Proof.
  induction s as [|a s IH]; simpl; [by exists Decimal.Nil|].
  intros [Ha Hs]%andb_true_iff. destruct (IH Hs) as (d & Hd & Hs').
  assert (∃ d', NilEmpty.uint_of_string (String a s) = Some d') as [d' Hd'].
  { simpl. rewrite Hd. revert Ha. unfold is_decimal.
    destruct a as [[] [] [] [] [] [] [] []]; try done; simpl; eauto. }
  exists d'. split; [done|]. by apply NilEmpty.sus.
Qed.

Lemma to_uint_nonnil (n : N) : N.to_uint n ≠ Decimal.Nil.
Proof. destruct n; simpl; [done|]. apply DecimalPos.Unsigned.to_uint_nonnil. Qed.

Lemma str_eq (n : N) : str n = NilEmpty.string_of_uint (N.to_uint n).
Proof.
  unfold str. pose proof (to_uint_nonnil n). by destruct (N.to_uint n).
Qed.

Lemma str_decimal (n : N) : forallb is_decimal (chars (str n)) = true.
Proof. rewrite str_eq. apply uint_digits. Qed.

Lemma str_nonempty (n : N) : nonempty (str n) = true.
Proof.
  rewrite str_eq. pose proof (to_uint_nonnil n). by destruct (N.to_uint n).
Qed.

Lemma str_isdigit (n : N) : isdigit (str n) = true.
Proof.
  unfold isdigit. by rewrite str_nonempty, decimal_digits by apply str_decimal.
Qed.

Lemma int_str (n : N) : int (str n) = Some n.
Proof.
  unfold int. rewrite str_nonempty, str_eq, NilEmpty.usu. simpl.
  by rewrite DecimalN.Unsigned.of_to.
Qed.

(** [int] reads a numeral behind any number of zeros as the number the
    numeral is [str] of. *)
Lemma int_zeros (z X : string) :
  zeros z = true → numeral X = true →
  isdigit (z +:+ X) = true ∧ ∃ n, int (z +:+ X) = Some n ∧ str n = X.
Proof.
  intros Hz [[Hne Hdec]%andb_true_iff Hlead]%andb_true_iff.
  destruct (digits_uint X Hdec) as (d & Hd & HX).
  assert (∃ n, N.of_uint d = n ∧ str n = X) as (n & Hn & Hstr).
  { eexists. split; [done|]. unfold str. rewrite DecimalN.Unsigned.to_of.
    apply orb_true_iff in Hlead as [->%bool_decide_eq_true | Hlead].
    - by injection Hd as <-.
    - clear Hd. destruct d; simpl in *; try exact HX.
      + by subst X.
      + subst X. simpl in Hlead. unfold startswith in Hlead. simpl in Hlead.
        by destruct (NilEmpty.string_of_uint d). }
  clear Hlead. revert Hz. induction z as [|a z IH].
  - intros _. change ("" +:+ X) with X. split.
    + unfold isdigit. by rewrite Hne, decimal_digits.
    + exists n. unfold int. by rewrite Hne, Hd; simpl; rewrite Hn.
  - simpl. intros [->%bool_decide_eq_true Hz]%andb_true_iff.
    destruct (IH Hz) as (Hdigit & m & Hint & Hm). split.
    + unfold isdigit in *. simpl. by apply andb_true_iff in Hdigit as [_ ->].
    + exists m. split; [|done].
      revert Hint. unfold int.
      change (("0" +:+ z) +:+ X) with (String "0" (z +:+ X)).
      assert (nonempty (z +:+ X) = true) as -> by (by destruct z, X).
      simpl. destruct (NilEmpty.uint_of_string (z +:+ X)) as [u|]; [|done].
      simpl. by intros [= <-].
Qed.
End Numerals.

(** A component is parsed, and printed back as [written] says. *)
Lemma parse_component_written (i X : string) :
  written i X → ∃ c, parse_component i = Some c ∧ str_of c = X.
Proof.
  intros [z X' Hz HX | i' Hi]; unfold parse_component.
  - destruct (int_zeros z X' Hz HX) as (-> & n & -> & Hn). by exists (VInt n).
  - rewrite Hi. by exists (VStr i').
Qed.

Lemma parse_component_readable (i : string) :
  readable i = true ↔ is_Some (parse_component i).
Proof.
  unfold readable, parse_component, PyStr.isdigit, PyStr.int.
  destruct (PyStr.nonempty i) eqn:Hne; simpl; [|by split].
  destruct (forallb PyStr.is_digit (PyStr.chars i)) eqn:Hdigit; simpl; [|by split].
  split.
  - intros (d & -> & _)%digits_uint. done.
  - intros [c Hc]. destruct (NilEmpty.uint_of_string i) as [d|] eqn:Hd; [|done].
    apply NilEmpty.sus in Hd as <-. apply uint_digits.
Qed.

Lemma parse_components_readable (l : list string) :
  forallb readable l = true ↔ is_Some (mapM parse_component l).
Proof.
  rewrite mapM_is_Some, forallb_forall, Forall_forall.
  split; intros H i Hi.
  - apply parse_component_readable, H. by apply list_elem_of_In.
  - apply parse_component_readable, H. by apply list_elem_of_In.
Qed.

(** *** [set_python_version] *)

Section SetPythonVersion.
Context `{L : Library}.
Variable p : Proc.

Lemma set_python_version_unset (v : option string) :
  truthy v = false →
  set_python_version v p = Returns tt (with_venv (upd_PYTHON_VERSION v) p).
Proof.
  intros Hv. unfold set_python_version. unfold_monad. by rewrite Hv.
Qed.

Lemma truthy_nonempty (v : string) : v ≠ "" → truthy (Some v) = true.
Proof. by destruct v. Qed.

(** Line 328 fails before anything but [PYTHON_VERSION] is assigned. *)
Lemma set_python_version_unread (v : string) :
  v ≠ "" → forallb readable (PyStr.split "." v) = false →
  set_python_version (Some v) p
  = Raises ValueError (with_venv (upd_PYTHON_VERSION (Some v)) p).
Proof.
  intros Hv Hread. unfold set_python_version, from_option. unfold_monad.
  rewrite (truthy_nonempty v Hv). simpl.
  destruct (mapM parse_component (PyStr.split "." v)) as [info|] eqn:Hinfo; [|done].
  assert (forallb readable (PyStr.split "." v) = true) as Hyes
    by (apply parse_components_readable; eauto).
  by rewrite Hyes in Hread.
Qed.

Lemma set_python_version_short (v : string) (info : list vcomp) :
  v ≠ "" → mapM parse_component (PyStr.split "." v) = Some info →
  length (PyStr.split "." v) < 3 →
  platform_system (host p) ≠ "Windows" →
  set_python_version (Some v) p
  = Raises IndexError
      (with_venv (upd_PREFIX (Some (posix_prefix p v)))
         (with_venv (upd_PYTHON_VERSION_INFO info)
            (with_venv (upd_PYTHON_VERSION (Some v)) p))).
Proof.
  intros Hv Hinfo Hlen Hsys. unfold set_python_version, posix_prefix, from_option.
  unfold_monad.
  rewrite (truthy_nonempty v Hv). simpl. rewrite Hinfo. simpl.
  rewrite bool_decide_eq_false_2 by done.
  apply length_mapM in Hinfo. rewrite Hinfo in Hlen.
  destruct info as [|x [|y [|z l]]]; simpl in *; [| | |lia];
    by destruct (PyStr.nonempty (PYENV (app p))).
Qed.
End SetPythonVersion.

(** C9, as stated, fails: the version string made of the superscript two
    alone has one component, [isdigit()] holds of it and [int] rejects it,
    so line 328 raises [ValueError] and no component is ever indexed. *)
Lemma superscript_version_value_error :
  PyStr.split "." (String "178" "") = [String "178" ""]
  ∧ @set_python_version Demo.plain (Some (String "178" "")) Demo.imported_stray
    = Raises ValueError
        (with_venv (upd_PYTHON_VERSION (Some (String "178" ""))) Demo.imported_stray).
Proof. by vm_compute. Qed.

(** C9, amended.  On a platform other than Windows, [set_python_version]
    raises [IndexError] for every non-empty version string with fewer than
    three dot-separated components, each of which is readable (not made of
    digit characters only, or made of decimal digits); [PYTHON_VERSION_INFO]
    holds the parsed components and [BIN_PYTHON] has not been assigned by
    then. *)
Theorem set_python_version_short_raises `{L : Library} (p : Proc) (v : string) :
  v ≠ "" → length (PyStr.split "." v) < 3 →
  forallb readable (PyStr.split "." v) = true →
  platform_system (host p) ≠ "Windows" →
  ∃ p', set_python_version (Some v) p = Raises IndexError p'
        ∧ PYTHON_VERSION (venv p') = Some v
        ∧ mapM parse_component (PyStr.split "." v)
          = Some (PYTHON_VERSION_INFO (venv p'))
        ∧ length (PYTHON_VERSION_INFO (venv p')) < 3
        ∧ BIN_PYTHON (venv p') = BIN_PYTHON (venv p).
Proof.
  intros Hv Hlen [info Hinfo]%parse_components_readable Hsys. eexists. split.
  - by apply (set_python_version_short p v info).
  - simpl. repeat split; [done|]. apply length_mapM in Hinfo. lia.
Qed.

Lemma set_python_version_short_raises_witness :
  ∃ p', @set_python_version Demo.plain (Some "3.6") Demo.imported_stray
        = Raises IndexError p'
        ∧ PYTHON_VERSION (venv p') = Some "3.6"
        ∧ mapM parse_component (PyStr.split "." "3.6")
          = Some (PYTHON_VERSION_INFO (venv p'))
        ∧ length (PYTHON_VERSION_INFO (venv p')) < 3
        ∧ BIN_PYTHON (venv p') = BIN_PYTHON (venv Demo.imported_stray).
Proof.
  apply (@set_python_version_short_raises Demo.plain Demo.imported_stray "3.6").
  - discriminate.
  - vm_compute. lia.
  - reflexivity.
  - discriminate.
Defined.

Section SetPythonVersionPaths.
Context `{L : Library}.
Variables (p : Proc) (v : string) (cx cy cz : vcomp) (more : list vcomp).
Hypothesis Hv : v ≠ "".
Hypothesis Hinfo :
  mapM parse_component (PyStr.split "." v) = Some (cx :: cy :: cz :: more).
Hypothesis Hsys : platform_system (host p) ≠ "Windows".

Let prefix : string := posix_prefix p v.
Let major : string := "python" +:+ str_of cx.
Let minor : string := major +:+ "." +:+ str_of cy.
Let patch : string := minor +:+ "." +:+ str_of cz.
Let bin (name : string) : string := path_join prefix ["bin"; name].

Lemma set_python_version_full :
  set_python_version (Some v) p
  = Returns tt
      {| host := host p; stdout := stdout p; app := app p;
         venv :=
           {| PYTHON_VERSION := Some v;
              PYTHON_VERSION_INFO := cx :: cy :: cz :: more;
              PREFIX := Some prefix;
              BIN_PYTHON :=
                Some (first_existing (fs (host p))
                        [bin patch; bin minor; bin major] (bin "python"));
              BIN_LORE := Some (bin "lore");
              BIN_JUPYTER := Some (bin "jupyter");
              BIN_FLASK := Some (bin "flask");
              FLASK_APP :=
                Some (path_join prefix
                        ["lib"; minor; "site-packages"; "lore"; "www";
                         "__init__.py"]) |} |}.
Proof.
  unfold set_python_version, unless_python_exists, os_path_exists, first_existing.
  unfold from_option. unfold_monad.
  rewrite (truthy_nonempty v Hv). simpl.
  rewrite Hinfo. simpl.
  rewrite bool_decide_eq_false_2 by done. simpl.
  assert (posix_prefix p v = prefix) as Hprefix by reflexivity.
  unfold posix_prefix in Hprefix.
  destruct (PyStr.nonempty (PYENV (app p))); simpl; rewrite Hprefix.
  all: fold major; fold minor; fold patch; fold (bin patch);
    fold (bin minor); fold (bin major); fold (bin "python");
    fold (bin "lore"); fold (bin "jupyter"); fold (bin "flask").
  all: destruct (bool_decide (is_Some (fs (host p) !! bin patch))) eqn:Hpatch;
    simpl; [by rewrite ?Hpatch; simpl; rewrite ?Hpatch; simpl; rewrite ?Hpatch|].
  all: destruct (bool_decide (is_Some (fs (host p) !! bin minor))) eqn:Hminor;
    simpl; [by rewrite ?Hminor; simpl; rewrite ?Hminor|].
  all: destruct (bool_decide (is_Some (fs (host p) !! bin major))) eqn:Hmajor;
    simpl; [by rewrite ?Hmajor|done].
Qed.
End SetPythonVersionPaths.

(** The parsed components of a version string of at least three. *)
Lemma parse_components_written (v x y z X Y Z : string) (more : list string) :
  PyStr.split "." v = x :: y :: z :: more →
  written x X → written y Y → written z Z → forallb readable more = true →
  ∃ cx cy cz cmore,
    mapM parse_component (PyStr.split "." v) = Some (cx :: cy :: cz :: cmore)
    ∧ str_of cx = X ∧ str_of cy = Y ∧ str_of cz = Z.
Proof.
  intros -> (cx & Hx & <-)%parse_component_written
    (cy & Hy & <-)%parse_component_written
    (cz & Hz & <-)%parse_component_written
    [cmore Hmore]%parse_components_readable.
  exists cx, cy, cz, cmore. split; [|done].
  simpl. rewrite Hx. simpl. rewrite Hy. simpl. rewrite Hz. simpl.
  by rewrite Hmore.
Qed.

(** C8, as stated, fails: ["3.6."] followed by the superscript two is a
    non-empty version string of three components, and on a platform other
    than Windows line 328 raises [ValueError] for it; [PREFIX] and
    [BIN_PYTHON] are not assigned. *)
Lemma superscript_patch_value_error :
  PyStr.split "." ("3.6." +:+ String "178" "") = ["3"; "6"; String "178" ""]
  ∧ platform_system (host Demo.imported_stray) ≠ "Windows"
  ∧ ∃ p', @set_python_version Demo.plain (Some ("3.6." +:+ String "178" ""))
            Demo.imported_stray = Raises ValueError p'
          ∧ PREFIX (venv p') = None ∧ BIN_PYTHON (venv p') = None.
Proof. split; [done|]. split; [done|]. eexists. by vm_compute. Qed.

(** C8, amended.  Outside Windows, for every non-empty version string of
    three components [x.y.z], each written as [X], [Y], [Z] (a component
    of decimal digits as its numeral without leading zeros, a component
    that is not made of digit characters as it is), [set_python_version]
    sets [PREFIX] to [<PYENV>/versions/<v>/envs/<APP>] when [PYENV] is set
    and to the real path of [sys.prefix] otherwise, and [BIN_PYTHON] to the
    first file that exists among [<PREFIX>/bin/pythonX.Y.Z],
    [<PREFIX>/bin/pythonX.Y] and [<PREFIX>/bin/pythonX], or to
    [<PREFIX>/bin/python] when none does.  When the version is [None] or
    empty, none of [PREFIX], [BIN_PYTHON], [BIN_LORE], [BIN_JUPYTER],
    [BIN_FLASK], [FLASK_APP] is assigned. *)
Theorem set_python_version_paths `{L : Library} (p : Proc) :
  (∀ v x y z X Y Z, v ≠ "" → PyStr.split "." v = [x; y; z] →
     written x X → written y Y → written z Z →
     platform_system (host p) ≠ "Windows" →
     let prefix :=
       if PyStr.nonempty (PYENV (app p))
       then path_join (PYENV (app p)) ["versions"; v; "envs"; APP (app p)]
       else realpath (host p) (sys_prefix (host p)) in
     let major := "python" +:+ X in
     let minor := major +:+ "." +:+ Y in
     let patch := minor +:+ "." +:+ Z in
     let bin name := path_join prefix ["bin"; name] in
     ∃ p', set_python_version (Some v) p = Returns tt p'
           ∧ PREFIX (venv p') = Some prefix
           ∧ BIN_PYTHON (venv p')
             = Some (first_existing (fs (host p))
                       [bin patch; bin minor; bin major] (bin "python"))) ∧
  (∀ v, v = None ∨ v = Some "" →
     ∃ p', set_python_version v p = Returns tt p'
           ∧ PREFIX (venv p') = PREFIX (venv p)
           ∧ BIN_PYTHON (venv p') = BIN_PYTHON (venv p)
           ∧ BIN_LORE (venv p') = BIN_LORE (venv p)
           ∧ BIN_JUPYTER (venv p') = BIN_JUPYTER (venv p)
           ∧ BIN_FLASK (venv p') = BIN_FLASK (venv p)
           ∧ FLASK_APP (venv p') = FLASK_APP (venv p)).
Proof.
  split.
  - intros v x y z X Y Z Hv Hsplit Hx Hy Hz Hsys.
    destruct (parse_components_written v x y z X Y Z [] Hsplit Hx Hy Hz eq_refl)
      as (cx & cy & cz & cmore & Hinfo & <- & <- & <-).
    eexists. split.
    + by apply (set_python_version_full p v cx cy cz cmore).
    + done.
  - intros v Hv. eexists. split.
    + apply set_python_version_unset. by destruct Hv as [-> | ->].
    + done.
Qed.

Lemma set_python_version_paths_witness :
  (∃ p', @set_python_version Demo.plain (Some "3.06.x") Demo.imported_stray
         = Returns tt p'
         ∧ PREFIX (venv p') = Some "/home/u/.pyenv/versions/3.06.x/envs/scratch"
         ∧ BIN_PYTHON (venv p')
           = Some (first_existing (fs Demo.stray)
                     ["/home/u/.pyenv/versions/3.06.x/envs/scratch/bin/python3.6.x";
                      "/home/u/.pyenv/versions/3.06.x/envs/scratch/bin/python3.6";
                      "/home/u/.pyenv/versions/3.06.x/envs/scratch/bin/python3"]
                     "/home/u/.pyenv/versions/3.06.x/envs/scratch/bin/python"))
  ∧ (∃ p', @set_python_version Demo.plain (Some "") (Demo.imported Demo.outside)
           = Returns tt p'
           ∧ PREFIX (venv p') = Some Demo.env362
           ∧ BIN_PYTHON (venv p') = Some (Demo.env362 +:+ "/bin/python3.6")
           ∧ BIN_LORE (venv p') = Some (Demo.env362 +:+ "/bin/lore")
           ∧ BIN_JUPYTER (venv p') = Some (Demo.env362 +:+ "/bin/jupyter")
           ∧ BIN_FLASK (venv p') = Some (Demo.env362 +:+ "/bin/flask")
           ∧ FLASK_APP (venv p')
             = Some (Demo.env362
                       +:+ "/lib/python3.6/site-packages/lore/www/__init__.py")).
Proof.
  split.
  - apply (proj1 (@set_python_version_paths Demo.plain Demo.imported_stray)
             "3.06.x" "3" "06" "x" "3" "6" "x");
      [discriminate | reflexivity | | | | discriminate].
    + by apply (written_number "" "3").
    + by apply (written_number "0" "6").
    + by apply written_text.
  - apply (proj2 (@set_python_version_paths Demo.plain (Demo.imported Demo.outside))
             (Some "")).
    by right.
Defined.

(** *** Facts about [posixpath.dirname] *)

Section DropWhile.
Context {A : Type} (f : A → bool).

Lemma drop_while_suffix (l : list A) : ∃ t, l = t ++ PyStr.drop_while f l.
Proof.
  induction l as [|a l [t IH]]; simpl.
  - by exists [].
  - destruct (f a).
    + exists (a :: t). simpl. by f_equal.
    + by exists [].
Qed.

Lemma drop_while_head (l : list A) (a : A) (k : list A) :
  PyStr.drop_while f l = a :: k → f a = false.
Proof.
  induction l as [|b l IH]; simpl; [done|].
  destruct (f b) eqn:Hb; [done|]. by intros [= <- _].
Qed.

Lemma drop_while_nil (l : list A) :
  PyStr.drop_while f l = [] → forallb f l = true.
Proof.
  induction l as [|b l IH]; simpl; [done|].
  destruct (f b); [done|discriminate].
Qed.
End DropWhile.

Lemma string_length_chars (s : string) : String.length s = length (PyStr.chars s).
Proof. induction s; simpl; by f_equal. Qed.

Section Dirname.
Import PyStr PosixPath.

Lemma is_slash_true (a : ascii) : is_slash a = true → a = slash.
Proof. unfold is_slash. apply bool_decide_eq_true. Qed.

Lemma not_slash_false (a : ascii) : not_slash a = false → a = slash.
Proof. unfold not_slash. rewrite negb_false_iff. apply is_slash_true. Qed.

Lemma dirname_chars_rooted (p : list ascii) :
  rooted_chars p →
  dirname_chars p = [slash]
  ∨ rooted_chars (dirname_chars p) ∧ length (dirname_chars p) < length p.
Proof.
  intros (r & -> & Hr). unfold dirname_chars, rev_head.
  destruct (drop_while_suffix not_slash (rev (slash :: r))) as [t Ht].
  set (h := drop_while not_slash (rev (slash :: r))) in *.
  assert (slash :: r = rev h ++ rev t) as Hp.
  { by rewrite <- rev_app_distr, <- Ht, rev_involutive. }
  assert (∃ k, h = slash :: k) as [k Hk].
  { destruct h as [|a k] eqn:Hh.
    - apply drop_while_nil in Hh. simpl in Hh.
      rewrite forallb_app in Hh. apply andb_true_iff in Hh as [_ Hh].
      by vm_compute in Hh.
    - exists k. f_equal. apply not_slash_false.
      by apply (drop_while_head _ _ _ _ Hh). }
  destruct (forallb is_slash h) eqn:Hall.
  - left. destruct (rev h) as [|a [|b m]] eqn:Hrev.
    + apply (f_equal (@rev _)) in Hrev. rewrite rev_involutive in Hrev.
      by rewrite Hk in Hrev.
    + simpl in Hp. by injection Hp as <- _.
    + exfalso. simpl in Hp. injection Hp as _ ->. apply Hr. simpl. f_equal.
      apply is_slash_true.
      rewrite forallb_forall in Hall. apply Hall.
      apply in_rev. rewrite Hrev. right. by left.
  - right.
    destruct (drop_while_suffix is_slash h) as [t' Ht'].
    destruct (drop_while is_slash h) as [|c h''] eqn:Hh'.
    { apply drop_while_nil in Hh'. congruence. }
    pose proof (drop_while_head _ _ _ _ Hh') as Hc.
    assert (c ≠ slash) as Hcs.
    { intros ->. unfold is_slash in Hc. by rewrite bool_decide_eq_true_2 in Hc. }
    assert (t' ≠ []) as Hne.
    { intros ->. simpl in Ht'. rewrite Hk in Ht'. congruence. }
    assert (length (c :: h'') < length (slash :: r)) as Hlen.
    { rewrite Hp, length_app, !length_rev, Ht', length_app.
      destruct t'; [done|]. simpl. lia. }
    split; [|by rewrite length_rev].
    rewrite Ht', rev_app_distr in Hp. simpl in Hp.
    simpl. destruct (rev h'') as [|a m] eqn:Hm; simpl in Hp.
    + injection Hp as Hp _. congruence.
    + injection Hp as <- ->. exists (m ++ [c]). split; [done|].
      destruct m as [|b m]; simpl in *; congruence.
Qed.

Lemma rooted_rooted_chars (d : string) : rooted d = true ↔ rooted_chars (chars d).
Proof.
  destruct d as [|a d]; simpl.
  - split; [done|]. by intros (r & ? & _).
  - rewrite andb_true_iff. split.
    + intros [->%is_slash_true Hd]. exists (chars d). split; [done|].
      destruct d as [|b d]; simpl in *; [done|].
      intros [= ->]. by vm_compute in Hd.
    + intros (r & [= -> <-] & Hr). split; [done|].
      destruct d as [|b d]; simpl in *; [done|].
      unfold not_slash, is_slash. apply negb_true_iff, bool_decide_eq_false.
      congruence.
Qed.

Lemma dirname_rooted (d : string) :
  rooted d = true →
  dirname d = "/"
  ∨ rooted (dirname d) = true ∧ String.length (dirname d) < String.length d.
Proof.
  rewrite rooted_rooted_chars. intros Hd.
  destruct (dirname_chars_rooted _ Hd) as [Hroot | [Hr Hlen]].
  - left. unfold dirname. by rewrite Hroot.
  - right. unfold dirname.
    rewrite rooted_rooted_chars, !string_length_chars.
    unfold chars, text in *.
    by rewrite String.list_ascii_of_string_of_list_ascii.
Qed.

Lemma rooted_length (d : string) : rooted d = true → 1 ≤ String.length d.
Proof. destruct d; simpl; [done|lia]. Qed.

Lemma rooted_count (d : string) : rooted d = true → 1 ≤ count slash d.
Proof.
  destruct d as [|a d]; simpl; [done|].
  intros [->%is_slash_true _]%andb_true_iff.
  rewrite decide_True by done. lia.
Qed.
End Dirname.

(** *** [read_version] *)

Section ReadVersion.
Context `{L : Library}.

Lemma strip_python_prefix_empty : PyStr.strip_python_prefix "" = "".
Proof. reflexivity. Qed.

Lemma read_version_eq (path : string) (p : Proc) :
  read_version path p =
    match fs (host p) !! path with
    | None => Returns None p
    | Some Directory => Raises OSError p
    | Some (File content) =>
        Returns (Some (PyStr.strip_python_prefix
                         (PyStr.strip (PyStr.universal_newlines content)))) p
    end.
Proof.
  unfold read_version, os_path_exists, read_text. unfold_monad.
  destruct (fs (host p) !! path) as [[|content]|] eqn:Hfile; simpl.
  - by rewrite Hfile.
  - rewrite Hfile. simpl. by destruct (PyStr.strip _).
  - done.
Qed.



End ReadVersion.

(** *** Text mode *)

Section TextMode.
Import PyStr.

(** Induction that may also use the tail of the tail. *)
Lemma string_ind2 (P : string → Prop) :
  P "" →
  (∀ a s, P s → (∀ b s', s = String b s' → P s') → P (String a s)) →
  ∀ s, P s.
Proof.
  intros Hnil Hcons s.
  enough (P s ∧ ∀ b s', s = String b s' → P s') as [? _] by done.
  induction s as [|a s [IH1 IH2]]; [by split|].
  split; [by apply Hcons|]. by intros b s' [= _ <-].
Qed.

Lemma universal_newlines_cons (a : ascii) (s : string) :
  universal_newlines (String a s)
  = if decide (a = CR)
    then String LF (universal_newlines
                      match s with
                      | String b s' => if decide (b = LF) then s' else s
                      | "" => ""
                      end)
    else String a (universal_newlines s).
Proof.
  simpl. destruct (decide (a = CR)); [|done].
  destruct s as [|b s]; [done|]. by destruct (decide (b = LF)).
Qed.

(** Reading in text mode keeps white space white space. *)
Lemma universal_newlines_blank (content : string) :
  forallb is_space (chars content) = true →
  forallb is_space (chars (universal_newlines content)) = true.
Proof.
  induction content as [|a s IH1 IH2] using string_ind2; [done|].
  rewrite universal_newlines_cons. simpl.
  intros [Ha Hs]%andb_true_iff.
  destruct (decide (a = CR)) as [->|]; simpl; [|by rewrite Ha, IH1].
  destruct s as [|b s]; [done|].
  destruct (decide (b = LF)) as [->|]; [|by apply IH1].
  by apply (IH2 LF s).
Qed.


(** Text is read piece by piece where the second piece does not start
    with a line feed. *)
Lemma universal_newlines_app (s t : string) :
  (∀ t', t ≠ String LF t') →
  universal_newlines (s +:+ t) = universal_newlines s +:+ universal_newlines t.
Proof.
  intros Ht. induction s as [|a s IH1 IH2] using string_ind2; [done|].
  change (String a s +:+ t) with (String a (s +:+ t)).
  rewrite !universal_newlines_cons.
  destruct (decide (a = CR)) as [->|]; [|by rewrite IH1].
  change (String LF ?x +:+ ?y) with (String LF (x +:+ y)). f_equal.
  destruct s as [|b s].
  - change ("" +:+ t) with t. destruct t as [|b t]; [done|].
    destruct (decide (b = LF)) as [->|]; [by destruct (Ht t)|done].
  - change (String b s +:+ t) with (String b (s +:+ t)).
    destruct (decide (b = LF)) as [->|Hb].
    + rewrite ?decide_True by done. by apply (IH2 LF s).
    + rewrite ?decide_False by done. by apply IH1.
Qed.
End TextMode.


(** *** The walk to the application root *)

Section Climb.
Context `{L : Library}.

Lemma read_version_yields (d : string) (p : Proc) :
  fs (host p) !! path_join d [VERSION_PATH] ≠ Some Directory →
  ∃ v, read_version (path_join d [VERSION_PATH]) p = Returns v p
       ∧ truthy v = yields_version (fs (host p)) d.
Proof.
  intros Hdir. rewrite read_version_eq. unfold yields_version, version_at.
  destruct (fs (host p) !! path_join d [VERSION_PATH]) as [[|content]|]; [done|..].
  - eexists. split; [done|]. simpl.
    destruct (PyStr.nonempty _); symmetry.
    + apply bool_decide_eq_true_2. eauto.
    + apply bool_decide_eq_false_2. by intros [? ?].
  - exists None. split; [done|]. symmetry.
    apply bool_decide_eq_false_2. by intros [? ?].
Qed.

Hypothesis Hposix : os_path = posixpath.

Lemma climb_rooted (m : nat) : ∀ (n : nat) (d : string) (p : Proc),
  ROOT (app p) = d → rooted d = true →
  String.length d ≤ m → String.length d ≤ n →
  Forall (fun x => fs (host p) !! path_join x [VERSION_PATH] ≠ Some Directory)
    (examined n d) →
  ∃ p', climb m p = Returns tt p'
        ∧ host p' = host p
        ∧ ROOT (app p')
          = default (cwd (host p))
              (List.find (yields_version (fs (host p))) (examined n d)).
Proof.
  induction m as [|m IH]; intros n d p Hroot Hd Hm Hn Hdir.
  { pose proof (rooted_length d Hd). lia. }
  destruct n as [|n]; [pose proof (rooted_length d Hd); lia|].
  simpl examined in *. apply Forall_cons in Hdir as [Hhere Hrest].
  destruct (read_version_yields d p Hhere) as (v & Hread & Htruthy).
  simpl climb. unfold_monad. simpl. rewrite Hroot, Hread. simpl.
  rewrite Htruthy. simpl.
  destruct (yields_version (fs (host p)) d) eqn:Hyields; simpl.
  { eexists. split; [done|]. split; [done|]. by simpl. }
  destruct (bool_decide (PyStr.count (os_sep os_path) (os_path_dirname os_path d) = 1))
    eqn:Hcount; simpl.
  { eexists. split; [done|]. by split. }
  apply bool_decide_eq_false in Hcount.
  assert (rooted (os_path_dirname os_path d) = true
          ∧ String.length (os_path_dirname os_path d) < String.length d)
    as [Hparent Hshorter].
  { revert Hcount. rewrite Hposix. simpl.
    destruct (dirname_rooted d Hd) as [-> | ?]; [|done].
    intros Hcount. by exfalso; apply Hcount. }
  edestruct (IH n (os_path_dirname os_path d)
               (with_app (upd_ROOT (os_path_dirname os_path d))
                  (with_venv (upd_PYTHON_VERSION v) p)))
    as (p' & Hclimb & Hhost & Hfinal); [done|done|lia|lia|done|].
  exists p'. split; [exact Hclimb|]. by split.
Qed.
End Climb.

Section Examined.
Context `{L : Library}.
Hypothesis Hposix : os_path = posixpath.

Lemma examined_deep (n : nat) : ∀ d,
  rooted d = true → PyStr.count PosixPath.slash d ≠ 1 →
  Forall (fun x => 2 ≤ PyStr.count PosixPath.slash x) (examined n d).
Proof.
  induction n as [|n IH]; intros d Hd Hcount; simpl.
  - apply Forall_cons. split; [|done].
    pose proof (rooted_count d Hd). lia.
  - apply Forall_cons. split; [pose proof (rooted_count d Hd); lia|].
    rewrite Hposix. simpl.
    destruct (bool_decide _) eqn:Hparent; [done|].
    apply bool_decide_eq_false in Hparent.
    apply IH; [|done].
    destruct (dirname_rooted d Hd) as [Hroot | [? _]]; [|done].
    by rewrite Hroot in Hparent.
Qed.

(** No examined parent lies at the top of the file system. *)
Lemma ancestors_deep (d : string) :
  rooted d = true →
  Forall (fun x => 2 ≤ PyStr.count PosixPath.slash x) (tail (ancestors d)).
Proof.
  intros Hd. unfold ancestors.
  destruct (String.length d) as [|n]; simpl; [done|].
  rewrite Hposix. simpl.
  destruct (bool_decide _) eqn:Hparent; [done|].
  apply bool_decide_eq_false in Hparent.
  pose proof (examined_deep n (PosixPath.dirname d)) as Hdeep.
  apply Hdeep; [|done].
  destruct (dirname_rooted d Hd) as [Hroot | [? _]]; [|done].
  by rewrite Hroot in Hparent.
Qed.
End Examined.

Section LocateRoot.
Context `{L : Library}.
Variables (p : Proc) (fuel : nat).

Lemma locate_root_given (root : string) :
  environ (host p) !! "LORE_ROOT" = Some root → root ≠ "" →
  ∃ p', (locate_root fuel p = Returns tt p' ∨ locate_root fuel p = Raises OSError p')
        ∧ host p' = host p ∧ ROOT (app p') = root.
Proof.
  intros Hroot Hne. unfold locate_root. unfold_monad. simpl.
  rewrite Hroot, (truthy_nonempty root Hne). simpl.
  destruct (truthy (environ (host p) !! "LORE_PYTHON_VERSION")); simpl.
  { eexists. split; [by left|done]. }
  rewrite read_version_eq. simpl.
  destruct (fs (host p) !! path_join root [VERSION_PATH]) as [[|content]|];
    eexists; (split; [by (left + right)|done]).
Qed.

Lemma locate_root_pinned :
  truthy (environ (host p) !! "LORE_ROOT") = false →
  truthy (environ (host p) !! "LORE_PYTHON_VERSION") = true →
  ∃ p', locate_root fuel p = Returns tt p'
        ∧ host p' = host p ∧ ROOT (app p') = cwd (host p).
Proof.
  intros Hroot Hversion. unfold locate_root. unfold_monad. simpl.
  rewrite Hroot. simpl. rewrite Hversion. simpl. eauto.
Qed.

Lemma locate_root_walk :
  os_path = posixpath →
  truthy (environ (host p) !! "LORE_ROOT") = false →
  truthy (environ (host p) !! "LORE_PYTHON_VERSION") = false →
  rooted (cwd (host p)) = true → String.length (cwd (host p)) ≤ fuel →
  Forall (fun d => fs (host p) !! path_join d [VERSION_PATH] ≠ Some Directory)
    (ancestors (cwd (host p))) →
  ∃ p', locate_root fuel p = Returns tt p'
        ∧ host p' = host p
        ∧ ROOT (app p')
          = default (cwd (host p))
              (List.find (yields_version (fs (host p))) (ancestors (cwd (host p)))).
Proof.
  intros Hposix Hroot Hversion Hcwd Hfuel Hdir.
  unfold locate_root. unfold_monad. simpl.
  rewrite Hroot. simpl. rewrite Hversion. simpl.
  destruct (climb_rooted Hposix fuel (String.length (cwd (host p))) (cwd (host p))
              (with_app (upd_ROOT (cwd (host p)))
                 (with_venv
                    (upd_PYTHON_VERSION (environ (host p) !! "LORE_PYTHON_VERSION"))
                    p)))
    as (p' & Hclimb & Hhost & Hfinal); [done..|].
  exists p'. by split.
Qed.
End LocateRoot.

(** C3.  The code departs from the claim, and from its own comment at
    line 381 ("Determined by LORE_ROOT, or iterating up directories until a
    runtime.txt is found"), when [LORE_PYTHON_VERSION] is set and
    [LORE_ROOT] is not: started in [/srv/app/app/models] below an
    application whose [/srv/app/runtime.txt] yields a version, the walk of
    lines 388-397 is skipped and [ROOT] is the working directory, where
    the claim has [/srv/app]. *)
Lemma root_not_walked_when_pinned :
  claimed_ROOT (L := Demo.plain) Demo.pinned = "/srv/app"
  ∧ ∃ p', @module_body Demo.plain 20 (fresh Demo.pinned) = Returns tt p'
          ∧ ROOT (app p') = "/srv/app/app/models".
Proof. split; [by vm_compute|]. eexists. split; by vm_compute. Qed.

(** X21.  What lines 380-397 do.  If [LORE_ROOT] is set and not empty,
    [ROOT] is its value (the search returns, or raises [OSError] when
    [runtime.txt] there is a directory).  Otherwise, if
    [LORE_PYTHON_VERSION] is set and not empty, [ROOT] is the working
    directory.  Otherwise, on a POSIX host whose working directory is an
    absolute path with one leading slash, with fuel for the loop of at
    least the length of that path and no directory named [runtime.txt] on
    the way, the loop ends and [ROOT] is the first directory, from the
    working directory upward, whose [runtime.txt] yields a version; when no
    examined directory yields one before the parent path contains exactly
    one separator, [ROOT] is the working directory.  The parents examined
    all lie at least two levels below the top of the file system. *)
Theorem root_located `{L : Library} (p : Proc) (fuel : nat) :
  (∀ root, environ (host p) !! "LORE_ROOT" = Some root → root ≠ "" →
     ∃ p', (locate_root fuel p = Returns tt p' ∨ locate_root fuel p = Raises OSError p')
           ∧ ROOT (app p') = root) ∧
  (truthy (environ (host p) !! "LORE_ROOT") = false →
   truthy (environ (host p) !! "LORE_PYTHON_VERSION") = true →
     ∃ p', locate_root fuel p = Returns tt p' ∧ ROOT (app p') = cwd (host p)) ∧
  (os_path = posixpath →
   truthy (environ (host p) !! "LORE_ROOT") = false →
   truthy (environ (host p) !! "LORE_PYTHON_VERSION") = false →
   rooted (cwd (host p)) = true → String.length (cwd (host p)) ≤ fuel →
   Forall (fun d => fs (host p) !! path_join d [VERSION_PATH] ≠ Some Directory)
     (ancestors (cwd (host p))) →
     (∃ p', locate_root fuel p = Returns tt p'
            ∧ ROOT (app p')
              = default (cwd (host p))
                  (List.find (yields_version (fs (host p)))
                     (ancestors (cwd (host p)))))
     ∧ Forall (fun d => 2 ≤ PyStr.count "/" d) (tail (ancestors (cwd (host p))))).
Proof.
  split; [|split].
  - intros root Hroot Hne.
    destruct (locate_root_given p fuel root Hroot Hne) as (p' & H & _ & Hp'). eauto.
  - intros Hroot Hversion.
    destruct (locate_root_pinned p fuel Hroot Hversion) as (p' & H & _ & Hp'). eauto.
  - intros Hposix Hroot Hversion Hcwd Hfuel Hdir. split.
    + destruct (locate_root_walk p fuel Hposix Hroot Hversion Hcwd Hfuel Hdir)
        as (p' & H & _ & Hp'). eauto.
    + by apply ancestors_deep.
Qed.

Lemma root_located_witness :
  (∃ p', @locate_root Demo.plain 20 (fresh Demo.outside) = Returns tt p'
         ∧ ROOT (app p') = "/srv/app")
  ∧ Forall (fun d => 2 ≤ PyStr.count "/" d)
      (tail (ancestors (L := Demo.plain) "/srv/app/app/models")).
Proof.
  apply (proj2 (proj2 (@root_located Demo.plain (fresh Demo.outside) 20))).
  - reflexivity.
  - reflexivity.
  - reflexivity.
  - reflexivity.
  - vm_compute. lia.
  - apply (bool_decide_unpack _). vm_compute. exact I.
Defined.

(** *** The module body *)

Section ModuleBody.
Context `{L : Library}.

Lemma derive_paths_returns (p : Proc) :
  ∃ a, derive_paths p
       = Returns tt {| host := host p; stdout := stdout p; app := a; venv := venv p |}
       ∧ ROOT a = ROOT (app p).
Proof.
  unfold derive_paths, os_path_exists. unfold_monad. simpl.
  destruct (bool_decide _); simpl; eexists; split; reflexivity.
Qed.

End ModuleBody.




(** *** [check_requirements] *)

Section StartsWith.
Import PyStr.

Lemma startswith_iff (prefix s : string) :
  startswith prefix s = true ↔ ∃ rest, s = prefix +:+ rest.
Proof.
  unfold startswith. revert s.
  induction prefix as [|a prefix IH]; intros s.
  - split; [|by destruct s]. intros _. by exists s.
  - destruct s as [|b s]; simpl.
    + split; [done|]. by intros [rest Hrest].
    + destruct (ascii_dec a b) as [->|Hne].
      * rewrite IH. split; intros [rest Hrest]; exists rest.
        -- by rewrite Hrest.
        -- by injection Hrest.
      * split; [done|]. intros [rest [= Hab _]]. by destruct Hne.
Qed.

Lemma skip_prefix (prefix rest : string) :
  skip (String.length prefix) (prefix +:+ rest) = rest.
Proof. induction prefix as [|a prefix IH]; simpl; [by destruct rest|done]. Qed.

Lemma names_vcs_iff (d : string) :
  names_vcs d = true
  ↔ ∃ name rest, name ∈ ["git"; "svn"; "hg"; "bzr"] ∧ d = name +:+ rest.
Proof.
  unfold names_vcs. rewrite existsb_exists. split.
  - intros (name & Hin & [rest Hrest]%startswith_iff).
    exists name, rest. by rewrite list_elem_of_In.
  - intros (name & rest & Hin & Hd). exists name.
    rewrite <- list_elem_of_In. split; [done|].
    apply startswith_iff. eauto.
Qed.

(** The pattern of line 218 matches the version-control lines. *)
Lemma is_vcs_vcs_line (d : string) : is_vcs d = true ↔ vcs_line d.
Proof.
  unfold is_vcs, vcs_line.
  rewrite orb_true_iff, andb_true_iff, startswith_iff, !names_vcs_iff. split.
  - intros [[[tail ->] (name & rest & Hin & Hd)] | (name & rest & Hin & ->)];
      exists name, rest; (split; [done|]); [right|by left].
    change (skip 3 ("-e " +:+ tail)) with (skip (String.length "-e ") ("-e " +:+ tail))
      in Hd.
    rewrite skip_prefix in Hd. by rewrite Hd.
  - intros (name & rest & Hin & [-> | ->]); [right; eauto|left].
    split; [eauto|].
    change (skip 3 ("-e " +:+ name +:+ rest))
      with (skip (String.length "-e ") ("-e " +:+ name +:+ rest)).
    rewrite skip_prefix. eauto.
Qed.
End StartsWith.

Section Lines.
Import PyStr.





Lemma universal_newlines_plain_app (s t : string) :
  count CR s = 0 → universal_newlines (s +:+ t) = s +:+ universal_newlines t.
Proof.
  induction s as [|a s IH]; [done|].
  change (String a s +:+ t) with (String a (s +:+ t)).
  rewrite universal_newlines_cons. simpl.
  destruct (decide (a = CR)); [lia|]. intros Hs. by rewrite IH.
Qed.

Lemma plain_head (l t t' : string) : count LF l = 0 → l ≠ "" → l +:+ t ≠ String LF t'.
Proof.
  destruct l as [|a l]; [done|]. simpl.
  destruct (decide (a = LF)); [lia|]. by intros _ _ [= ->].
Qed.



End Lines.

Section CheckRequirements.
Context `{L : Library}.

Lemma to_verify_spec (dependencies : list string) (d : string) :
  d ∈ to_verify dependencies ↔ d ∈ dependencies ∧ ¬ vcs_line d.
Proof.
  unfold to_verify. rewrite set_difference_elem_of, list_elem_of_filter.
  rewrite <- is_vcs_vcs_line. tauto.
Qed.

Variable p : Proc.

Lemma check_requirements_missing :
  fs (host p) !! REQUIREMENTS (app p) = None →
  ∃ message, check_requirements p = Exits message p.
Proof.
  intros Hnone. unfold check_requirements, os_path_exists. unfold_monad. simpl.
  rewrite Hnone. simpl. eauto.
Qed.

Variable content : string.
Hypothesis Hfile : fs (host p) !! REQUIREMENTS (app p) = Some (File content).

Let verdict : require_result :=
  pkg_resources_require
    (to_verify (lines_from "" (PyStr.universal_newlines content))) p.

Lemma check_requirements_verdict :
  check_requirements p =
    match verdict with
    | Satisfied | ParseError => Returns tt p
    | Failed e => Raises e p
    | Unsatisfied error =>
        let missing := " missing requirement:" +:+ newline +:+ "  " +:+ error in
        if bool_decide ("--env-checked" ∈ sys_argv (host p)) then
          Exits (ansi_error +:+ missing +:+ newline
                   +:+ "Requirement installation failure, please check for errors in:"
                   +:+ newline +:+ " $ lore install" +:+ newline) p
        else
          (print (ansi_warning +:+ missing) >>
           lore_install_requirements >>
           reboot ["--env-checked"]) p
    end.
Proof.
  unfold check_requirements, os_path_exists, readlines, read_text.
  unfold_monad. simpl. repeat (rewrite Hfile; simpl). fold verdict.
  destruct verdict as [|error| |e]; simpl; try done.
  by destruct (bool_decide ("--env-checked" ∈ sys_argv (host p))).
Qed.
End CheckRequirements.



Example check_requirements_reboots :
  @check_requirements Demo.strict (Demo.imported Demo.outside)
  = Replaced (Demo.env362 +:+ "/bin/lore")
      [Demo.env362 +:+ "/bin/lore"; "test"; "--env-checked"].
Proof. by vm_compute. Qed.

Example check_requirements_checked :
  ∃ message, @check_requirements Demo.strict (Demo.imported Demo.checked)
             = Exits message (Demo.imported Demo.checked).
Proof. eexists. by vm_compute. Qed.

Example vcs_lines :
  is_vcs "git+https://github.com/a/b.git" = true
  ∧ is_vcs "-e hg+https://example.org/r" = true
  ∧ is_vcs "pandas==0.20" = false
  ∧ is_vcs "-e ./local" = false.
Proof. by vm_compute. Qed.

Example readlines_line_ends :
  lines_from ""
    (PyStr.universal_newlines
       ("a" +:+ String CR (String LF "b") +:+ String CR "c" +:+ String LF "d"))
  = ["a" +:+ newline; "b" +:+ newline; "c" +:+ newline; "d"].
Proof. by vm_compute. Qed.

(** *** [launch] *)

Section Launch.
Context `{L : Library}.
Variable p : Proc.

Lemma launch_inside :
  launched p = true →
  launch p = (check_version >> os_chdir (ROOT (app p))) p.
Proof.
  intros Hin. unfold launch. unfold_monad. simpl. rewrite Hin.
  destruct (decide (running_version p = take 3 (PYTHON_VERSION_INFO (venv p))))
    as [Heq|Hne].
  - by rewrite (check_version_match p Heq).
  - rewrite (check_version_mismatch p Hne).
    by destruct (BIN_PYTHON (venv p)).
Qed.





Variable lore : string.
Hypothesis Hout : launched p = false.
Hypothesis Hlore : BIN_LORE (venv p) = Some lore.

End Launch.




Example launch_outside_replaces :
  @launch Demo.plain (Demo.imported Demo.outside)
  = Replaced (Demo.env362 +:+ "/bin/lore")
      [Demo.env362 +:+ "/bin/lore"; "test"; "--env-launched"].
Proof. by vm_compute. Qed.

(** *** How outcomes compose *)

Section Effects.
Context {A B : Type}.

Lemma leaves_proceeds (o : outcome A) : leaves o → proceeds o.
Proof. by destruct o. Qed.

Lemma bind_leaves (m : M A) (k : A → M B) (p : Proc) :
  proceeds (m p) → (∀ a q, leaves (k a q)) → leaves (bind m k p).
Proof. unfold bind. intros Hm Hk. destruct (m p); by auto. Qed.

Lemma bind_proceeds (m : M A) (k : A → M B) (p : Proc) :
  proceeds (m p) → (∀ a q, proceeds (k a q)) → proceeds (bind m k p).
Proof. unfold bind. intros Hm Hk. destruct (m p); by auto. Qed.

Lemma try_except_leaves (m : M A) (h : exn → M A) (p : Proc) :
  leaves (m p) → (∀ e q, leaves (h e q)) → leaves (try_except m h p).
Proof. unfold try_except. intros Hm Hh. destruct (m p); by auto. Qed.

Lemma proceeds_ret (a : A) (p : Proc) : proceeds (ret a p).
Proof. done. Qed.
Lemma proceeds_gets (f : Proc → A) (p : Proc) : proceeds (gets f p).
Proof. done. Qed.
Lemma proceeds_index (t : list A) (i : nat) (p : Proc) : proceeds (index t i p).
Proof. unfold index. by destruct (t !! i). Qed.
Lemma leaves_raise (e : exn) (p : Proc) : leaves (raise (A := A) e p).
Proof. done. Qed.
End Effects.

Lemma proceeds_global {A} (f : Venv → A) (p : Proc) : proceeds (global f p).
Proof. done. Qed.
Lemma proceeds_constant {A} (f : App → A) (p : Proc) : proceeds (constant f p).
Proof. done. Qed.
Lemma proceeds_print (line : string) (p : Proc) : proceeds (print line p).
Proof. done. Qed.

Create HintDb effects.
#[export] Hint Resolve proceeds_ret proceeds_gets proceeds_index leaves_raise
  proceeds_global proceeds_constant proceeds_print : effects.

(** *** [reboot] has no normal return *)

Section RebootLeaves.
Context `{L : Library}.

Lemma os_execv_leaves (path : option string) (args : list (option string)) (p : Proc) :
  leaves (os_execv path args p).
Proof.
  unfold os_execv. unfold_monad.
  destruct path; [|done]. destruct (mapM id args); [|done].
  by destruct (can_exec (host p) s).
Qed.

Lemma reboot_leaves (extra : list string) (p : Proc) : leaves (reboot extra p).
Proof.
  unfold reboot.
  apply bind_leaves; [auto with effects|]. intros argv q.
  apply bind_leaves; [auto with effects|]. intros first q1.
  apply bind_leaves.
  { destruct (_ || _).
    - apply bind_proceeds; auto with effects.
    - apply bind_proceeds; [auto with effects|]. intros script q2.
      destruct (bool_decide _); [|auto with effects].
      apply bind_proceeds; auto with effects. }
  intros args q2. apply try_except_leaves.
  - apply bind_leaves; [auto with effects|]. intros path q3.
    apply os_execv_leaves.
  - intros e q3.
    apply bind_leaves; [auto with effects|]. intros path q4.
    apply bind_leaves; [auto with effects|]. intros lore q5.
    apply bind_leaves; [|auto with effects].
    destruct (bool_decide _); [|auto with effects].
    apply bind_proceeds; [auto with effects|]. intros command q6.
    destruct (bool_decide _); [|auto with effects].
    apply bind_proceeds; auto with effects.
Qed.
End RebootLeaves.

(** X1. [reboot] never returns to its caller and never calls [sys.exit]:
    whatever the arguments and the state, it either replaces the process
    or raises. *)
Theorem reboot_never_returns `{L : Library} (extra : list string) (p : Proc) :
  (∃ path args, reboot extra p = Replaced path args)
  ∨ (∃ e p', reboot extra p = Raises e p').
Proof.
  pose proof (reboot_leaves extra p) as Hl.
  destruct (reboot extra p); try done; eauto.
Qed.

(** *** [reboot] when [os.execv] fails *)

Section RebootFails.
Context `{L : Library}.
Variables (p : Proc) (script : string) (rest extra : list string).
Hypothesis Hargv : sys_argv (host p) = script :: rest.


End RebootFails.



(** *** What holds after [launch] and [check_requirements] return *)

Section AfterLaunch.
Context `{L : Library}.
Variable p : Proc.

Lemma launch_outside_leaves :
  launched p = false → ∀ a p', launch p ≠ Returns a p'.
Proof.
  intros Hout a p' Hret.
  assert (∀ q, ¬ ∃ b q', reboot ["--env-launched"] q = Returns b q') as Hreboot.
  { intros q (b & q' & Hq). pose proof (reboot_leaves ["--env-launched"] q) as Hl.
    by rewrite Hq in Hl. }
  revert Hret. unfold launch, os_path_exists. unfold_monad. simpl. rewrite Hout.
  destruct (BIN_LORE (venv p)) as [lore|]; simpl; [|done].
  destruct (bool_decide (is_Some (fs (host p) !! lore))); simpl.
  { intros Hret. apply (Hreboot p). eauto. }
  destruct (bool_decide ("--launched" ∈ sys_argv (host p))); simpl; [done|].
  destruct (lore_install _) as [[] q| | | |]; try done.
  intros Hret. apply (Hreboot q). eauto.
Qed.

Lemma launch_inside_postcondition (a : unit) (p' : Proc) :
  launched p = true → launch p = Returns a p' →
  running_version p = take 3 (PYTHON_VERSION_INFO (venv p))
  ∧ fs (host p) !! ROOT (app p) = Some Directory
  ∧ p' = with_host (upd_cwd (ROOT (app p))) p.
Proof.
  intros Hin. rewrite (launch_inside p Hin). unfold os_chdir. unfold_monad.
  destruct (decide (running_version p = take 3 (PYTHON_VERSION_INFO (venv p))))
    as [Heq|Hne].
  - rewrite (check_version_match p Heq). simpl.
    destruct (fs (host p) !! ROOT (app p)) as [[|?]|]; try done.
    by intros [= <-].
  - rewrite (check_version_mismatch p Hne).
    by destruct (BIN_PYTHON (venv p)).
Qed.
End AfterLaunch.

(** X3. Whenever [launch()] returns, [launched()] was true when it was
    called, the interpreter version matches the required one, [ROOT] is a
    directory, and the only change is that the working directory is now
    [ROOT]. *)
Theorem launch_returns_only_inside `{L : Library} (p p' : Proc) (a : unit) :
  launch p = Returns a p' →
  launched p = true
  ∧ running_version p = take 3 (PYTHON_VERSION_INFO (venv p))
  ∧ fs (host p) !! ROOT (app p) = Some Directory
  ∧ p' = with_host (upd_cwd (ROOT (app p))) p.
Proof.
  intros Hret. destruct (launched p) eqn:Hin.
  - by destruct (launch_inside_postcondition p a p' Hin Hret) as (Hv & Hdir & ->).
  - by destruct (launch_outside_leaves p Hin a p').
Qed.

Lemma launch_returns_only_inside_witness :
  launched (Demo.imported Demo.inside) = true
  ∧ running_version (Demo.imported Demo.inside) = [VInt 3; VInt 6; VInt 2]
  ∧ fs Demo.inside !! "/srv/app" = Some Directory
  ∧ with_host (upd_cwd "/srv/app") (Demo.imported Demo.inside)
    = with_host (upd_cwd "/srv/app") (Demo.imported Demo.inside).
Proof.
  apply (@launch_returns_only_inside Demo.plain (Demo.imported Demo.inside)
           (with_host (upd_cwd "/srv/app") (Demo.imported Demo.inside)) tt).
  by vm_compute.
Defined.

(** The real path of a relative [PREFIX] follows the working directory:
    [launched()] need not stay true once [launch()] has changed it. *)
Example launched_before_chdir :
  launched Demo2.relative = true
  ∧ @launch Demo.plain Demo2.relative
    = Returns tt (with_host (upd_cwd "/srv/app") Demo2.relative)
  ∧ launched (with_host (upd_cwd "/srv/app") Demo2.relative) = false.
Proof. by vm_compute. Qed.

Section AfterCheckRequirements.
Context `{L : Library}.
Variable p : Proc.

Lemma check_requirements_directory :
  fs (host p) !! REQUIREMENTS (app p) = Some Directory →
  check_requirements p = Raises OSError p.
Proof.
  intros Hdir. unfold check_requirements, os_path_exists, readlines, read_text.
  unfold_monad. simpl. by repeat (rewrite Hdir; simpl).
Qed.
End AfterCheckRequirements.

(** X4. [check_requirements()] returns only when [requirements.txt] is a
    readable file whose non-VCS lines are satisfied or cannot be parsed (a
    [RequirementParseError] is swallowed), and then it has printed nothing
    and changed nothing; unsatisfied requirements never let it return. *)
Theorem check_requirements_returns_only_satisfied `{L : Library}
    (p p' : Proc) (a : unit) :
  check_requirements p = Returns a p' →
  p' = p
  ∧ ∃ content,
      fs (host p) !! REQUIREMENTS (app p) = Some (File content)
      ∧ let lines := lines_from "" (PyStr.universal_newlines content) in
        pkg_resources_require (to_verify lines) p = Satisfied
        ∨ pkg_resources_require (to_verify lines) p = ParseError.
Proof.
  destruct (fs (host p) !! REQUIREMENTS (app p)) as [[|content]|] eqn:Hfile.
  - by rewrite (check_requirements_directory p Hfile).
  - rewrite (check_requirements_verdict p content Hfile).
    destruct (pkg_resources_require _ p) as [|error| |e] eqn:Hverdict; simpl.
    + intros [= <-]. eauto.
    + destruct (bool_decide _); [done|].
      intros Hret. exfalso. revert Hret. unfold_monad. simpl.
      destruct (lore_install_requirements _) as [[] q| | | |]; try done.
      pose proof (reboot_leaves ["--env-checked"] q) as Hl.
      intros Hq. by rewrite Hq in Hl.
    + intros [= <-]. eauto.
    + done.
  - destruct (check_requirements_missing p Hfile) as [message ->]. done.
Qed.

Lemma check_requirements_returns_only_satisfied_witness :
  Demo.imported Demo.outside = Demo.imported Demo.outside
  ∧ ∃ content,
      fs Demo.outside !! "/srv/app/requirements.txt" = Some (File content)
      ∧ (Satisfied = Satisfied ∨ Satisfied = ParseError).
Proof.
  apply (@check_requirements_returns_only_satisfied Demo.plain
           (Demo.imported Demo.outside) (Demo.imported Demo.outside) tt).
  by vm_compute.
Defined.

(** *** The lines [check_requirements] verifies *)

(** X5. What [check_requirements] hands to [pkg_resources.require]
    depends, up to its order, only on the set of lines of
    [requirements.txt]: repeated lines are handed over once, and two files
    with the same lines in any order give the same requirements, possibly
    in another order. *)
Theorem to_verify_set_of_lines `{L : Library} (dependencies : list string) :
  NoDup (to_verify dependencies)
  ∧ ∀ dependencies',
      (∀ d, d ∈ dependencies ↔ d ∈ dependencies') →
      to_verify dependencies ≡ₚ to_verify dependencies'.
Proof.
  split; [apply set_difference_NoDup|].
  intros dependencies' Hsame.
  apply NoDup_Permutation; [apply set_difference_NoDup..|].
  intros d. by rewrite !to_verify_spec, (Hsame d).
Qed.

Lemma to_verify_set_of_lines_witness :
  @to_verify Demo.plain ["pandas"; "git+https://example.org/r.git"; "numpy"; "pandas"]
  ≡ₚ @to_verify Demo.plain ["numpy"; "pandas"; "git+https://example.org/r.git"].
Proof.
  apply (proj2 (@to_verify_set_of_lines Demo.plain
                  ["pandas"; "git+https://example.org/r.git"; "numpy"; "pandas"])).
  intros d. rewrite !elem_of_cons, !elem_of_nil. tauto.
Defined.

Example to_verify_order :
  @to_verify Demo.plain ["pandas"; "git+https://example.org/r.git"; "numpy"]
  = ["pandas"; "numpy"]
  ∧ @to_verify Demo.plain ["numpy"; "pandas"; "git+https://example.org/r.git"]
    = ["numpy"; "pandas"].
Proof. by vm_compute. Qed.

(** X6. A line of [requirements.txt] is left out of the verification
    exactly when it starts with [git], [svn], [hg] or [bzr], possibly after
    ["-e "]: whatever follows the name is not looked at, so a requirement
    whose name merely begins with one of them (a package called
    [gitpython], say) is never verified. *)
Theorem is_vcs_iff_prefix (d : string) :
  is_vcs d = true
  ↔ ∃ name rest,
      name ∈ ["git"; "svn"; "hg"; "bzr"]
      ∧ (d = name +:+ rest ∨ d = "-e " +:+ name +:+ rest).
Proof.
  unfold is_vcs. rewrite orb_true_iff, andb_true_iff, !names_vcs_iff. split.
  - intros [[[tail ->]%startswith_iff (name & rest & Hin & Hd)]
           | (name & rest & Hin & ->)].
    + exists name, rest. split; [done|]. right.
      assert (PyStr.skip 3 ("-e " +:+ tail) = tail) as Hskip
        by apply (skip_prefix "-e ").
      rewrite Hskip in Hd. by rewrite Hd.
    + exists name, rest. eauto.
  - intros (name & rest & Hin & [-> | ->]).
    + right. eauto.
    + left. split.
      * apply startswith_iff. eauto.
      * assert (PyStr.skip 3 ("-e " +:+ name +:+ rest) = name +:+ rest) as ->
          by apply (skip_prefix "-e ").
        eauto.
Qed.

Lemma is_vcs_iff_prefix_witness : is_vcs "gitpython==2.1.8" = true.
Proof.
  apply (proj2 (is_vcs_iff_prefix "gitpython==2.1.8")).
  exists "git", "python==2.1.8". split; [|by left].
  apply (bool_decide_unpack _). vm_compute. exact I.
Defined.
(** *** [set_python_version] beyond three components and on Windows *)

Section FirstExisting.
Variables (files : gmap string node) (bin : string → string).
Variables (patch minor major : string).

Lemma first_existing_exists :
  is_Some (files !! first_existing files [bin patch; bin minor; bin major]
                      (bin "python"))
  ↔ ∃ name, name ∈ [patch; minor; major; "python"] ∧ is_Some (files !! bin name).
Proof.
  unfold first_existing. simpl.
  destruct (bool_decide (is_Some (files !! bin patch))) eqn:Hpatch;
    [apply bool_decide_eq_true in Hpatch|apply bool_decide_eq_false in Hpatch].
  { simpl. split; [|done]. intros _. exists patch. split; [|done].
    rewrite !elem_of_cons. tauto. }
  destruct (bool_decide (is_Some (files !! bin minor))) eqn:Hminor;
    [apply bool_decide_eq_true in Hminor|apply bool_decide_eq_false in Hminor].
  { simpl. split; [|done]. intros _. exists minor. split; [|done].
    rewrite !elem_of_cons. tauto. }
  destruct (bool_decide (is_Some (files !! bin major))) eqn:Hmajor;
    [apply bool_decide_eq_true in Hmajor|apply bool_decide_eq_false in Hmajor].
  { simpl. split; [|done]. intros _. exists major. split; [|done].
    rewrite !elem_of_cons. tauto. }
  simpl. split.
  - intros Hpython. exists "python". split; [|done]. rewrite !elem_of_cons. tauto.
  - intros (name & Hin & Hname).
    rewrite !elem_of_cons, elem_of_nil in Hin.
    destruct Hin as [-> | [-> | [-> | [-> | []]]]]; done.
Qed.
End FirstExisting.

(** X7. Outside Windows, for every non-empty version string with at least
    three components, the first three written as [X], [Y], [Z] and the
    later ones readable (they are parsed and otherwise ignored), the call
    assigns [BIN_LORE], [BIN_JUPYTER] and [BIN_FLASK] under [<PREFIX>/bin]
    and [FLASK_APP] under [<PREFIX>/lib/pythonX.Y/site-packages], leaves the
    host, the output and the other globals alone, and [BIN_PYTHON] names an
    existing file exactly when one of [pythonX.Y.Z], [pythonX.Y], [pythonX]
    or [python] exists in [<PREFIX>/bin]. *)
Theorem set_python_version_executables `{L : Library}
    (p : Proc) (v x y z X Y Z : string) (more : list string) :
  v ≠ "" → PyStr.split "." v = x :: y :: z :: more →
  written x X → written y Y → written z Z → forallb readable more = true →
  platform_system (host p) ≠ "Windows" →
  let prefix := posix_prefix p v in
  let major := "python" +:+ X in
  let minor := major +:+ "." +:+ Y in
  let patch := minor +:+ "." +:+ Z in
  let bin name := path_join prefix ["bin"; name] in
  ∃ p', set_python_version (Some v) p = Returns tt p'
        ∧ host p' = host p ∧ stdout p' = stdout p ∧ app p' = app p
        ∧ BIN_LORE (venv p') = Some (bin "lore")
        ∧ BIN_JUPYTER (venv p') = Some (bin "jupyter")
        ∧ BIN_FLASK (venv p') = Some (bin "flask")
        ∧ FLASK_APP (venv p')
          = Some (path_join prefix
                    ["lib"; minor; "site-packages"; "lore"; "www"; "__init__.py"])
        ∧ ∃ python, BIN_PYTHON (venv p') = Some python
            ∧ (is_Some (fs (host p) !! python)
               ↔ ∃ name, name ∈ [patch; minor; major; "python"]
                         ∧ is_Some (fs (host p) !! bin name)).
Proof.
  intros Hv Hsplit Hx Hy Hz Hmore Hsys. simpl.
  destruct (parse_components_written v x y z X Y Z more Hsplit Hx Hy Hz Hmore)
    as (cx & cy & cz & cmore & Hinfo & <- & <- & <-).
  eexists. split.
  - by apply (set_python_version_full p v cx cy cz cmore).
  - simpl. repeat (split; [done|]). eexists. split; [done|].
    apply (first_existing_exists (fs (host p))
             (fun name => path_join (posix_prefix p v) ["bin"; name])).
Qed.

Lemma set_python_version_executables_witness :
  ∃ p', @set_python_version Demo.plain (Some "3.6.2.final") (Demo.imported Demo.outside)
        = Returns tt p'
        ∧ host p' = Demo.outside ∧ stdout p' = [] ∧ app p' = Demo.app_362
        ∧ BIN_LORE (venv p') = Some "/home/u/.pyenv/versions/3.6.2.final/envs/app/bin/lore"
        ∧ BIN_JUPYTER (venv p')
          = Some "/home/u/.pyenv/versions/3.6.2.final/envs/app/bin/jupyter"
        ∧ BIN_FLASK (venv p')
          = Some "/home/u/.pyenv/versions/3.6.2.final/envs/app/bin/flask"
        ∧ FLASK_APP (venv p')
          = Some ("/home/u/.pyenv/versions/3.6.2.final/envs/app/lib/python3.6"
                    +:+ "/site-packages/lore/www/__init__.py")
        ∧ ∃ python, BIN_PYTHON (venv p') = Some python
            ∧ (is_Some (fs Demo.outside !! python)
               ↔ ∃ name, name ∈ ["python3.6.2"; "python3.6"; "python3"; "python"]
                         ∧ is_Some (fs Demo.outside
                                    !! @path_join Demo.plain
                                         "/home/u/.pyenv/versions/3.6.2.final/envs/app"
                                         ["bin"; name])).
Proof.
  apply (@set_python_version_executables Demo.plain (Demo.imported Demo.outside)
           "3.6.2.final" "3" "6" "2" "3" "6" "2" ["final"]);
    [discriminate | reflexivity | | | | reflexivity | discriminate].
  - by apply (written_number "" "3").
  - by apply (written_number "" "6").
  - by apply (written_number "" "2").
Defined.

Section SetPythonVersionWindows.
Context `{L : Library}.
Variables (p : Proc) (v : string) (info : list vcomp).
Hypothesis Hv : v ≠ "".
Hypothesis Hinfo : mapM parse_component (PyStr.split "." v) = Some info.
Hypothesis Hsys : platform_system (host p) = "Windows".

Let prefix : string := path_join (PyStr.lower (ROOT (app p))) [".python"].
Let scripts : string := path_join prefix ["scripts"].

Lemma set_python_version_windows :
  set_python_version (Some v) p
  = Returns tt
      {| host := host p; stdout := stdout p; app := app p;
         venv :=
           {| PYTHON_VERSION := Some v;
              PYTHON_VERSION_INFO := info;
              PREFIX := Some prefix;
              BIN_PYTHON := Some (path_join scripts ["python.exe"]);
              BIN_LORE := Some (path_join scripts ["lore.exe"]);
              BIN_JUPYTER := Some (path_join scripts ["jupyter.exe"]);
              BIN_FLASK := Some (path_join scripts ["flask.exe"]);
              FLASK_APP :=
                Some (path_join prefix
                        ["lib"; "site-packages"; "lore"; "www"; "__init__.py"]) |} |}.
Proof.
  unfold set_python_version, from_option. unfold_monad.
  rewrite (truthy_nonempty v Hv). simpl. rewrite Hinfo. simpl.
  by rewrite bool_decide_eq_true_2.
Qed.
End SetPythonVersionWindows.

(** X8. On Windows [set_python_version] accepts every non-empty version
    string whose components are readable, also one with fewer than three
    components, never looks at the file system or at [PYENV], and places
    the virtualenv in [.python] under the lower-cased [ROOT], with its
    executables in [scripts]. *)
Theorem set_python_version_on_windows `{L : Library} (p : Proc) (v : string) :
  v ≠ "" → forallb readable (PyStr.split "." v) = true →
  platform_system (host p) = "Windows" →
  let prefix := path_join (PyStr.lower (ROOT (app p))) [".python"] in
  let scripts := path_join prefix ["scripts"] in
  ∃ p', set_python_version (Some v) p = Returns tt p'
        ∧ host p' = host p ∧ stdout p' = stdout p ∧ app p' = app p
        ∧ PYTHON_VERSION (venv p') = Some v
        ∧ mapM parse_component (PyStr.split "." v)
          = Some (PYTHON_VERSION_INFO (venv p'))
        ∧ PREFIX (venv p') = Some prefix
        ∧ BIN_PYTHON (venv p') = Some (path_join scripts ["python.exe"])
        ∧ BIN_LORE (venv p') = Some (path_join scripts ["lore.exe"])
        ∧ BIN_JUPYTER (venv p') = Some (path_join scripts ["jupyter.exe"])
        ∧ BIN_FLASK (venv p') = Some (path_join scripts ["flask.exe"])
        ∧ FLASK_APP (venv p')
          = Some (path_join prefix
                    ["lib"; "site-packages"; "lore"; "www"; "__init__.py"]).
Proof.
  intros Hv [info Hinfo]%parse_components_readable Hsys. simpl. eexists. split.
  - by apply (set_python_version_windows p v info).
  - done.
Qed.

Lemma set_python_version_on_windows_witness :
  ∃ p', @set_python_version Demo.plain (Some "3.6") (Demo.imported Demo2.windows)
        = Returns tt p'
        ∧ PYTHON_VERSION (venv p') = Some "3.6"
        ∧ PYTHON_VERSION_INFO (venv p') = [VInt 3; VInt 6]
        ∧ PREFIX (venv p') = Some "/srv/app/.python".
Proof.
  destruct (@set_python_version_on_windows Demo.plain (Demo.imported Demo2.windows)
              "3.6" ltac:(discriminate) eq_refl eq_refl)
    as (p' & Hset & _ & _ & _ & Hversion & Hinfo & Hprefix & _).
  exists p'. split; [exact Hset|]. split; [exact Hversion|].
  split; [|exact Hprefix]. by injection Hinfo as <-.
Defined.

Example windows_capital_root :
  ∃ p', @set_python_version Demo.plain (Some "3.6")
          (with_app (upd_ROOT ("C:/" +:+ String "201" "cole"))
             (Demo.imported Demo2.windows)) = Returns tt p'
        ∧ PREFIX (venv p') = Some ("c:/" +:+ String "233" "cole/.python").
Proof. eexists. by vm_compute. Qed.

(** *** [launched] after [set_python_version] *)

(** X9. Outside Windows, for a version string of at least three readable
    components: when [PYENV] is empty, [set_python_version] takes the
    running interpreter's own prefix as [PREFIX]; so, provided
    [os.path.realpath] is idempotent on it, [launched()] is true afterwards
    whatever interpreter is running.  When [PYENV] is set, [launched()] is
    true afterwards exactly when the real path of [sys.prefix] is that of
    [<PYENV>/versions/<v>/envs/<APP>]. *)
Theorem launched_after_set_python_version `{L : Library} (p : Proc) (v : string) :
  v ≠ "" → 3 ≤ length (PyStr.split "." v) →
  forallb readable (PyStr.split "." v) = true →
  platform_system (host p) ≠ "Windows" →
  posix_prefix p v ≠ "" →
  ∃ p', set_python_version (Some v) p = Returns tt p'
        ∧ (PYENV (app p) = "" →
           realpath (host p) (realpath (host p) (sys_prefix (host p)))
           = realpath (host p) (sys_prefix (host p)) →
           launched p' = true)
        ∧ (PYENV (app p) ≠ "" →
           (launched p' = true
            ↔ realpath (host p) (sys_prefix (host p))
              = realpath (host p)
                  (path_join (PYENV (app p)) ["versions"; v; "envs"; APP (app p)]))).
Proof.
  intros Hv Hlen [info Hinfo]%parse_components_readable Hsys Hprefix.
  pose proof (length_mapM _ _ _ Hinfo) as Hsame. rewrite Hsame in Hlen.
  destruct info as [|cx [|cy [|cz more]]]; simpl in Hlen; [lia..|].
  eexists. split.
  { by apply (set_python_version_full p v cx cy cz more). }
  assert (∀ q, launched
                 {| host := host p; stdout := stdout p; app := app p;
                    venv := q |} = true
               ↔ ∃ prefix, PREFIX q = Some prefix ∧ prefix ≠ ""
                   ∧ realpath (host p) (sys_prefix (host p))
                     = realpath (host p) prefix) as Hlaunched.
  { intros q. unfold launched. simpl. destruct (PREFIX q) as [[|c s]|]; simpl.
    - split; [done|]. by intros (prefix & [= <-] & Hne & _).
    - rewrite bool_decide_eq_true. split.
      + intros [= Heq]. eauto.
      + intros (prefix & [= <-] & _ & ->). done.
    - split; [done|]. by intros (prefix & [= ] & _). }
  split.
  - intros Hpyenv Hidem. apply Hlaunched. simpl. eexists. split; [done|].
    split; [done|]. unfold posix_prefix. by rewrite Hpyenv.
  - intros Hpyenv. rewrite Hlaunched. simpl.
    assert (posix_prefix p v
            = path_join (PYENV (app p)) ["versions"; v; "envs"; APP (app p)])
      as Hpath.
    { unfold posix_prefix. by destruct (PYENV (app p)). }
    split.
    + intros (prefix & [= <-] & _ & Heq). by rewrite <- Hpath.
    + intros Heq. eexists. split; [done|]. split; [done|]. by rewrite Hpath.
Qed.

Lemma launched_after_set_python_version_witness :
  ∃ p', @set_python_version Demo.plain (Some "3.6.2") Demo2.no_pyenv = Returns tt p'
        ∧ launched p' = true.
Proof.
  destruct (@launched_after_set_python_version Demo.plain Demo2.no_pyenv "3.6.2")
    as (p' & Hset & Hlaunched & _).
  - discriminate.
  - vm_compute. lia.
  - reflexivity.
  - discriminate.
  - discriminate.
  - exists p'. split; [exact Hset|]. by apply Hlaunched.
Defined.

(** *** What [read_version] makes of a [runtime.txt] *)

Section Strip.
Import PyStr.

Lemma chars_app (s t : string) : chars (s +:+ t) = chars s ++ chars t.
Proof. induction s as [|a s IH]; simpl; [done|]. by f_equal. Qed.

Lemma text_chars (s : string) : text (chars s) = s.
Proof. apply String.string_of_list_ascii_of_string. Qed.

Lemma drop_while_app_all {A} (f : A → bool) (l k : list A) :
  forallb f l = true → drop_while f (l ++ k) = drop_while f k.
Proof.
  induction l as [|a l IH]; simpl; [done|].
  intros [-> Hl]%andb_true_iff. by apply IH.
Qed.

Lemma drop_while_solid {A} (f : A → bool) (l k : list A) :
  l ≠ [] → forallb (fun a => negb (f a)) l = true →
  drop_while f (l ++ k) = l ++ k.
Proof.
  destruct l as [|a l]; [done|]. simpl.
  intros _ [Ha _]%andb_true_iff. apply negb_true_iff in Ha. by rewrite Ha.
Qed.

Lemma forallb_rev {A} (f : A → bool) (l : list A) :
  forallb f (rev l) = forallb f l.
Proof.
  induction l as [|a l IH]; simpl; [done|].
  by rewrite forallb_app, IH, andb_comm; simpl; rewrite andb_true_r.
Qed.

Lemma strip_chars_padded (lead s trail : list ascii) :
  forallb is_space lead = true → forallb is_space trail = true →
  s ≠ [] → forallb (fun a => negb (is_space a)) s = true →
  rstrip_chars is_space (lstrip_chars is_space (lead ++ s ++ trail)) = s.
Proof.
  intros Hlead Htrail Hs Hsolid. unfold rstrip_chars, lstrip_chars.
  rewrite (drop_while_app_all _ _ _ Hlead), (drop_while_solid _ _ _ Hs Hsolid).
  rewrite rev_app_distr, drop_while_app_all by (by rewrite forallb_rev).
  rewrite <- (app_nil_r (rev s)), drop_while_solid, app_nil_r, rev_involutive.
  - done.
  - intros Hrev. apply Hs. by rewrite <- (rev_involutive s), Hrev.
  - by rewrite forallb_rev.
Qed.

Lemma strip_padded (lead s trail : string) :
  blank lead = true → blank trail = true → s ≠ "" → solid s = true →
  strip (lead +:+ s +:+ trail) = s.
Proof.
  intros Hlead Htrail Hs Hsolid. unfold strip.
  rewrite !chars_app, strip_chars_padded, text_chars; try done.
  by destruct s.
Qed.

Lemma solid_plain (s : string) : solid s = true → plain s.
Proof.
  unfold solid, plain. induction s as [|a s IH]; simpl; [done|].
  intros [Ha Hs]%andb_true_iff. destruct (IH Hs) as [-> ->].
  destruct (decide (a = LF)) as [->|]; [done|].
  by destruct (decide (a = CR)) as [->|].
Qed.

(** Reading in text mode changes the white space around a word only. *)
Lemma universal_newlines_padded (lead s trail : string) :
  s ≠ "" → solid s = true →
  universal_newlines (lead +:+ s +:+ trail)
  = universal_newlines lead +:+ s +:+ universal_newlines trail.
Proof.
  intros Hs [Hlf Hcr]%solid_plain.
  rewrite universal_newlines_app, universal_newlines_plain_app; [done..|].
  intros t'. by apply plain_head.
Qed.

Lemma strip_read_padded (lead s trail : string) :
  blank lead = true → blank trail = true → s ≠ "" → solid s = true →
  strip (universal_newlines (lead +:+ s +:+ trail)) = s.
Proof.
  intros Hlead Htrail Hs Hsolid.
  rewrite universal_newlines_padded by done.
  apply strip_padded; try done; by apply universal_newlines_blank.
Qed.
End Strip.

Section ReadVersionNormal.
Variables (path : string) (p : Proc) (lead v trail : string).
Hypothesis Hlead : blank lead = true.
Hypothesis Htrail : blank trail = true.
Hypothesis Hsolid : solid v = true.

Lemma read_version_prefixed :
  fs (host p) !! path = Some (File (lead +:+ "python-" +:+ v +:+ trail)) →
  read_version path p = Returns (Some v) p.
Proof.
  intros Hfile. rewrite read_version_eq, Hfile.
  assert (PyStr.strip (PyStr.universal_newlines
                         (lead +:+ ("python-" +:+ v) +:+ trail))
          = "python-" +:+ v) as Hstrip.
  { by apply strip_read_padded. }
  assert (lead +:+ "python-" +:+ v +:+ trail
          = lead +:+ ("python-" +:+ v) +:+ trail) as -> by done.
  rewrite Hstrip. do 2 f_equal.
  unfold PyStr.strip_python_prefix.
  rewrite (proj2 (startswith_iff "python-" ("python-" +:+ v))) by eauto.
  apply (skip_prefix "python-").
Qed.

Lemma read_version_bare :
  v ≠ "" → PyStr.startswith "python-" v = false →
  fs (host p) !! path = Some (File (lead +:+ v +:+ trail)) →
  read_version path p = Returns (Some v) p.
Proof.
  intros Hv Hbare Hfile. rewrite read_version_eq, Hfile.
  rewrite strip_read_padded by done.
  unfold PyStr.strip_python_prefix. by rewrite Hbare.
Qed.
End ReadVersionNormal.

(** X10. [read_version] recovers the version written in [runtime.txt]:
    white space around it is dropped and one leading [python-] is removed,
    so a file holding [python-<v>] and a file holding [<v>] read as the
    same [<v>] (for a [<v>] without white space; after [python-] it may
    also be empty, and the result is then the empty string). *)
Theorem read_version_normalises (path : string) (p : Proc) (lead v trail : string) :
  blank lead = true → blank trail = true → solid v = true →
  (fs (host p) !! path = Some (File (lead +:+ "python-" +:+ v +:+ trail)) →
     read_version path p = Returns (Some v) p) ∧
  (v ≠ "" → PyStr.startswith "python-" v = false →
   fs (host p) !! path = Some (File (lead +:+ v +:+ trail)) →
     read_version path p = Returns (Some v) p).
Proof.
  intros Hlead Htrail Hsolid. split.
  - by apply read_version_prefixed.
  - by apply read_version_bare.
Qed.

Lemma read_version_normalises_witness :
  read_version "/srv/app/runtime.txt" (fresh Demo.outside)
  = Returns (Some "3.6.2") (fresh Demo.outside).
Proof.
  apply (proj1 (read_version_normalises "/srv/app/runtime.txt" (fresh Demo.outside)
                  "" "3.6.2" "" eq_refl eq_refl eq_refl)).
  reflexivity.
Defined.

(** A no-break space before the version and a carriage return and line
    feed after it are white space to [strip]. *)
Example read_version_no_break_space :
  read_version "/srv/app/runtime.txt"
    (with_host
       (upd_fs (insert "/srv/app/runtime.txt"
                  (File (String "160" "3.6.2" +:+ String CR (String LF "")))))
       (fresh Demo.outside))
  = Returns (Some "3.6.2")
      (with_host
         (upd_fs (insert "/srv/app/runtime.txt"
                    (File (String "160" "3.6.2" +:+ String CR (String LF "")))))
         (fresh Demo.outside)).
Proof. by vm_compute. Qed.

(** *** [ROOT] and [PYTHON_VERSION] agree *)

Section VersionAtRoot.
Context `{L : Library}.

Lemma read_version_version_at (path : string) (p : Proc) (a : option string) (p' : Proc) :
  read_version path p = Returns a p' →
  p' = p ∧ (truthy a = true → version_at (fs (host p)) path = a).
Proof.
  rewrite read_version_eq. unfold version_at.
  destruct (fs (host p) !! path) as [[|content]|]; [done|..].
  - intros [= <- <-]. split; [done|]. simpl. by intros ->.
  - by intros [= <- <-].
Qed.

Lemma climb_version_at (m : nat) : ∀ (p p' : Proc) (a : unit),
  climb m p = Returns a p' →
  host p' = host p
  ∧ (truthy (PYTHON_VERSION (venv p')) = true →
     version_at (fs (host p)) (path_join (ROOT (app p')) [VERSION_PATH])
     = PYTHON_VERSION (venv p'))
  ∧ (truthy (PYTHON_VERSION (venv p')) = false → ROOT (app p') = cwd (host p)).
Proof.
  induction m as [|m IH]; intros p p' []; [done|].
  simpl climb. unfold_monad. simpl.
  destruct (read_version _ p) as [v q| | | |] eqn:Hread; try done.
  apply read_version_version_at in Hread as [-> Hversion]. simpl.
  destruct (truthy v) eqn:Hv; simpl.
  { intros [= <-]. simpl. split; [done|]. split; [by intros _; apply Hversion|].
    congruence. }
  destruct (bool_decide _); simpl.
  { intros [= <-]. simpl. split; [done|]. split; [congruence|done]. }
  intros Hclimb. by apply IH in Hclimb.
Qed.
End VersionAtRoot.

(** X11. After the module has located [ROOT], [PYTHON_VERSION] is the
    value of [LORE_PYTHON_VERSION] when that is set; otherwise, when it is
    a non-empty string, it is exactly what [<ROOT>/runtime.txt] yields, and
    when it is [None] or empty while [LORE_ROOT] is unset, [ROOT] is the
    working directory.  The host is left as it was. *)
Theorem python_version_read_at_root `{L : Library}
    (fuel : nat) (p p' : Proc) (a : unit) :
  locate_root fuel p = Returns a p' →
  host p' = host p
  ∧ (truthy (environ (host p) !! "LORE_PYTHON_VERSION") = true →
     PYTHON_VERSION (venv p') = environ (host p) !! "LORE_PYTHON_VERSION")
  ∧ (truthy (environ (host p) !! "LORE_PYTHON_VERSION") = false →
     truthy (PYTHON_VERSION (venv p')) = true →
     version_at (fs (host p)) (path_join (ROOT (app p')) [VERSION_PATH])
     = PYTHON_VERSION (venv p'))
  ∧ (truthy (environ (host p) !! "LORE_ROOT") = false →
     truthy (PYTHON_VERSION (venv p')) = false →
     ROOT (app p') = cwd (host p)).
Proof.
  destruct a. unfold locate_root. unfold_monad. simpl.
  destruct (truthy (environ (host p) !! "LORE_ROOT")) eqn:Hroot; simpl.
  - destruct (truthy (environ (host p) !! "LORE_PYTHON_VERSION")) eqn:Hpinned; simpl.
    { intros [= <-]. simpl. by repeat split. }
    destruct (read_version _ _) as [v q| | | |] eqn:Hread; try done.
    apply read_version_version_at in Hread as [-> Hversion].
    intros [= <-]. simpl. by repeat split.
  - destruct (truthy (environ (host p) !! "LORE_PYTHON_VERSION")) eqn:Hpinned; simpl.
    { intros [= <-]. simpl. by repeat split. }
    intros Hclimb. apply climb_version_at in Hclimb as (Hhost & Hversion & Hcwd).
    simpl in *. by repeat split.
Qed.

Lemma python_version_read_at_root_witness :
  version_at (fs Demo.outside) "/srv/app/runtime.txt" = Some "3.6.2".
Proof.
  apply (proj1 (proj2 (proj2
           (@python_version_read_at_root Demo.plain 20 (fresh Demo.outside)
              {| host := Demo.outside; stdout := [];
                 app := upd_ROOT "/srv/app" unbound_app;
                 venv := upd_PYTHON_VERSION (Some "3.6.2") default_venv |} tt
              ltac:(by vm_compute)))));
    reflexivity.
Defined.

(** *** The names derived from [ROOT] *)

Section LastComponent.
Import PyStr.
Variable c : ascii.

Lemma split_plain (name : string) : count c name = 0 → split c name = [name].
Proof.
  induction name as [|a name IH]; simpl; [done|].
  destruct (decide (a = c)); [lia|]. intros Hcount. by rewrite IH.
Qed.

Lemma split_last (dir name : string) :
  count c name = 0 →
  ∃ w ws, split c (dir +:+ String c name) = w :: ws ∧ last ws = Some name.
Proof.
  intros Hname. induction dir as [|a dir (w & ws & IH & Hlast)]; simpl.
  - rewrite decide_True by done. rewrite (split_plain name Hname). eauto.
  - change (String a dir +:+ String c name)
      with (String a (dir +:+ String c name)).
    simpl. rewrite IH. destruct (decide (a = c)).
    + exists "", (w :: ws). split; [done|].
      destruct ws; [done|]. by rewrite last_cons_cons.
    + eauto.
Qed.

Lemma last_component (dir name : string) :
  count c name = 0 → last (split c (dir +:+ String c name)) = Some name.
Proof.
  intros Hname. destruct (split_last dir name Hname) as (w & ws & -> & Hlast).
  destruct ws; [done|]. by rewrite last_cons_cons.
Qed.
End LastComponent.

Section DerivePaths.
Context `{L : Library}.
Variable p : Proc.

Lemma derive_paths_eq :
  let home := default (ROOT (app p)) (environ (host p) !! "HOME") in
  let candidate :=
    default (path_join home [".pyenv"]) (environ (host p) !! "PYENV_ROOT") in
  let pyenv :=
    if bool_decide (is_Some (fs (host p) !! candidate))
    then realpath (host p) candidate else candidate in
  derive_paths p
  = Returns tt
      {| host := host p; stdout := stdout p; venv := venv p;
         app :=
           {| ROOT := ROOT (app p); HOME := home;
              APP := default
                       (default ""
                          (last (PyStr.split (os_sep os_path) (ROOT (app p)))))
                       (environ (host p) !! "LORE_APP");
              REQUIREMENTS := path_join (ROOT (app p)) ["requirements.txt"];
              REQUIREMENTS_VCS := path_join (ROOT (app p)) ["requirements.vcs.txt"];
              PYENV := pyenv; BIN_PYENV := path_join pyenv ["bin"; "pyenv"];
              JUPYTER_KERNEL_PATH := JUPYTER_KERNEL_PATH (app p) |} |}.
Proof.
  simpl. unfold derive_paths, os_path_exists. unfold_monad. simpl.
  by destruct (bool_decide _).
Qed.
End DerivePaths.

(** X12. The application name defaults to the last component of [ROOT]:
    with [LORE_APP] unset, [APP] is what follows the last separator of
    [ROOT] (the empty string when [ROOT] ends with one, [ROOT] itself when
    it has none); a [LORE_APP] that is set, even to the empty string, wins.
    [ROOT], the host and the virtualenv globals are not touched. *)
Theorem app_name_from_root `{L : Library} (p : Proc) :
  ∃ p', derive_paths p = Returns tt p'
        ∧ host p' = host p ∧ venv p' = venv p ∧ stdout p' = stdout p
        ∧ ROOT (app p') = ROOT (app p)
        ∧ (∀ name, environ (host p) !! "LORE_APP" = Some name → APP (app p') = name)
        ∧ (environ (host p) !! "LORE_APP" = None →
           (∀ dir name,
              ROOT (app p) = dir +:+ String (os_sep os_path) name →
              PyStr.count (os_sep os_path) name = 0 →
              APP (app p') = name)
           ∧ (PyStr.count (os_sep os_path) (ROOT (app p)) = 0 →
              APP (app p') = ROOT (app p))).
Proof.
  eexists. split; [apply derive_paths_eq|]. simpl.
  repeat (split; [done|]). split.
  - by intros name ->.
  - intros ->. simpl. split.
    + intros dir name -> Hname. by rewrite last_component.
    + intros Hplain. by rewrite split_plain.
Qed.

Lemma app_name_from_root_witness :
  ∃ p', @derive_paths Demo.plain
          (with_app (upd_ROOT "/srv/app") (fresh Demo.outside)) = Returns tt p'
        ∧ APP (app p') = "app".
Proof.
  destruct (@app_name_from_root Demo.plain
              (with_app (upd_ROOT "/srv/app") (fresh Demo.outside)))
    as (p' & Hderive & _ & _ & _ & _ & _ & Hname).
  exists p'. split; [exact Hderive|].
  apply (proj1 (Hname eq_refl) "/srv" "app"); reflexivity.
Defined.

(** *** [extend_path] *)

(** X13. [extend_path()] only prepends: the new [sys.path] is the old one
    behind at most [LIB] and [ROOT], each added only if it was missing;
    afterwards both are on the path, a second call changes nothing, and a
    path free of duplicates stays so. *)
Theorem extend_path_prepends_once `{L : Library} (p : Proc) (sys_path : list string) :
  let new_path := extend_path p sys_path in
  ROOT (app p) ∈ new_path ∧ LIB p ∈ new_path
  ∧ (∃ added, new_path = added ++ sys_path
              ∧ ∀ x, x ∈ added → (x = LIB p ∨ x = ROOT (app p)) ∧ x ∉ sys_path)
  ∧ extend_path p new_path = new_path
  ∧ (NoDup sys_path → NoDup new_path).
Proof.
  unfold extend_path. simpl.
  destruct (decide (ROOT (app p) ∈ sys_path)) as [Hroot|Hroot];
    [rewrite (bool_decide_eq_false_2 (ROOT (app p) ∉ sys_path)) by tauto
    |rewrite (bool_decide_eq_true_2 (ROOT (app p) ∉ sys_path)) by done].
  - destruct (decide (LIB p ∈ sys_path)) as [Hlib|Hlib];
      [rewrite (bool_decide_eq_false_2 (LIB p ∉ sys_path)) by tauto
      |rewrite (bool_decide_eq_true_2 (LIB p ∉ sys_path)) by done].
    + repeat split; try done.
      * exists []. split; [done|]. by intros x Hx%elem_of_nil.
      * rewrite (bool_decide_eq_false_2 (ROOT (app p) ∉ sys_path)) by tauto.
        by rewrite (bool_decide_eq_false_2 (LIB p ∉ sys_path)) by tauto.
    + assert (ROOT (app p) ∈ LIB p :: sys_path) as Hroot' by (by right).
      assert (LIB p ∈ LIB p :: sys_path) as Hlib' by (by left).
      repeat split; try done.
      * exists [LIB p]. split; [done|].
        intros x ->%list_elem_of_singleton. by split; [left|].
      * rewrite (bool_decide_eq_false_2 (ROOT (app p) ∉ _)) by tauto.
        by rewrite (bool_decide_eq_false_2 (LIB p ∉ _)) by tauto.
      * intros Hnodup. by apply NoDup_cons.
  - destruct (decide (LIB p ∈ ROOT (app p) :: sys_path)) as [Hlib|Hlib];
      [rewrite (bool_decide_eq_false_2 (LIB p ∉ _)) by tauto
      |rewrite (bool_decide_eq_true_2 (LIB p ∉ _)) by done].
    + assert (ROOT (app p) ∈ ROOT (app p) :: sys_path) as Hroot' by (by left).
      repeat split; try done.
      * exists [ROOT (app p)]. split; [done|].
        intros x ->%list_elem_of_singleton. by split; [right|].
      * rewrite (bool_decide_eq_false_2 (ROOT (app p) ∉ _)) by tauto.
        by rewrite (bool_decide_eq_false_2 (LIB p ∉ _)) by tauto.
      * intros Hnodup. by apply NoDup_cons.
    + assert (ROOT (app p) ∈ LIB p :: ROOT (app p) :: sys_path) as Hroot'
        by (right; by left).
      assert (LIB p ∈ LIB p :: ROOT (app p) :: sys_path) as Hlib' by (by left).
      repeat split; try done.
      * exists [LIB p; ROOT (app p)]. split; [done|].
        intros x [-> | ->%list_elem_of_singleton]%elem_of_cons.
        -- split; [by left|]. intros Hin. apply Hlib. by right.
        -- by split; [right|].
      * rewrite (bool_decide_eq_false_2 (ROOT (app p) ∉ _)) by tauto.
        by rewrite (bool_decide_eq_false_2 (LIB p ∉ _)) by tauto.
      * intros Hnodup. apply NoDup_cons. split; [done|]. by apply NoDup_cons.
Qed.

Lemma extend_path_prepends_once_witness :
  NoDup (@extend_path Demo.plain (Demo.imported Demo.outside)
           ["/usr/lib/python3.6"; "/srv/app"]).
Proof.
  apply (proj2 (proj2 (proj2 (proj2
           (@extend_path_prepends_once Demo.plain (Demo.imported Demo.outside)
              ["/usr/lib/python3.6"; "/srv/app"]))))).
  apply (bool_decide_unpack _). vm_compute. exact I.
Defined.

Example extend_path_outside :
  @extend_path Demo.plain (Demo.imported Demo.outside) ["/usr/lib/python3.6"]
  = ["/srv/app/lib"; "/srv/app"; "/usr/lib/python3.6"].
Proof. by vm_compute. Qed.

(** *** [get_config] *)

Section GetConfig.
Context `{L : Library} `{T : Tools}.
Variables (p : Proc) (name path : string).

Let specific : string := path_join (ROOT (app p)) ["config"; name; path].
Let generic : string := path_join (ROOT (app p)) ["config"; path].

Lemma get_config_eq :
  get_config name path p =
    match fs (host p) !! specific with
    | Some (File content) => parse_config (PyStr.universal_newlines content) p
    | Some Directory => Returns None p
    | None =>
        match fs (host p) !! generic with
        | Some (File content) => parse_config (PyStr.universal_newlines content) p
        | _ => Returns None p
        end
    end.
Proof.
  unfold get_config, os_path_exists, os_path_isfile, read_text, parse_config.
  unfold_monad. simpl. fold specific. fold generic.
  destruct (fs (host p) !! specific) as [[|content]|] eqn:Hspecific; simpl.
  - by rewrite Hspecific.
  - by rewrite Hspecific; simpl; rewrite Hspecific.
  - by destruct (fs (host p) !! generic) as [[|content]|] eqn:Hgeneric;
      simpl; rewrite ?Hgeneric; simpl; rewrite ?Hgeneric.
Qed.
End GetConfig.

(** X14. [get_config] prefers the file of the current environment,
    [<ROOT>/config/<NAME>/<path>], to [<ROOT>/config/<path>], and returns
    [None] without raising when the file it settles on is absent; a file
    is parsed as its text reads in text mode.  The
    choice is made with [os.path.exists] and the reading guarded with
    [os.path.isfile]: a directory at the environment's path hides the
    general file, and the result is [None]. *)
Theorem get_config_resolution `{L : Library} `{T : Tools} (p : Proc) (name path : string) :
  let specific := path_join (ROOT (app p)) ["config"; name; path] in
  let generic := path_join (ROOT (app p)) ["config"; path] in
  (∀ content, fs (host p) !! specific = Some (File content) →
     get_config name path p = parse_config (PyStr.universal_newlines content) p) ∧
  (fs (host p) !! specific = Some Directory →
     get_config name path p = Returns None p) ∧
  (fs (host p) !! specific = None →
     (∀ content, fs (host p) !! generic = Some (File content) →
        get_config name path p = parse_config (PyStr.universal_newlines content) p) ∧
     (fs (host p) !! generic = None ∨ fs (host p) !! generic = Some Directory →
        get_config name path p = Returns None p)).
Proof.
  simpl. rewrite get_config_eq. split; [|split].
  - by intros content ->.
  - by intros ->.
  - intros ->. split.
    + by intros content ->.
    + by intros [-> | ->].
Qed.

Lemma get_config_resolution_witness :
  @get_config Demo.plain Demo3.tools "test" "aws.cfg" (Demo.imported Demo3.configured)
    = Returns (Some "[test]") (Demo.imported Demo3.configured)
  ∧ @get_config Demo.plain Demo3.tools "test" "redis.cfg"
      (Demo.imported Demo3.configured)
    = Returns None (Demo.imported Demo3.configured)
  ∧ @get_config Demo.plain Demo3.tools "development" "aws.cfg"
      (Demo.imported Demo3.configured)
    = Returns (Some "[default]") (Demo.imported Demo3.configured)
  ∧ @get_config Demo.plain Demo3.tools "test" "database.cfg"
      (Demo.imported Demo3.configured)
    = Returns None (Demo.imported Demo3.configured).
Proof.
  split; [|split; [|split]].
  - apply (proj1 (@get_config_resolution Demo.plain Demo3.tools
                    (Demo.imported Demo3.configured) "test" "aws.cfg") "[test]").
    reflexivity.
  - apply (proj1 (proj2 (@get_config_resolution Demo.plain Demo3.tools
                    (Demo.imported Demo3.configured) "test" "redis.cfg"))).
    reflexivity.
  - apply (proj1 (proj2 (proj2 (@get_config_resolution Demo.plain Demo3.tools
                    (Demo.imported Demo3.configured) "development" "aws.cfg"))
                    eq_refl) "[default]").
    reflexivity.
  - apply (proj2 (proj2 (proj2 (@get_config_resolution Demo.plain Demo3.tools
                    (Demo.imported Demo3.configured) "test" "database.cfg"))
                    eq_refl)).
    by left.
Defined.

(** *** [load_env_directory] *)

Section LoadEnv.
Context `{L : Library} `{T : Tools}.

Lemma os_environ_set_takes (name value : string) (p : Proc) :
  platform_system (host p) ≠ "Windows" → environ_takes name value →
  os_environ_set name value p
  = Returns tt (with_host (upd_environ (insert name value)) p).
Proof.
  intros Hsys (Hname & Heq & Hnul & Hvalue). unfold os_environ_set. unfold_monad.
  simpl. rewrite bool_decide_eq_false_2 by done.
  rewrite !bool_decide_eq_true_2 by done. simpl. by destruct name.
Qed.

Lemma load_env_files_spec (vars : list string) : ∀ p : Proc,
  platform_system (host p) ≠ "Windows" →
  (∀ var content, var ∈ vars → fs (host p) !! var = Some (File content) →
     environ_takes (os_path_basename os_path var) (PyStr.universal_newlines content)) →
  ∃ p', load_env_files vars p = Returns tt p'
        ∧ fs (host p') = fs (host p) ∧ stdout p' = stdout p
        ∧ app p' = app p ∧ venv p' = venv p
        ∧ (∀ name,
             (∀ var content, var ∈ vars → fs (host p) !! var = Some (File content) →
                os_path_basename os_path var ≠ name) →
             environ (host p') !! name = environ (host p) !! name)
        ∧ (NoDup (os_path_basename os_path <$> vars) →
           ∀ var content, var ∈ vars → fs (host p) !! var = Some (File content) →
             environ (host p') !! os_path_basename os_path var
             = Some (PyStr.universal_newlines content)).
Proof.
  induction vars as [|var vars IH]; intros p Hsys Htakes.
  { exists p. repeat split; try done. intros _ var content Hin.
    by apply elem_of_nil in Hin. }
  simpl load_env_files.
  unfold os_path_isfile, read_text. unfold_monad. simpl.
  destruct (fs (host p) !! var) as [[|content]|] eqn:Hvar; simpl.
  1,3: destruct (IH p Hsys) as (p' & -> & Hfs & Hout & Happ & Hvenv & Hkeep & Hset);
    [ intros v c Hin; apply Htakes; by right
    | exists p'; repeat split; try done;
      [ intros name Hname; apply Hkeep; intros v c Hin; apply Hname; by right
      | intros [_ Hnodup]%NoDup_cons v c [-> | Hin]%elem_of_cons Hfile;
        [congruence | by apply (Hset Hnodup)] ] ..].
  rewrite Hvar. simpl.
  rewrite os_environ_set_takes by (done || by apply (Htakes var); [left|]).
  destruct (IH (with_host
                  (upd_environ (insert (os_path_basename os_path var)
                                  (PyStr.universal_newlines content))) p))
    as (p' & -> & Hfs & Hout & Happ & Hvenv & Hkeep & Hset); [done| |].
  { intros v c Hin. apply Htakes. by right. }
  simpl in *. exists p'. repeat split; try done.
  - intros name Hname. rewrite Hkeep.
    + apply lookup_insert_ne. by apply (Hname var content); [left|].
    + intros v c Hin. apply Hname. by right.
  - intros [Hfresh Hnodup]%NoDup_cons v c [-> | Hin]%elem_of_cons Hfile.
    + assert (c = content) as -> by congruence.
      rewrite Hkeep; [by apply lookup_insert_eq|].
      intros v' c' Hin' _ Heq. apply Hfresh. rewrite <- Heq.
      apply list_elem_of_fmap. eauto.
    + by apply (Hset Hnodup).
Qed.
End LoadEnv.

(** X15. On a host other than Windows, when every regular file among the
    matches has a name and a text that the environment takes (no NUL
    character, a name without [=]), [load_env_directory()] returns:
    directories among the matches are skipped, and every regular file sets
    the variable named after it to the whole text of the file as read in
    text mode, unstripped.  Variables that no regular file is named after
    keep their value; the file system, the output and the globals are not
    touched. *)
Theorem load_env_directory_sets_variables `{L : Library} `{T : Tools}
    (env_directory : string) (p : Proc) :
  let vars := glob_glob (path_join env_directory ["*"]) p in
  platform_system (host p) ≠ "Windows" →
  (∀ var content, var ∈ vars → fs (host p) !! var = Some (File content) →
     environ_takes (os_path_basename os_path var) (PyStr.universal_newlines content)) →
  ∃ p', load_env_directory env_directory p = Returns tt p'
        ∧ fs (host p') = fs (host p) ∧ stdout p' = stdout p
        ∧ app p' = app p ∧ venv p' = venv p
        ∧ (∀ name,
             (∀ var content, var ∈ vars → fs (host p) !! var = Some (File content) →
                os_path_basename os_path var ≠ name) →
             environ (host p') !! name = environ (host p) !! name)
        ∧ (NoDup (os_path_basename os_path <$> vars) →
           ∀ var content, var ∈ vars → fs (host p) !! var = Some (File content) →
             environ (host p') !! os_path_basename os_path var
             = Some (PyStr.universal_newlines content)).
Proof.
  simpl. intros Hsys Htakes. unfold load_env_directory. unfold_monad.
  by apply load_env_files_spec.
Qed.

Lemma load_env_directory_sets_variables_witness :
  ∃ p', @load_env_directory Demo.plain Demo3.tools "/conf/env"
          (Demo.imported Demo3.configured) = Returns tt p'
        ∧ environ (host p') !! "API_KEY" = Some ("secret" +:+ newline)
        ∧ environ (host p') !! "REGION" = Some "us"
        ∧ environ (host p') !! "HOME" = Some "/home/u"
        ∧ environ (host p') !! "old" = None.
Proof.
  assert (∀ var content,
            var ∈ ["/conf/env/API_KEY"; "/conf/env/old"; "/conf/env/REGION"] →
            fs Demo3.configured !! var = Some (File content) →
            var = "/conf/env/API_KEY" ∧ content = "secret" +:+ String CR newline
            ∨ var = "/conf/env/REGION" ∧ content = "us") as Hfiles.
  { intros var content. rewrite !elem_of_cons, elem_of_nil.
    intros [-> | [-> | [-> | []]]]; vm_compute; intros [= <-]; auto. }
  destruct (@load_env_directory_sets_variables Demo.plain Demo3.tools "/conf/env"
              (Demo.imported Demo3.configured))
    as (p' & Hload & _ & _ & _ & _ & Hkeep & Hset).
  { discriminate. }
  { intros var content Hin Hfile.
    destruct (Hfiles var content Hin Hfile) as [[-> ->] | [-> ->]]; by vm_compute. }
  exists p'. split; [exact Hload|].
  assert (NoDup (os_path_basename (@os_path Demo.plain)
                 <$> ["/conf/env/API_KEY"; "/conf/env/old"; "/conf/env/REGION"]))
    as Hnodup by (apply (bool_decide_unpack _); vm_compute; exact I).
  split; [|split; [|split]].
  - apply (Hset Hnodup "/conf/env/API_KEY" ("secret" +:+ String CR newline));
      [|reflexivity].
    apply (bool_decide_unpack _). vm_compute. exact I.
  - apply (Hset Hnodup "/conf/env/REGION" "us"); [|reflexivity].
    apply (bool_decide_unpack _). vm_compute. exact I.
  - rewrite (Hkeep "HOME"); [reflexivity|].
    intros var content Hin Hfile Heq.
    destruct (Hfiles var content Hin Hfile) as [[-> ->] | [-> ->]]; by vm_compute in Heq.
  - rewrite (Hkeep "old"); [reflexivity|].
    intros var content Hin Hfile Heq.
    destruct (Hfiles var content Hin Hfile) as [[-> ->] | [-> ->]]; by vm_compute in Heq.
Defined.

(** A file whose name has a [=] stops the loop with [ValueError]. *)
Example load_env_file_illegal_name :
  ∃ p', @load_env_files Demo.plain Demo3.tools ["/conf/env/A=B"]
          (with_host (upd_fs (insert "/conf/env/A=B" (File "x")))
             (Demo.imported Demo3.configured)) = Raises ValueError p'.
Proof. eexists. by vm_compute. Qed.

(** *** [set_installed_packages] *)

Section Names.
Import PyStr PyRe.

Lemma before_eqeq_cons (a : ascii) (s : string) :
  before_eqeq (String a s)
  = if startswith "==" (String a s) then "" else String a (before_eqeq s).
Proof. done. Qed.

Lemma before_eqeq_name (name version : string) :
  spec_free name = true → before_eqeq (name +:+ "==" +:+ version) = name.
Proof.
  unfold spec_free. induction name as [|a name IH].
  - intros _. by destruct version.
  - intros [Ha Hname]%andb_true_iff.
    change (String a name +:+ "==" +:+ version)
      with (String a (name +:+ "==" +:+ version)).
    rewrite before_eqeq_cons, IH by done.
    destruct (startswith "==" _) eqn:Hstart; [|done].
    apply startswith_iff in Hstart as [rest [= -> _]]. done.
Qed.

Lemma before_spec_name (name : string) (c : ascii) (rest : string) :
  spec_free name = true → is_spec c = true →
  before_spec (name +:+ String c rest) = name.
Proof.
  unfold spec_free. intros Hname Hc.
  induction name as [|a name IH]; simpl in *.
  - by rewrite Hc.
  - apply andb_true_iff in Hname as [Ha Hname].
    change (String a name +:+ String c rest)
      with (String a (name +:+ String c rest)).
    simpl. apply negb_true_iff in Ha. rewrite Ha. by rewrite IH.
Qed.

Lemma before_spec_plain (name : string) :
  spec_free name = true → before_spec name = name.
Proof.
  unfold spec_free. induction name as [|a name IH]; simpl; [done|].
  intros [Ha Hname]%andb_true_iff.
  apply negb_true_iff in Ha. rewrite Ha. by rewrite IH.
Qed.

Lemma lower_char_spec (a : ascii) : is_spec (lower_char a) = is_spec a.
Proof. by destruct a as [[] [] [] [] [] [] [] []]. Qed.

Lemma chars_text (l : list ascii) : chars (text l) = l.
Proof. apply String.list_ascii_of_string_of_list_ascii. Qed.

Lemma lower_spec_free (s : string) : spec_free (lower s) = spec_free s.
Proof.
  unfold spec_free, lower. rewrite chars_text.
  induction (chars s) as [|a l IH]; simpl; [done|].
  by rewrite lower_char_spec, IH.
Qed.

Lemma matches_lore_spec_free (s : string) :
  spec_free s = true → matches_lore s = false.
Proof.
  intros Hfree. unfold matches_lore.
  destruct (startswith "lore" s) eqn:Hlore; [|done].
  apply startswith_iff in Hlore as [rest ->].
  change (skip 4 ("lore" +:+ rest)) with rest. simpl.
  destruct rest as [|a rest]; [done|].
  revert Hfree. unfold spec_free. simpl.
  intros [Ha _]%andb_true_iff. by apply negb_true_iff.
Qed.

Lemma installed_name_listed (name version : string) :
  spec_free name = true →
  installed_name (name +:+ "==" +:+ version) = lower name.
Proof. intros Hname. unfold installed_name. by rewrite before_eqeq_name. Qed.
End Names.

Section SetInstalledPackages.
Context `{L : Library} `{T : Tools}.
Variable p : Proc.

Lemma set_installed_packages_eq :
  set_installed_packages p =
    match BIN_PYTHON (venv p) with
    | None => Raises TypeError p
    | Some python =>
        if bool_decide (is_Some (fs (host p) !! python)) then
          (let* output := subprocess_check_output [python; "-m"; "pip"; "freeze"] in
           let installed := installed_name <$> PyRe.words output in
           let required := List.find PyRe.matches_lore installed in
           ret {| INSTALLED_PACKAGES := Some installed;
                  REQUIRED_VERSION :=
                    if truthy required then PyRe.after_spec <$> required
                    else required |}) p
        else Returns {| INSTALLED_PACKAGES := None; REQUIRED_VERSION := None |} p
    end.
Proof.
  unfold set_installed_packages, os_path_exists. unfold_monad. simpl.
  destruct (BIN_PYTHON (venv p)) as [python|]; simpl; [|done].
  by destruct (bool_decide _).
Qed.

Lemma find_none_all {A} (f : A → bool) (l : list A) :
  (∀ x, x ∈ l → f x = false) → List.find f l = None.
Proof.
  induction l as [|a l IH]; simpl; [done|]. intros Hall.
  rewrite (Hall a) by (by left). apply IH. intros x Hx. apply Hall. by right.
Qed.
End SetInstalledPackages.

(** X16. [set_installed_packages()] raises [TypeError] while [BIN_PYTHON]
    is [None], and sets both globals to [None] when the interpreter of the
    virtualenv does not exist.  When it exists and [pip freeze] lists only
    [name==version] lines, every package is recorded under its lower-cased
    name without the version; no recorded name can then match
    [lore] followed by [! < > =], so [REQUIRED_VERSION] is [None] also when
    [lore==<version>] is listed. *)
Theorem installed_packages_from_freeze `{T : Tools} (p : Proc) :
  (BIN_PYTHON (venv p) = None → set_installed_packages p = Raises TypeError p) ∧
  (∀ python, BIN_PYTHON (venv p) = Some python → fs (host p) !! python = None →
     set_installed_packages p
     = Returns {| INSTALLED_PACKAGES := None; REQUIRED_VERSION := None |} p) ∧
  (∀ python output q,
     BIN_PYTHON (venv p) = Some python → is_Some (fs (host p) !! python) →
     subprocess_check_output [python; "-m"; "pip"; "freeze"] p = Returns output q →
     (∀ r, r ∈ PyRe.words output →
        ∃ name version, r = name +:+ "==" +:+ version ∧ spec_free name = true) →
     ∃ installed,
       set_installed_packages p
       = Returns {| INSTALLED_PACKAGES := Some installed; REQUIRED_VERSION := None |} q
       ∧ ∀ name version,
           spec_free name = true →
           name +:+ "==" +:+ version ∈ PyRe.words output →
           PyStr.lower name ∈ installed).
Proof.
  rewrite set_installed_packages_eq. split; [|split].
  - by intros ->.
  - intros python -> Hnone. rewrite bool_decide_eq_false_2; [done|].
    rewrite Hnone. by intros [? ?].
  - intros python output q -> Hsome Hfreeze Hlisted.
    rewrite bool_decide_eq_true_2 by done. unfold_monad. rewrite Hfreeze.
    exists (installed_name <$> PyRe.words output).
    rewrite find_none_all.
    + split; [done|]. intros name version Hname Hin.
      rewrite <- (installed_name_listed name version Hname).
      apply list_elem_of_fmap. eauto.
    + intros x (r & -> & Hr)%list_elem_of_fmap.
      destruct (Hlisted r Hr) as (name & version & -> & Hname).
      rewrite installed_name_listed by done.
      apply matches_lore_spec_free. by rewrite lower_spec_free.
Qed.

Lemma installed_packages_from_freeze_witness :
  ∃ installed,
    @set_installed_packages Demo3.tools (Demo.imported Demo3.configured)
    = Returns {| INSTALLED_PACKAGES := Some installed; REQUIRED_VERSION := None |}
        (Demo.imported Demo3.configured)
    ∧ "lore" ∈ installed ∧ "pandas" ∈ installed.
Proof.
  destruct (proj2 (proj2 (@installed_packages_from_freeze Demo3.tools
                            (Demo.imported Demo3.configured)))
              (Demo.env362 +:+ "/bin/python3.6")
              ("numpy==1.13.3" +:+ newline +:+ "Pandas==0.20.3" +:+ newline
                 +:+ "lore==0.5.7" +:+ newline)
              (Demo.imported Demo3.configured) eq_refl
              ltac:(by vm_compute; eauto) eq_refl)
    as (installed & Hset & Hnames).
  - intros r Hr.
    change (r ∈ ["numpy==1.13.3"; "Pandas==0.20.3"; "lore==0.5.7"]) in Hr.
    revert Hr. rewrite !elem_of_cons, elem_of_nil.
    intros [-> | [-> | [-> | []]]].
    + by exists "numpy", "1.13.3".
    + by exists "Pandas", "0.20.3".
    + by exists "lore", "0.5.7".
  - exists installed. split; [exact Hset|]. split.
    + apply (Hnames "lore" "0.5.7"); [reflexivity|].
      apply (bool_decide_unpack _). vm_compute. exact I.
    + apply (Hnames "Pandas" "0.20.3"); [reflexivity|].
      apply (bool_decide_unpack _). vm_compute. exact I.
Defined.

(** *** [require] *)

Section Require.
Context `{L : Library} `{T : Tools}.

(** The line printed for a missing requirement. *)
Let is_required (package : string) : string :=
  ansi_info +:+ " " +:+ package +:+ " is required.".

Lemma collect_missing_spec (installed packages : list string) :
  ∀ (missing : list string) (p : Proc),
    collect_missing installed packages missing p
    = Returns (missing ++ missing_of installed packages)
        {| host := host p;
           stdout := stdout p ++ (is_required <$> missing_of installed packages);
           app := app p; venv := venv p |}.
Proof.
  unfold missing_of.
  induction packages as [|package packages IH]; intros missing p; simpl.
  - unfold_monad. rewrite !app_nil_r. by destruct p.
  - rewrite filter_cons.
    destruct (decide (required_name package ∉ installed)) as [Hmiss|Hin].
    + rewrite bool_decide_eq_true_2 by done. unfold_monad. simpl.
      rewrite IH. simpl. by rewrite <- !app_assoc.
    + rewrite bool_decide_eq_false_2 by done. apply IH.
Qed.

Variables (p q : Proc) (assigned : Packages) (packages : list string).
Hypothesis Hassigned : set_installed_packages p = Returns assigned q.

Lemma require_uninstalled :
  INSTALLED_PACKAGES assigned = None → require packages p = Returns assigned q.
Proof.
  intros Hnone. unfold require. unfold_monad. rewrite Hassigned. by rewrite Hnone.
Qed.

Lemma require_present (installed : list string) :
  INSTALLED_PACKAGES assigned = Some installed →
  missing_of installed packages = [] →
  require packages p = Returns assigned q.
Proof.
  intros Hsome Hmissing. unfold require. unfold bind at 1.
  rewrite Hassigned, Hsome. unfold bind at 1.
  rewrite collect_missing_spec, Hmissing. simpl.
  rewrite app_nil_r. by destruct q.
Qed.

Lemma require_missing (installed : list string) :
  INSTALLED_PACKAGES assigned = Some installed →
  missing_of installed packages ≠ [] →
  require packages p =
    (write_text (ROOT (app q)) (REQUIREMENTS (app q))
       (newline +:+ PyStr.join_with newline (missing_of installed packages)
          +:+ newline) >>
     print (ansi_info +:+ " Dependencies added to requirements.txt. Rebooting.") >>
     lore_install >>
     reboot ["--env-checked"] >>
     ret assigned)
      {| host := host q;
         stdout := stdout q ++ (is_required <$> missing_of installed packages);
         app := app q; venv := venv q |}.
Proof.
  intros Hsome Hmissing. unfold require. unfold bind at 1.
  rewrite Hassigned, Hsome. unfold bind at 1.
  rewrite collect_missing_spec. simpl.
  rewrite bool_decide_eq_true_2 by done. done.
Qed.
End Require.

Lemma filter_none {A} (P : A → Prop) `{∀ x, Decision (P x)} (l : list A) :
  (∀ x, x ∈ l → ¬ P x) → filter P l = [].
Proof.
  induction l as [|a l IH]; [done|]. intros Hall.
  rewrite filter_cons, decide_False by (apply Hall; by left).
  apply IH. intros x Hx. apply Hall. by right.
Qed.

(** X17. [require] looks at names only: a requirement counts as installed
    when its name, lower-cased and cut at the first of [! < > =], is a
    recorded name, whatever version the specifier asks for; when all are
    installed it returns without printing or writing anything.  It does
    the same, checking nothing, when the interpreter of the virtualenv does
    not exist ([INSTALLED_PACKAGES] is [None]). *)
Theorem require_checks_names_only `{L : Library} `{T : Tools}
    (p q : Proc) (assigned : Packages) (packages : list string) :
  set_installed_packages p = Returns assigned q →
  (INSTALLED_PACKAGES assigned = None → require packages p = Returns assigned q) ∧
  (∀ installed, INSTALLED_PACKAGES assigned = Some installed →
     (∀ package, package ∈ packages →
        ∃ name, PyStr.lower name ∈ installed ∧ spec_free name = true
                ∧ (package = name
                   ∨ ∃ c rest, PyRe.is_spec c = true
                               ∧ package = name +:+ String c rest)) →
     require packages p = Returns assigned q).
Proof.
  intros Hassigned. split.
  - by apply require_uninstalled.
  - intros installed Hsome Hnames.
    apply (require_present p q assigned packages Hassigned installed Hsome).
    apply filter_none. intros package Hin Hmissing. apply Hmissing.
    destruct (Hnames package Hin) as (name & Hname & Hfree & [-> | (c & rest & Hc & ->)]);
      unfold required_name.
    + by rewrite before_spec_plain.
    + by rewrite before_spec_name.
Qed.

Lemma require_checks_names_only_witness :
  ∃ assigned,
    @require Demo.plain Demo3.tools ["Pandas>=0.19"; "NumPy"]
      (Demo.imported Demo3.configured)
    = Returns assigned (Demo.imported Demo3.configured).
Proof.
  eexists.
  apply (proj2 (@require_checks_names_only Demo.plain Demo3.tools
                  (Demo.imported Demo3.configured) (Demo.imported Demo3.configured)
                  _ ["Pandas>=0.19"; "NumPy"] eq_refl)
           ["numpy"; "pandas"; "lore"] eq_refl).
  intros package. rewrite !elem_of_cons, elem_of_nil.
  intros [-> | [-> | []]].
  - exists "Pandas". split; [|split; [reflexivity|]].
    + apply (bool_decide_unpack _). vm_compute. exact I.
    + right. by exists ">"%char, "=0.19".
  - exists "NumPy". split; [|split; [reflexivity|by left]].
    apply (bool_decide_unpack _). vm_compute. exact I.
Defined.

Section RequireMissing.
Context `{L : Library} `{T : Tools}.

Lemma after_reboot_leaves {A} (before : M unit) (extra : list string)
    (after : M A) (p : Proc) (a : A) (p' : Proc) :
  (before >> reboot extra >> after) p ≠ Returns a p'.
Proof.
  unfold bind. destruct (before p) as [[] q| | | |]; try done.
  pose proof (reboot_leaves extra q) as Hl.
  by destruct (reboot extra q).
Qed.

Lemma write_text_append (directory path data old : string) (p : Proc) :
  fs (host p) !! path = Some (File old) →
  write_text directory path data p
  = Returns tt
      (with_host
         (upd_fs (insert path
                    (File (old +:+ PyStr.platform_newlines os_linesep data)))) p).
Proof. intros Hfile. unfold write_text. unfold_monad. simpl. by rewrite Hfile. Qed.

Lemma write_text_create (directory path data : string) (p : Proc) :
  fs (host p) !! path = None → fs (host p) !! directory = Some Directory →
  write_text directory path data p
  = Returns tt
      (with_host
         (upd_fs (insert path (File (PyStr.platform_newlines os_linesep data)))) p).
Proof.
  intros Hfile Hdir. unfold write_text. unfold_monad. simpl.
  by rewrite Hfile, Hdir.
Qed.
End RequireMissing.

(** X18. When some requirement is missing, [require] appends a blank
    line, the missing requirements one per line and a final newline to
    [requirements.txt] (or writes a new file with that text), each line
    feed stored as the platform's line separator, after printing one line
    for each of them; it then prints that it reboots,
    runs [lore install] and calls [reboot('--env-checked')], and never
    returns to its caller. *)
Theorem require_adds_missing `{L : Library} `{T : Tools}
    (p q : Proc) (assigned : Packages) (packages installed : list string) :
  set_installed_packages p = Returns assigned q →
  INSTALLED_PACKAGES assigned = Some installed →
  missing_of installed packages ≠ [] →
  let missing := missing_of installed packages in
  let added :=
    PyStr.platform_newlines os_linesep
      (newline +:+ PyStr.join_with newline missing +:+ newline) in
  let printed :=
    ((fun package => ansi_info +:+ " " +:+ package +:+ " is required.") <$> missing)
    ++ [ansi_info +:+ " Dependencies added to requirements.txt. Rebooting."] in
  let after (content : string) : Proc :=
    {| host := upd_fs (insert (REQUIREMENTS (app q)) (File content)) (host q);
       stdout := stdout q ++ printed; app := app q; venv := venv q |} in
  (∀ a p', require packages p ≠ Returns a p') ∧
  (∀ old, fs (host q) !! REQUIREMENTS (app q) = Some (File old) →
     require packages p
     = (lore_install >> reboot ["--env-checked"] >> ret assigned) (after (old +:+ added))) ∧
  (fs (host q) !! REQUIREMENTS (app q) = None →
   fs (host q) !! ROOT (app q) = Some Directory →
     require packages p
     = (lore_install >> reboot ["--env-checked"] >> ret assigned) (after added)).
Proof.
  intros Hassigned Hsome Hmissing. simpl.
  rewrite (require_missing p q assigned packages Hassigned installed Hsome Hmissing).
  split; [|split].
  - intros a p'. unfold bind at 1.
    destruct (write_text _ _ _ _) as [[] q1| | | |]; try done.
    unfold bind at 1. destruct (print _ q1) as [[] q2| | | |] eqn:Hprint; try done.
    apply after_reboot_leaves.
  - intros old Hfile. unfold bind at 1.
    rewrite write_text_append with (old := old) by done.
    unfold bind at 1. unfold print, modify, with_stdout, with_host. simpl.
    by rewrite <- app_assoc.
  - intros Hnone Hdir. unfold bind at 1.
    rewrite write_text_create by done.
    unfold bind at 1. unfold print, modify, with_stdout, with_host. simpl.
    by rewrite <- app_assoc.
Qed.

Lemma require_adds_missing_witness :
  @require Demo.plain Demo3.tools ["scikit-learn>=0.19"; "pandas"]
    (Demo.imported Demo3.configured)
  = Replaced (Demo.env362 +:+ "/bin/lore")
      [Demo.env362 +:+ "/bin/lore"; "test"; "--env-launched"; "--env-checked"].
Proof.
  rewrite (proj1 (proj2 (@require_adds_missing Demo.plain Demo3.tools
                    (Demo.imported Demo3.configured) (Demo.imported Demo3.configured)
                    _ ["scikit-learn>=0.19"; "pandas"] ["numpy"; "pandas"; "lore"]
                    eq_refl eq_refl ltac:(by vm_compute))) "pandas" eq_refl).
  by vm_compute.
Defined.

(** *** Version numbers survive the trip through [runtime.txt] *)

Section VersionRoundTrip.
Import PyStr.

Lemma digits_no_dot (s : string) :
  forallb is_decimal (chars s) = true → count "." s = 0.
Proof.
  induction s as [|a s IH]; simpl; [done|].
  intros [Ha Hs]%andb_true_iff. rewrite (IH Hs).
  destruct (decide (a = "."%char)) as [->|]; [done|lia].
Qed.

Lemma str_no_dot (n : N) : count "." (str n) = 0.
Proof. apply digits_no_dot, str_decimal. Qed.

Lemma split_app (c : ascii) (a rest : string) :
  count c a = 0 → split c (a +:+ String c rest) = a :: split c rest.
Proof.
  induction a as [|x a IH]; simpl.
  - intros _. by rewrite decide_True.
  - intros Ha.
    change (String x a +:+ String c rest) with (String x (a +:+ String c rest)).
    simpl. destruct (decide (x = c)); [lia|]. by rewrite IH.
Qed.

Lemma split_dotted (a b c : N) : split "." (dotted a b c) = [str a; str b; str c].
Proof.
  unfold dotted.
  change (str a +:+ "." +:+ str b +:+ "." +:+ str c)
    with (str a +:+ String "."%char (str b +:+ String "."%char (str c))).
  rewrite !split_app by apply str_no_dot.
  by rewrite split_plain by apply str_no_dot.
Qed.

Lemma dotted_nonempty (a b c : N) : dotted a b c ≠ "".
Proof.
  unfold dotted. pose proof (str_nonempty a) as Ha.
  destruct (str a); [done|]. done.
Qed.
End VersionRoundTrip.

Lemma parse_component_str (n : N) : parse_component (PyStr.str n) = Some (VInt n).
Proof. unfold parse_component. by rewrite str_isdigit, int_str. Qed.

(** X19. A version written as [a.b.c] in decimal comes back as the three
    numbers: outside Windows, [set_python_version('a.b.c')] sets
    [PYTHON_VERSION_INFO] to [(a, b, c)], and [check_version()] then
    returns exactly when the running interpreter is version [a.b.c]. *)
Theorem dotted_version_round_trip `{L : Library} (p : Proc) (a b c : N) :
  platform_system (host p) ≠ "Windows" →
  ∃ p', set_python_version (Some (dotted a b c)) p = Returns tt p'
        ∧ PYTHON_VERSION_INFO (venv p') = [VInt a; VInt b; VInt c]
        ∧ (check_version p' = Returns tt p' ↔ sys_version_info (host p) = (a, b, c)).
Proof.
  intros Hsys. eexists. split.
  { apply (set_python_version_full p (dotted a b c) (VInt a) (VInt b) (VInt c) []);
      [apply dotted_nonempty | | done].
    rewrite split_dotted. simpl. by rewrite !parse_component_str. }
  simpl. split; [done|].
  rewrite check_version_returns_iff. unfold running_version. simpl.
  destruct (sys_version_info (host p)) as [[x y] z]. split.
  - by intros [= -> -> ->].
  - by intros [= -> -> ->].
Qed.

Lemma dotted_version_round_trip_witness :
  ∃ p', @set_python_version Demo.plain (Some "3.6.2") (Demo.imported Demo.inside)
        = Returns tt p'
        ∧ PYTHON_VERSION_INFO (venv p') = [VInt 3; VInt 6; VInt 2]
        ∧ @check_version Demo.plain p' = Returns tt p'.
Proof.
  destruct (@dotted_version_round_trip Demo.plain (Demo.imported Demo.inside) 3 6 2
              ltac:(discriminate))
    as (p' & Hset & Hinfo & Hcheck).
  exists p'. split; [exact Hset|]. split; [exact Hinfo|].
  by apply Hcheck.
Defined.

(** *** Launching without a version *)

Section NoVersion.
Context `{L : Library}.

Lemma climb_venv (m : nat) : ∀ (p p' : Proc),
  climb m p = Returns tt p' → ∃ v, venv p' = upd_PYTHON_VERSION v (venv p).
Proof.
  induction m as [|m IH]; intros p p'; [done|].
  simpl climb. unfold_monad. simpl.
  destruct (read_version _ p) as [v q| | | |] eqn:Hread; try done.
  apply read_version_version_at in Hread as [-> _]. simpl.
  destruct (truthy v); simpl.
  { intros [= <-]. by exists v. }
  destruct (bool_decide _); simpl.
  { intros [= <-]. by exists v. }
  intros (w & ->)%IH. by exists w.
Qed.

Lemma locate_root_venv (fuel : nat) (p p' : Proc) :
  locate_root fuel p = Returns tt p' →
  ∃ v, venv p' = upd_PYTHON_VERSION v (venv p).
Proof.
  unfold locate_root. unfold_monad. simpl.
  destruct (truthy (environ (host p) !! "LORE_ROOT")); simpl.
  - destruct (truthy (environ (host p) !! "LORE_PYTHON_VERSION")); simpl.
    { intros [= <-]. eauto. }
    destruct (read_version _ _) as [v q| | | |] eqn:Hread; try done.
    apply read_version_version_at in Hread as [-> _].
    intros [= <-]. by exists v.
  - destruct (truthy (environ (host p) !! "LORE_PYTHON_VERSION")); simpl.
    { intros [= <-]. eauto. }
    intros (w & ->)%climb_venv. by exists w.
Qed.

Lemma set_python_version_keeps_version (v : option string) (p p' : Proc) :
  set_python_version v p = Returns tt p' →
  PYTHON_VERSION (venv p') = v
  ∧ (truthy v = false → venv p' = upd_PYTHON_VERSION v (venv p)).
Proof.
  destruct (truthy v) eqn:Hv.
  - destruct v as [[|c s]|]; try done.
    assert (String c s ≠ "") as Hne by done.
    destruct (mapM parse_component (PyStr.split "." (String c s)))
      as [info|] eqn:Hinfo.
    2: { rewrite (set_python_version_unread p _ Hne); [done|].
         apply not_true_is_false. intros Hread%parse_components_readable.
         rewrite Hinfo in Hread. by destruct Hread. }
    destruct (decide (platform_system (host p) = "Windows")) as [Hwin|Hposix].
    { rewrite (set_python_version_windows p _ info Hne Hinfo Hwin).
      by intros [= <-]. }
    destruct info as [|cx [|cy [|cz more]]].
    1-3: rewrite (set_python_version_short p _ _ Hne Hinfo) by
      (by rewrite ?(length_mapM _ _ _ Hinfo); simpl; try lia); done.
    rewrite (set_python_version_full p _ cx cy cz more Hne Hinfo Hposix).
    by intros [= <-].
  - rewrite (set_python_version_unset p v Hv). by intros [= <-].
Qed.

Lemma module_body_without_version (fuel : nat) (p p' : Proc) :
  module_body fuel p = Returns tt p' →
  truthy (PYTHON_VERSION (venv p')) = false →
  venv p' = upd_PYTHON_VERSION (PYTHON_VERSION (venv p')) (venv p).
Proof.
  unfold module_body. unfold bind at 1.
  destruct (locate_root fuel p) as [[] p1| | | |] eqn:Hlocate; try done.
  apply locate_root_venv in Hlocate as [v Hvenv]. unfold bind at 1.
  destruct (derive_paths_returns p1) as (a1 & -> & _).
  unfold_monad. simpl.
  intros [Hversion Hrest]%set_python_version_keeps_version Hfalsy.
  rewrite Hversion in Hfalsy. rewrite (Hrest Hfalsy). simpl.
  by rewrite Hvenv.
Qed.
End NoVersion.

(** X20. When lines 380-409 of the module body end without a usable
    version ([PYTHON_VERSION] is [None] or empty), no virtualenv path was
    assigned, [launched()] is false and [launch()] raises [TypeError] on
    [os.path.exists(BIN_LORE)] instead of installing or exiting with a
    message; with an empty version [validate()] does not catch this, it
    returns normally when the application module exists. *)
Theorem launch_without_version `{L : Library} (h : Host) (fuel : nat) (p' : Proc) :
  module_body fuel (fresh h) = Returns tt p' →
  truthy (PYTHON_VERSION (venv p')) = false →
  PREFIX (venv p') = None ∧ BIN_LORE (venv p') = None
  ∧ launched p' = false
  ∧ launch p' = Raises TypeError p'
  ∧ (PYTHON_VERSION (venv p') = Some "" →
     is_Some (fs (host p') !! path_join (ROOT (app p')) [APP (app p'); "__init__.py"]) →
     validate p' = Returns tt p').
Proof.
  intros Hbody Hfalsy.
  pose proof (module_body_without_version fuel _ _ Hbody Hfalsy) as Hvenv.
  assert (PREFIX (venv p') = None) as Hprefix by (by rewrite Hvenv).
  assert (BIN_LORE (venv p') = None) as Hlore by (by rewrite Hvenv).
  assert (launched p' = false) as Hout by (unfold launched; by rewrite Hprefix).
  repeat split; try done.
  - unfold launch, os_path_exists. unfold_monad. simpl. rewrite Hout, Hlore. done.
  - intros Hempty Hmodule. apply validate_returns; [done|]. by rewrite Hempty.
Qed.

Lemma launch_without_version_witness :
  ∃ p', @module_body Demo.plain 0 (fresh Demo.blank) = Returns tt p'
        ∧ launched p' = false
        ∧ @launch Demo.plain p' = Raises TypeError p'.
Proof.
  eexists. split; [by vm_compute|].
  destruct (@launch_without_version Demo.plain Demo.blank 0 _ eq_refl eq_refl)
    as (_ & _ & Hout & Hlaunch & _).
  split; [exact Hout | exact Hlaunch].
Defined.
